(** * Medical-Report-Summarizer: the rule-based extraction pipeline

    A shallow embedding of [models/summarizer.py] (class
    [MedicalReportSummarizer]) and the properties of its extraction
    pipeline.

    Layout:
    - Python strings as sequences of Unicode code points, with the
      string methods the program calls ([strip], [lower], [title],
      [split], [in], [int]), as CPython 3.7 and later define them;
    - the fragment of Python's [re] module the program uses, as a
      backtracking matcher that lists the matches of a pattern in
      priority order;
    - the data classes, the patterns and the extractors of
      [summarizer.py], in an exception monad;
    - the rest of [summarizer.py] ([validate_medical_entity],
      [generate_summary_text], [format_summary]), the handler of
      [app.py] and [extract_diagnoses] of the earlier module
      [Model/summarizer.py];
    - the vocabulary of the properties;
    - facts about the matcher and the string functions;
    - the properties of the pipeline;
    - further properties of the program: the shape of what the
      extractors return, the formatted summary and the endpoint. *)

From Stdlib Require Import String Ascii List NArith ZArith Arith Bool Lia Sorted.
Import ListNotations.

Set Implicit Arguments.

(* ================================================================= *)
(** ** Python strings *)

(** A Python [str] is a sequence of code points. *)
Definition char := N.
Definition str := list char.

(** [lit] reads a literal the way the Python source spells it: the two
    characters backslash-n stand for a newline, every other character
    for its own code. *)
Fixpoint lit (s : string) : str :=
  match s with
  | EmptyString => []
  | String a r =>
      match r with
      | String b r' =>
          if (Ascii.eqb a "\" && Ascii.eqb b "n")%bool
          then 10%N :: lit r'
          else N_of_ascii a :: lit r
      | EmptyString => [N_of_ascii a]
      end
  end.

Fixpoint str_eqb (a b : str) : bool :=
  match a, b with
  | [], [] => true
  | x :: a', y :: b' => N.eqb x y && str_eqb a' b'
  | _, _ => false
  end.

Section Ascii.
Local Open Scope N_scope.

Definition is_ascii (c : char) : bool := c <? 128.
Definition ascii_isupper (c : char) : bool := (65 <=? c) && (c <=? 90).
Definition ascii_islower (c : char) : bool := (97 <=? c) && (c <=? 122).
Definition ascii_isalpha (c : char) : bool := ascii_isupper c || ascii_islower c.
Definition ascii_tolower (c : char) : char := if ascii_isupper c then c + 32 else c.
Definition ascii_toupper (c : char) : char := if ascii_islower c then c - 32 else c.

(** [Py_UNICODE_ISSPACE] on the ASCII range: TAB..CR, FS..US, space. *)
Definition ascii_isspace (c : char) : bool :=
  ((9 <=? c) && (c <=? 13)) || ((28 <=? c) && (c <=? 31)) || (c =? 32).

(** [Py_ISSPACE], the C-level test [int] uses once its argument has
    been mapped to ASCII: TAB..CR and space only. *)
Definition c_isspace (c : char) : bool :=
  ((9 <=? c) && (c <=? 13)) || (c =? 32).

Definition ascii_todecimal (c : char) : option N :=
  if (48 <=? c) && (c <=? 57) then Some (c - 48) else None.
End Ascii.

(** What the Python runtime supplies: the Unicode character database,
    for the code points outside ASCII, and the interpreter's limit on
    the digits of an [int] conversion.  CPython answers every character
    query on an ASCII code point from fixed tables and consults the
    database for the rest; the model does the same, so the database
    only speaks about non-ASCII code points. *)
Class Runtime : Type := {
  (** [sys.get_int_max_str_digits()]: 0 when there is no limit (also for
      the interpreters that precede the limit), 4300 by default *)
  int_max_str_digits : nat;
  (** [_PyUnicode_IsWhitespace] *)
  u_isspace : char -> bool;
  (** [_PyUnicode_ToDecimalDigit], [None] for -1 *)
  u_todecimal : char -> option N;
  (** simple case mappings, as used by [re] ([sre_lower_unicode],
      [sre_upper_unicode]) *)
  u_tolower : char -> char;
  u_toupper : char -> char;
  (** the extra case equivalences of [sre_compile._equivalences] *)
  u_fixes : char -> list char;
  (** [str.lower] on a non-ASCII character; the characters before
      (nearest first) and after it are given because the lowering of a
      capital sigma depends on its context *)
  u_lower_full : str -> char -> str -> str;
  (** [_PyUnicode_ToTitleFull] and [_PyUnicode_IsCased] *)
  u_title_full : char -> str;
  u_iscased : char -> bool;
  (** decimal digits have a value below ten and are not whitespace *)
  u_decimal_lt : forall c d, u_todecimal c = Some d -> (d < 10)%N;
  u_decimal_not_space : forall c d, u_todecimal c = Some d -> u_isspace c = false;
  (** the only non-ASCII characters that lowercase into ASCII are
      U+0130 (to "i") and U+212A, the Kelvin sign (to "k") *)
  u_tolower_ascii : forall c, is_ascii c = false -> is_ascii (u_tolower c) = true ->
                              u_tolower c = 105%N \/ u_tolower c = 107%N
}.

(** The default limit on [int] conversions, and a database in which no
    code point outside ASCII is a space, a digit or a cased letter.
    Python agrees with it on every ASCII text. *)
#[export] Instance BasicRuntime : Runtime.
Proof.
  refine {| int_max_str_digits := 4300;
            u_isspace := fun _ => false;
            u_todecimal := fun _ => None;
            u_tolower := fun c => c;
            u_toupper := fun c => c;
            u_fixes := fun _ => [];
            u_lower_full := fun _ c _ => [c];
            u_title_full := fun c => [c];
            u_iscased := fun _ => false |}.
  - intros c d H; discriminate H.
  - intros c d H; reflexivity.
  - intros c H1 H2; rewrite H1 in H2; discriminate H2.
Defined.

Section Strings.
Context {Py : Runtime}.
Local Open Scope N_scope.

(** [str.isspace] on one character, [Py_UNICODE_ISSPACE]. *)
Definition isspace (c : char) : bool :=
  if is_ascii c then ascii_isspace c else u_isspace c.

(** [Py_UNICODE_TODECIMAL]. *)
Definition todecimal (c : char) : option N :=
  if is_ascii c then ascii_todecimal c else u_todecimal c.

(** [Py_UNICODE_ISDECIMAL], the test behind [\d]. *)
Definition isdecimal (c : char) : bool :=
  match todecimal c with Some _ => true | None => false end.

Definition tolower (c : char) : char :=
  if is_ascii c then ascii_tolower c else u_tolower c.
Definition toupper (c : char) : char :=
  if is_ascii c then ascii_toupper c else u_toupper c.

(** [re]'s [iscased]: the character differs from its lower or from
    its upper case. *)
Definition sre_iscased (c : char) : bool :=
  negb (c =? tolower c) || negb (c =? toupper c).

(** [sre_compile._equivalences]: on ASCII, "i" is also matched by
    U+0131 and "s" by U+017F. *)
Definition fixes (c : char) : list char :=
  if is_ascii c then
    (if c =? 105 then [305] else if c =? 115 then [383] else [])
  else u_fixes c.

(** *** [str.strip()] *)
Fixpoint lstrip (s : str) : str :=
  match s with
  | c :: t => if isspace c then lstrip t else s
  | [] => []
  end.
Definition rstrip (s : str) : str := rev (lstrip (rev s)).
Definition strip (s : str) : str := rstrip (lstrip s).

(** *** [str.lower()] *)
Fixpoint lower_from (before : str) (s : str) : str :=
  match s with
  | [] => []
  | c :: t =>
      (if is_ascii c then [ascii_tolower c] else u_lower_full before c t)
        ++ lower_from (c :: before) t
  end.
Definition lower (s : str) : str := lower_from [] s.

(** *** [str.title()]: a character that follows a cased character is
    lowercased, any other is titlecased. *)
Definition iscased (c : char) : bool :=
  if is_ascii c then ascii_isalpha c else u_iscased c.
Fixpoint title_from (before : str) (prev_cased : bool) (s : str) : str :=
  match s with
  | [] => []
  | c :: t =>
      (if prev_cased
       then (if is_ascii c then [ascii_tolower c] else u_lower_full before c t)
       else (if is_ascii c then [ascii_toupper c] else u_title_full c))
        ++ title_from (c :: before) (iscased c) t
  end.
Definition title (s : str) : str := title_from [] false s.

(** *** [needle in hay] *)
Fixpoint startswith (s prefix : str) : bool :=
  match prefix, s with
  | [], _ => true
  | p :: ps, c :: cs => (c =? p) && startswith cs ps
  | _ :: _, [] => false
  end.
Fixpoint contains (needle hay : str) : bool :=
  startswith hay needle ||
  match hay with
  | [] => false
  | _ :: t => contains needle t
  end.

(** *** [s.split(sep)] for a one-character separator *)
Fixpoint split_char (sep : char) (s : str) : list str :=
  match s with
  | [] => [[]]
  | c :: t =>
      if c =? sep then [] :: split_char sep t
      else match split_char sep t with
           | p :: ps => (c :: p) :: ps
           | [] => [[c]]
           end
  end.

(** *** [int(s)]
    The argument is first mapped to ASCII (whitespace to a space, a
    decimal digit to its ASCII digit; any other non-ASCII character is
    an error), then read as: optional whitespace, an optional sign,
    decimal digits in which single underscores may separate digits,
    optional whitespace.  A literal with more digits than the
    interpreter allows is an error as well. *)
Fixpoint int_to_ascii (s : str) : option str :=
  match s with
  | [] => Some []
  | c :: t =>
      let oc := if is_ascii c then Some c
                else if u_isspace c then Some 32
                else match u_todecimal c with
                     | Some d => Some (48 + d)
                     | None => None
                     end in
      match oc, int_to_ascii t with
      | Some a, Some r => Some (a :: r)
      | _, _ => None
      end
  end.

Fixpoint skip_c_space (s : str) : str :=
  match s with
  | c :: t => if c_isspace c then skip_c_space t else s
  | [] => []
  end.

Definition is_digit_or_us (c : char) : bool :=
  match ascii_todecimal c with Some _ => true | None => c =? 95 end.

(** The run of digits and underscores at the head of [s], and what
    follows it. *)
Fixpoint digit_run (s : str) : str * str :=
  match s with
  | c :: t => if is_digit_or_us c
              then let (r, rest) := digit_run t in (c :: r, rest)
              else ([], s)
  | [] => ([], [])
  end.

(** A run is well formed when it starts and ends with a digit and has
    no two underscores in a row. *)
Fixpoint run_ok (prev_us : bool) (r : str) : bool :=
  match r with
  | [] => negb prev_us
  | c :: t => if c =? 95 then negb prev_us && run_ok true t
              else run_ok false t
  end.

(** The digits of a run, and the interpreter's limit on them: a run of
    more than 640 digits is refused when a limit is set and the run
    exceeds it. *)
Definition run_digits (r : str) : nat :=
  length (filter (fun c => negb (c =? 95)) r).
Definition int_exceeds (digits : nat) : bool :=
  ((640 <? digits) && (0 <? int_max_str_digits) && (int_max_str_digits <? digits))%nat.

Definition run_value (r : str) : Z :=
  fold_left (fun acc c => match ascii_todecimal c with
                          | Some d => (10 * acc + Z.of_N d)%Z
                          | None => acc
                          end) r 0%Z.

Definition py_int (s : str) : option Z :=
  match int_to_ascii s with
  | None => None
  | Some a =>
      let a1 := skip_c_space a in
      let (neg, a2) := match a1 with
                       | c :: t => if c =? 45 then (true, t)
                                   else if c =? 43 then (false, t)
                                   else (false, a1)
                       | [] => (false, a1)
                       end in
      let (r, rest) := digit_run a2 in
      match r, skip_c_space rest with
      | _ :: _, [] =>
          if run_ok true r && negb (int_exceeds (run_digits r))
          then Some (if neg then (- run_value r)%Z else run_value r)
          else None
      | _, _ => None
      end
  end.
End Strings.

(* ================================================================= *)
(** ** The [re] module

    Patterns are abstract syntax; each pattern of the program is given
    below next to its source text.  Only the constructs the program
    uses are modelled: literals, [.], character sets with ranges and the
    classes [\d] and [\s], sequence, alternation, greedy and lazy
    repetition, capturing groups, lookahead and the start anchor. *)

Record flags := { IGNORECASE : bool; DOTALL : bool }.

Inductive citem :=
| CChar (c : char)
| CRange (lo hi : char)
| CDigit
| CSpace.

Inductive regex :=
| Eps
| Lit (c : char)
| Any
| CSet (items : list citem)
| Seq (r1 r2 : regex)
| Alt (r1 r2 : regex)
| Star (greedy : bool) (r : regex)
| Group (n : nat) (r : regex)
| Ahead (r : regex)
| Bos.

(** A position of the matcher in the subject string: the index reached,
    the text that remains, and the groups captured so far (latest
    first). *)
Record mstate := { m_pos : nat; m_rest : str; m_caps : list (nat * str) }.

Definition advance (st : mstate) : mstate :=
  {| m_pos := S (m_pos st); m_rest := tl (m_rest st); m_caps := m_caps st |}.

Definition set_cap (n : nat) (w : str) (st : mstate) : mstate :=
  {| m_pos := m_pos st; m_rest := m_rest st; m_caps := (n, w) :: m_caps st |}.

Fixpoint char_range (lo : char) (n : nat) : list char :=
  match n with
  | O => []
  | S k => lo :: char_range (N.succ lo) k
  end.
Definition chars_between (lo hi : char) : list char :=
  char_range lo (N.to_nat (N.succ hi - lo)).

Section Matcher.
Context {Py : Runtime}.
Local Open Scope N_scope.

Definition mem_char (x : char) (l : list char) : bool := existsb (N.eqb x) l.

(** A literal.  Under IGNORECASE a cased literal is compiled to its
    lowercase, together with its extra equivalents, and compared with
    the lowercase of the subject character. *)
Definition lit_match (fl : flags) (p c : char) : bool :=
  if IGNORECASE fl && sre_iscased p
  then let lo := tolower p in
       let x := tolower c in
       (x =? lo) || mem_char x (fixes lo)
  else c =? p.

Definition item_mem (it : citem) (c : char) : bool :=
  match it with
  | CChar p => c =? p
  | CRange lo hi => (lo <=? c) && (c <=? hi)
  | CDigit => isdecimal c
  | CSpace => isspace c
  end.

Definition item_cased (it : citem) : bool :=
  match it with
  | CChar p => sre_iscased p
  | CRange lo hi => existsb sre_iscased (chars_between lo hi)
  | CDigit | CSpace => false
  end.

(** Membership of an already lowercased character [x] in the
    case-folded set ([_optimize_charset] with a fixup). *)
Definition folded_mem (p x : char) : bool :=
  let lo := tolower p in (x =? lo) || mem_char x (fixes lo).
Definition item_mem_ci (it : citem) (x : char) : bool :=
  match it with
  | CChar p => folded_mem p x
  | CRange lo hi => existsb (fun p => folded_mem p x) (chars_between lo hi)
  | CDigit => isdecimal x
  | CSpace => isspace x
  end.

(** A set.  Under IGNORECASE a set with a cased member tests the
    lowercase of the subject character against the folded set; a set
    without one is tested as it is. *)
Definition set_match (fl : flags) (items : list citem) (c : char) : bool :=
  if IGNORECASE fl && existsb item_cased items
  then existsb (fun it => item_mem_ci it (tolower c)) items
  else existsb (fun it => item_mem it c) items.

(** [.]: any character, except a newline unless DOTALL. *)
Definition any_match (fl : flags) (c : char) : bool :=
  DOTALL fl || negb (c =? 10).

Definition step_if (ok : char -> bool) (st : mstate) : list mstate :=
  match m_rest st with
  | c :: _ => if ok c then [advance st] else []
  | [] => []
  end.

(** Repetition of [body].  An iteration must consume input (no starred
    sub-pattern of the program can match the empty string).  A greedy
    repetition prefers one more iteration, a lazy one prefers to stop.
    [fuel] bounds the number of iterations; the length of the
    remaining text plus one is always enough ([star_iter_fuel]). *)
Fixpoint star_iter (body : mstate -> list mstate) (greedy : bool)
         (fuel : nat) (st : mstate) : list mstate :=
  match fuel with
  | O => [st]
  | S f =>
      let more :=
        flat_map (star_iter body greedy f)
                 (filter (fun st' => (length (m_rest st') <? length (m_rest st))%nat)
                         (body st)) in
      if greedy then more ++ [st] else st :: more
  end.

(** All the ways [r] matches at [st], in the order in which a
    backtracking matcher tries them; Python's match is the first. *)
Fixpoint rmatch (fl : flags) (r : regex) (st : mstate) : list mstate :=
  match r with
  | Eps => [st]
  | Lit p => step_if (lit_match fl p) st
  | Any => step_if (any_match fl) st
  | CSet items => step_if (set_match fl items) st
  | Seq a b => flat_map (rmatch fl b) (rmatch fl a st)
  | Alt a b => rmatch fl a st ++ rmatch fl b st
  | Star g a => star_iter (rmatch fl a) g (S (length (m_rest st))) st
  | Group n a =>
      map (fun st' => set_cap n (firstn (m_pos st' - m_pos st) (m_rest st)) st')
          (rmatch fl a st)
  | Ahead a => match rmatch fl a st with [] => [] | _ :: _ => [st] end
  | Bos => if (m_pos st =? 0)%nat then [st] else []
  end.

(** *** Match objects *)
Record Match := { m_start : nat; m_end : nat; m_groups : list (nat * str) }.

(** [m.group(n)], [None] when the group took no part in the match. *)
Fixpoint assoc (n : nat) (l : list (nat * str)) : option str :=
  match l with
  | [] => None
  | (k, w) :: t => if (k =? n)%nat then Some w else assoc n t
  end.
Definition group (m : Match) (n : nat) : option str := assoc n (m_groups m).

(** The first match of [r] at [pos]; after an empty match at the same
    place ([must_advance]) an empty match is not accepted. *)
Definition match_at (fl : flags) (r : regex) (must_advance : bool)
           (pos : nat) (rest : str) : option mstate :=
  find (fun st' => negb must_advance || negb (m_pos st' =? pos)%nat)
       (rmatch fl r {| m_pos := pos; m_rest := rest; m_caps := [] |}).

(** The scan of [re.search]: the leftmost position with a match. *)
Fixpoint search_from (fl : flags) (r : regex) (must_advance : bool)
         (pos : nat) (rest : str) : option (nat * mstate) :=
  match match_at fl r must_advance pos rest with
  | Some st' => Some (pos, st')
  | None =>
      match rest with
      | [] => None
      | _ :: t => search_from fl r false (S pos) t
      end
  end.

Definition to_match (hit : nat * mstate) : Match :=
  {| m_start := fst hit; m_end := m_pos (snd hit); m_groups := m_caps (snd hit) |}.

Definition re_search (fl : flags) (r : regex) (text : str) : option Match :=
  option_map to_match (search_from fl r false 0 text).

Definition re_match (fl : flags) (r : regex) (text : str) : option Match :=
  option_map (fun st' => to_match (0%nat, st')) (match_at fl r false 0 text).

(** [re.finditer]: successive matches, each search starting where the
    previous match ended.  Every step shortens the remaining text or
    turns [must_advance] on, so twice the length of the text plus two
    steps are enough ([finditer_fuel]). *)
Fixpoint finditer_from (fl : flags) (r : regex) (fuel : nat) (must_advance : bool)
         (pos : nat) (rest : str) : list (nat * mstate) :=
  match fuel with
  | O => []
  | S f =>
      match search_from fl r must_advance pos rest with
      | None => []
      | Some (s, st') =>
          (s, st') :: finditer_from fl r f (m_pos st' =? s)%nat (m_pos st') (m_rest st')
      end
  end.

Definition re_finditer (fl : flags) (r : regex) (text : str) : list Match :=
  map to_match (finditer_from fl r (2 * length text + 2) false 0 text).

(** [re.findall] for a pattern with one group: the text of group 1 of
    every match, empty when the group took no part. *)
Definition re_findall1 (fl : flags) (r : regex) (text : str) : list str :=
  map (fun m => match group m 1 with Some w => w | None => [] end)
      (re_finditer fl r text).

(** [re.split] for a pattern without groups: the pieces of the text
    between the matches. *)
Fixpoint split_pieces (text : str) (cur : nat) (ms : list Match) : list str :=
  match ms with
  | [] => [skipn cur text]
  | m :: ms' =>
      firstn (m_start m - cur) (skipn cur text) :: split_pieces text (m_end m) ms'
  end.
Definition re_split (fl : flags) (r : regex) (text : str) : list str :=
  split_pieces text 0 (re_finditer fl r text).

(** [re.sub(pattern, '', text)]: the text without the matches. *)
Definition re_sub_empty (fl : flags) (r : regex) (text : str) : str :=
  concat (re_split fl r text).
End Matcher.

(** *** Building patterns *)
Definition lits (s : str) : regex := fold_right (fun c r => Seq (Lit c) r) Eps s.
Definition seqs (rs : list regex) : regex := fold_right Seq Eps rs.
Fixpoint alts (rs : list regex) : regex :=
  match rs with
  | [] => CSet []
  | [r] => r
  | r :: t => Alt r (alts t)
  end.
Definition plus (r : regex) : regex := Seq r (Star true r).
Definition plus_lazy (r : regex) : regex := Seq r (Star false r).
Definition star (r : regex) : regex := Star true r.
Definition star_lazy (r : regex) : regex := Star false r.
Definition opt (r : regex) : regex := Alt r Eps.
Definition str_ (s : string) : regex := lits (lit s).
Definition ch (s : string) : char :=
  match s with String a _ => N_of_ascii a | EmptyString => 0%N end.
Arguments lit s%_string.
Arguments str_ s%_string.
Arguments ch s%_string.

(* ================================================================= *)
(** ** Exceptions *)

Inductive exn := ValueError | TypeError | AttributeError | IndexError.

Inductive result (A : Type) : Type :=
| Ok (a : A)
| Raise (e : exn).
Arguments Ok {A} a.
Arguments Raise {A} e.

Definition bind {A B : Type} (c : result A) (k : A -> result B) : result B :=
  match c with
  | Ok a => k a
  | Raise e => Raise e
  end.

Notation "x <- c ;; k" := (bind c (fun x => k))
  (at level 61, c at next level, right associativity).

(** A value that Python would let be [None]: using it as a string
    raises.  (Where the program only stores such a value in a field
    annotated [str], the model raises as well; the theorems show that
    neither happens.) *)
Definition need {A : Type} (e : exn) (o : option A) : result A :=
  match o with
  | Some a => Ok a
  | None => Raise e
  end.

Fixpoint mapM {A B : Type} (f : A -> result B) (l : list A) : result (list B) :=
  match l with
  | [] => Ok []
  | a :: t => b <- f a ;; bs <- mapM f t ;; Ok (b :: bs)
  end.

(* ================================================================= *)
(** ** The data classes of [summarizer.py] *)

Record PatientInfo := {
  name : str;
  age : str;
  gender : str;
  mrn : str;
  dob : str
}.

(** A [Dict[str, str]]: assignment to a present key replaces its value
    in place, assignment to a new key appends. *)
Definition dict := list (str * str).

Fixpoint dict_get (k : str) (d : dict) : option str :=
  match d with
  | [] => None
  | (k', v) :: t => if str_eqb k' k then Some v else dict_get k t
  end.

Fixpoint dict_set (k v : str) (d : dict) : dict :=
  match d with
  | [] => [(k, v)]
  | (k', v') :: t => if str_eqb k' k then (k', v) :: t else (k', v') :: dict_set k v t
  end.

Record MedicalSummary := {
  patient_info : PatientInfo;
  chief_complaint : str;
  diagnosis : list str;
  medications : list str;
  vital_signs : dict;
  procedures : list str;
  allergies : list str;
  lab_results : list str;
  recommendations : list str;
  critical_flags : list str
}.

Definition set_critical_flags (s : MedicalSummary) (f : list str) : MedicalSummary :=
  {| patient_info := patient_info s; chief_complaint := chief_complaint s;
     diagnosis := diagnosis s; medications := medications s;
     vital_signs := vital_signs s; procedures := procedures s;
     allergies := allergies s; lab_results := lab_results s;
     recommendations := recommendations s; critical_flags := f |}.

(** The instance state set up by [__init__]: whether the spaCy model
    and the summarization pipeline could be loaded. *)
Record MedicalReportSummarizer := {
  nlp : option unit;
  summarizer : option unit
}.

(* ================================================================= *)
(** ** The patterns of [summarizer.py] *)

Definition no_flags : flags := {| IGNORECASE := false; DOTALL := false |}.
Definition re_I : flags := {| IGNORECASE := true; DOTALL := false |}.
Definition re_IS : flags := {| IGNORECASE := true; DOTALL := true |}.

(** [\d], [\s], [\.], [\n] *)
Definition digit : regex := CSet [CDigit].
Definition space : regex := CSet [CSpace].
Definition dot : regex := Lit (ch ".").
Definition newline : regex := Lit 10%N.
(** [[:\s]] *)
Definition colon_space : regex := CSet [CChar (ch ":"); CSpace].
(** [[A-Za-z]] *)
Definition alpha : regex := CSet [CRange (ch "A") (ch "Z"); CRange (ch "a") (ch "z")].
(** [[-â€¢]] and [[-â€“]], as the source file spells them: a hyphen and
    the code points U+00E2, U+20AC and U+00A2, resp. U+201C. *)
Definition bullet : regex := CSet [CChar (ch "-"); CChar 226%N; CChar 8364%N; CChar 162%N].
Definition dash : regex := CSet [CChar (ch "-"); CChar 226%N; CChar 8364%N; CChar 8220%N].
(** [\d+\.?\d*] *)
Definition decimal_number : regex := seqs [plus digit; opt dot; star digit].

(** r"Patient[:\s]+([A-Za-z\s,]+?)(?:\n|Age|DOB|MRN)" and
    r"Name[:\s]+([A-Za-z\s,]+?)(?:\n|Age|DOB|MRN)" *)
Definition name_chars : regex :=
  CSet [CRange (ch "A") (ch "Z"); CRange (ch "a") (ch "z"); CSpace; CChar (ch ",")].
Definition name_pattern (heading : string) : regex :=
  seqs [str_ heading; plus colon_space; Group 1 (plus_lazy name_chars);
        alts [newline; str_ "Age"; str_ "DOB"; str_ "MRN"]].
Definition name_patterns : list regex := [name_pattern "Patient"; name_pattern "Name"].

(** r"Age[:\s]+(\d+)" *)
Definition age_pattern : regex :=
  seqs [str_ "Age"; plus colon_space; Group 1 (plus digit)].
(** r"(?:Gender|Sex)[:\s]+(Male|Female|M|F)" *)
Definition gender_pattern : regex :=
  seqs [alts [str_ "Gender"; str_ "Sex"]; plus colon_space;
        Group 1 (alts [str_ "Male"; str_ "Female"; str_ "M"; str_ "F"])].
(** r"MRN[:\s]+([A-Z0-9]+)" *)
Definition mrn_pattern : regex :=
  seqs [str_ "MRN"; plus colon_space;
        Group 1 (plus (CSet [CRange (ch "A") (ch "Z"); CRange (ch "0") (ch "9")]))].

(** A section: r"<heading>[:\s]+(.*?)(?:<terminators>)" *)
Definition section_pattern (heading : regex) (terminators : list string) : regex :=
  seqs [heading; plus colon_space; Group 1 (star_lazy Any); alts (map str_ terminators)].

(** r"Chief Complaint[:\s]+(.*?)(?:\n\n|History of Present)",
    r"Presenting Problem[:\s]+(.*?)(?:\n\n|History)",
    r"CC[:\s]+(.*?)(?:\n\n|HPI)" *)
Definition chief_complaint_patterns : list regex :=
  [section_pattern (str_ "Chief Complaint") ["\n\n"; "History of Present"];
   section_pattern (str_ "Presenting Problem") ["\n\n"; "History"];
   section_pattern (str_ "CC") ["\n\n"; "HPI"]]%string.

(** r"(?:Primary\s+)?Diagnosis[es]*[:\s]+(.*?)(?:\n\n|Plan|Medications|Treatment)",
    r"(?:Final\s+)?Impression[:\s]+(.*?)(?:\n\n|Plan|Recommendations)",
    r"Assessment[:\s]+(.*?)(?:\n\n|Plan|Treatment)",
    r"ICD[:\s]*(?:10|9)[:\s]+(.*?)(?:\n\n|Plan)" *)
Definition diagnosis_patterns : list regex :=
  [section_pattern
     (seqs [opt (seqs [str_ "Primary"; plus space]); str_ "Diagnosis";
            star (CSet [CChar (ch "e"); CChar (ch "s")])])
     ["\n\n"; "Plan"; "Medications"; "Treatment"];
   section_pattern
     (seqs [opt (seqs [str_ "Final"; plus space]); str_ "Impression"])
     ["\n\n"; "Plan"; "Recommendations"];
   section_pattern (str_ "Assessment") ["\n\n"; "Plan"; "Treatment"];
   section_pattern
     (seqs [str_ "ICD"; star colon_space; alts [str_ "10"; str_ "9"]])
     ["\n\n"; "Plan"]]%string.

(** r'\n\s*\d+\.|\n\s*[-â€¢]|\n(?=\d+\.)' *)
Definition item_delimiter : regex :=
  alts [seqs [newline; star space; plus digit; dot];
        seqs [newline; star space; bullet];
        seqs [newline; Ahead (seqs [plus digit; dot])]].
(** r'^\d+\.\s*' *)
Definition numbering : regex := seqs [Bos; plus digit; dot; star space].
(** r'^[-â€¢]\s*' *)
Definition bullet_mark : regex := seqs [Bos; bullet; star space].
(** r'[-â€“]\s*(?:stable|controlled|improved|management|adjustment)' *)
Definition management_note : regex :=
  seqs [dash; star space;
        alts [str_ "stable"; str_ "controlled"; str_ "improved";
              str_ "management"; str_ "adjustment"]].

(** r"Medications?[:\s]+(.*?)(?:\n\n|Allergies|Procedures)",
    r"Current Medications[:\s]+(.*?)(?:\n\n|Allergies|Procedures)",
    r"Rx[:\s]+(.*?)(?:\n\n|Allergies|Procedures)" *)
Definition medication_patterns : list regex :=
  [section_pattern (seqs [str_ "Medication"; opt (Lit (ch "s"))])
                   ["\n\n"; "Allergies"; "Procedures"];
   section_pattern (str_ "Current Medications") ["\n\n"; "Allergies"; "Procedures"];
   section_pattern (str_ "Rx") ["\n\n"; "Allergies"; "Procedures"]]%string.

(** r"(WORDS)\s+\d+(?:mg|mcg|g)", where WORDS stands for the
    sub-pattern [A-Za-z]+(?:\s+[A-Za-z]+)* *)
Definition dosage_pattern : regex :=
  seqs [Group 1 (seqs [plus alpha; star (seqs [plus space; plus alpha])]);
        plus space; plus digit; alts [str_ "mg"; str_ "mcg"; str_ "g"]].
(** r'^\d+\.' *)
Definition numbered_line : regex := seqs [Bos; plus digit; dot].

(** r"BP[:\s]+(\d+/\d+)", r"HR[:\s]+(\d+)", r"Temp[:\s]+(NUM)",
    r"RR[:\s]+(\d+)", r"O2 Sat[:\s]+(\d+%)", where NUM stands for the
    sub-pattern \d+\.?\d* ([decimal_number]) *)
Definition bp_pattern : regex :=
  seqs [str_ "BP"; plus colon_space;
        Group 1 (seqs [plus digit; Lit (ch "/"); plus digit])].
Definition hr_pattern : regex := seqs [str_ "HR"; plus colon_space; Group 1 (plus digit)].
Definition temp_pattern : regex :=
  seqs [str_ "Temp"; plus colon_space; Group 1 decimal_number].
Definition rr_pattern : regex := seqs [str_ "RR"; plus colon_space; Group 1 (plus digit)].
Definition o2_pattern : regex :=
  seqs [str_ "O2 Sat"; plus colon_space; Group 1 (seqs [plus digit; Lit (ch "%")])].

(** r"(Hemoglobin|Hgb)[:\s]+(NUM)", r"(WBC|White Blood Cell)[:\s]+(NUM)",
    r"(Glucose)[:\s]+(\d+)", r"(Creatinine)[:\s]+(NUM)",
    r"(BUN)[:\s]+(\d+)", r"(Cholesterol)[:\s]+(\d+)" *)
Definition lab_pattern (names : list string) (value : regex) : regex :=
  seqs [Group 1 (alts (map str_ names)); plus colon_space; Group 2 value].
Definition lab_patterns : list regex :=
  [lab_pattern ["Hemoglobin"; "Hgb"] decimal_number;
   lab_pattern ["WBC"; "White Blood Cell"] decimal_number;
   lab_pattern ["Glucose"] (plus digit);
   lab_pattern ["Creatinine"] decimal_number;
   lab_pattern ["BUN"] (plus digit);
   lab_pattern ["Cholesterol"] (plus digit)]%string.

(* ================================================================= *)
(** ** The extractors of [MedicalReportSummarizer] *)

Section Summarizer.
Context {Py : Runtime}.
Definition new_patient : PatientInfo :=
  {| name := []; age := []; gender := []; mrn := []; dob := [] |}.
Definition with_name (p : PatientInfo) (v : str) : PatientInfo :=
  {| name := v; age := age p; gender := gender p; mrn := mrn p; dob := dob p |}.
Definition with_age (p : PatientInfo) (v : str) : PatientInfo :=
  {| name := name p; age := v; gender := gender p; mrn := mrn p; dob := dob p |}.
Definition with_gender (p : PatientInfo) (v : str) : PatientInfo :=
  {| name := name p; age := age p; gender := v; mrn := mrn p; dob := dob p |}.
Definition with_mrn (p : PatientInfo) (v : str) : PatientInfo :=
  {| name := name p; age := age p; gender := gender p; mrn := v; dob := dob p |}.

(** [for pattern in name_patterns: ... break] *)
Fixpoint extract_name (patterns : list regex) (text : str) (patient : PatientInfo)
  : result PatientInfo :=
  match patterns with
  | [] => Ok patient
  | pattern :: more =>
      match re_search re_I pattern text with
      | Some m =>
          g <- need AttributeError (group m 1) ;;
          Ok (with_name patient (strip g))
      | None => extract_name more text patient
      end
  end.

(** [if m: patient.<field> = m.group(1)] *)
Definition extract_field (pattern : regex) (text : str)
           (store : PatientInfo -> str -> PatientInfo) (patient : PatientInfo)
  : result PatientInfo :=
  match re_search re_I pattern text with
  | Some m => g <- need TypeError (group m 1) ;; Ok (store patient g)
  | None => Ok patient
  end.

Definition extract_patient_info (self : MedicalReportSummarizer) (text : str) : result PatientInfo :=
  patient <- extract_name name_patterns text new_patient ;;
  patient <- extract_field age_pattern text with_age patient ;;
  patient <- extract_field gender_pattern text with_gender patient ;;
  patient <- extract_field mrn_pattern text with_mrn patient ;;
  Ok patient.

Fixpoint first_section (patterns : list regex) (text : str) : result (option str) :=
  match patterns with
  | [] => Ok None
  | pattern :: more =>
      match re_search re_IS pattern text with
      | Some m => g <- need AttributeError (group m 1) ;; Ok (Some g)
      | None => first_section more text
      end
  end.

Definition extract_chief_complaint (self : MedicalReportSummarizer) (text : str) : result str :=
  found <- first_section chief_complaint_patterns text ;;
  match found with
  | Some g => Ok (strip g)
  | None => Ok []
  end.

Definition exclude_words : list str :=
  map lit ["adjustment"; "management"; "follow-up"; "monitoring"; "continued";
           "stable"; "controlled"; "improved"; "resolved"; "plan"; "care";
           "treatment"; "therapy"; "medication"; "drug"; "well-controlled"]%string.

Definition medical_indicators : list str :=
  map lit ["syndrome"; "disease"; "disorder"; "condition"; "emia"; "itis";
           "osis"; "pathy"; "cancer"; "tumor"; "failure"; "infarction";
           "pneumonia"; "diabetes"; "hypertension"; "coronary"; "acute"]%string.

(** [any(w in s for w in words)] *)
Definition any_in (words : list str) (s : str) : bool :=
  existsb (fun w => contains w s) words.

(** The candidate text of an item: the item stripped, without its
    numbering or bullet. *)
Definition candidate (item : str) : str :=
  re_sub_empty no_flags bullet_mark (re_sub_empty no_flags numbering (strip item)).

(** The body of the loop of [clean_diagnosis_text]: [None] when the
    item is skipped, the diagnosis appended otherwise. *)
Definition clean_item (item : str) : result (option str) :=
  let item := strip item in
  if (match item with [] => true | _ => false end) || (length item <? 5)%nat
  then Ok None
  else
    let item := re_sub_empty no_flags numbering item in
    let item := re_sub_empty no_flags bullet_mark item in
    let item_lower := lower item in
    if any_in exclude_words item_lower && negb (any_in medical_indicators item_lower)
    then Ok None
    else
      diagnosis_part <- need IndexError (nth_error (re_split no_flags management_note item) 0) ;;
      let diagnosis_part := strip diagnosis_part in
      if negb (match diagnosis_part with [] => true | _ => false end)
         && (3 <? length diagnosis_part)%nat
      then Ok (Some diagnosis_part)
      else Ok None.

Fixpoint keep {A : Type} (l : list (option A)) : list A :=
  match l with
  | [] => []
  | Some a :: t => a :: keep t
  | None :: t => keep t
  end.

Definition clean_diagnosis_text (self : MedicalReportSummarizer) (text : str) : result (list str) :=
  let items := re_split no_flags item_delimiter text in
  cleaned <- mapM clean_item items ;;
  Ok (keep cleaned).

Definition extract_diagnoses (self : MedicalReportSummarizer) (text : str) : result (list str) :=
  found <- first_section diagnosis_patterns text ;;
  diagnoses <- match found with
               | Some g => clean_diagnosis_text self (strip g)
               | None => Ok []
               end ;;
  Ok (firstn 10 diagnoses).

(** The lines kept by the loop over [med_text.split('\n')]. *)
Definition medication_lines (med_text : str) : list str :=
  filter (fun line =>
            negb (match line with [] => true | _ => false end)
            && negb (match re_match no_flags numbered_line line with
                     | Some _ => true | None => false end))
         (map strip (split_char 10%N med_text)).

Fixpoint first_medication_section (patterns : list regex) (text : str)
  : result (option str) :=
  match patterns with
  | [] => Ok None
  | pattern :: more =>
      match re_search re_IS pattern text with
      | Some m => g <- need TypeError (group m 1) ;; Ok (Some g)
      | None => first_medication_section more text
      end
  end.

Definition extract_medications (self : MedicalReportSummarizer) (text : str) : result (list str) :=
  found <- first_medication_section medication_patterns text ;;
  let medications :=
    match found with
    | Some med_text =>
        re_findall1 no_flags dosage_pattern med_text ++ medication_lines med_text
    | None => []
    end in
  Ok (firstn 15 medications).

Definition blood_pressure_key : str := lit "Blood Pressure".

(** [if m: vitals[key] = m.group(1) + suffix] *)
Definition extract_vital (pattern : regex) (key : str) (suffix : str)
           (text : str) (vitals : dict) : result dict :=
  match re_search re_I pattern text with
  | Some m => g <- need TypeError (group m 1) ;; Ok (dict_set key (g ++ suffix) vitals)
  | None => Ok vitals
  end.

Definition extract_vital_signs (self : MedicalReportSummarizer) (text : str) : result dict :=
  vitals <- extract_vital bp_pattern blood_pressure_key [] text [] ;;
  vitals <- extract_vital hr_pattern (lit "Heart Rate") (lit " bpm") text vitals ;;
  vitals <- extract_vital temp_pattern (lit "Temperature") [194; 176; 70]%N text vitals ;;
  vitals <- extract_vital rr_pattern (lit "Respiratory Rate") (lit " /min") text vitals ;;
  vitals <- extract_vital o2_pattern (lit "Oxygen Saturation") [] text vitals ;;
  Ok vitals.

(** [f"{match.group(1)}: {match.group(2)}"] *)
Definition format_group (g : option str) : str :=
  match g with Some w => w | None => lit "None" end.
Definition format_lab (m : Match) : str :=
  format_group (group m 1) ++ lit ": " ++ format_group (group m 2).

Definition extract_lab_results (self : MedicalReportSummarizer) (text : str) : list str :=
  fold_left (fun labs pattern =>
               fold_left (fun labs m => labs ++ [format_lab m])
                         (re_finditer re_I pattern text) labs)
            lab_patterns [].

Definition critical_terms : list str :=
  map lit ["critical"; "urgent"; "emergency"; "acute"; "severe";
           "chest pain"; "shortness of breath"; "stroke"; "heart attack";
           "allergic reaction"; "sepsis"; "pneumonia"]%string.

(** The prefix of every flag, as the source file spells it: the code
    points U+00E2, U+0161, U+00A0, U+00EF, U+00B8 and a space. *)
Definition flag_prefix : str := [226; 353; 160; 239; 184; 32]%N.
Definition term_flag (term : str) : str :=
  flag_prefix ++ title term ++ lit " mentioned".
Definition abnormal_bp_flag : str := flag_prefix ++ lit "Abnormal Blood Pressure".

(** The loop over [critical_terms]. *)
Definition vocabulary_flags (text : str) : list str :=
  let text_lower := lower text in
  fold_left (fun flags term =>
               if contains term text_lower then flags ++ [term_flag term] else flags)
            critical_terms [].

Definition identify_critical_flags (self : MedicalReportSummarizer) (text : str) (summary : MedicalSummary)
  : result (list str) :=
  let flags := vocabulary_flags text in
  match dict_get blood_pressure_key (vital_signs summary) with
  | Some bp =>
      if contains (lit "/") bp then
        part <- need IndexError (nth_error (split_char (ch "/") bp) 0) ;;
        systolic <- need ValueError (py_int part) ;;
        if ((140 <? systolic) || (systolic <? 90))%Z
        then Ok (flags ++ [abnormal_bp_flag])
        else Ok flags
      else Ok flags
  | None => Ok flags
  end.

Definition summarize_report (self : MedicalReportSummarizer) (medical_report : str) : result MedicalSummary :=
  patient_info <- extract_patient_info self medical_report ;;
  chief_complaint <- extract_chief_complaint self medical_report ;;
  diagnoses <- extract_diagnoses self medical_report ;;
  medications <- extract_medications self medical_report ;;
  vital_signs <- extract_vital_signs self medical_report ;;
  let lab_results := extract_lab_results self medical_report in
  let summary :=
    {| patient_info := patient_info;
       chief_complaint := chief_complaint;
       diagnosis := diagnoses;
       medications := medications;
       vital_signs := vital_signs;
       procedures := [];
       allergies := [];
       lab_results := lab_results;
       recommendations := [];
       critical_flags := [] |} in
  flags <- identify_critical_flags self medical_report summary ;;
  Ok (set_critical_flags summary flags).
End Summarizer.

(* ================================================================= *)
(** ** The rest of [summarizer.py]

    The methods of [MedicalReportSummarizer] that [summarize_report]
    does not call, with the string functions they need. *)

(** [sep.join(items)] *)
Fixpoint join (sep : str) (items : list str) : str :=
  match items with
  | [] => []
  | [s] => s
  | s :: more => s ++ sep ++ join sep more
  end.

(** [s.endswith(suffix)] *)
Definition endswith (s suffix : str) : bool := startswith (rev s) (rev suffix).

(** [str(i)] for an integer that is not negative: its decimal digits. *)
Fixpoint uint_str (d : Decimal.uint) : str :=
  match d with
  | Decimal.Nil => []
  | Decimal.D0 d' => 48%N :: uint_str d'
  | Decimal.D1 d' => 49%N :: uint_str d'
  | Decimal.D2 d' => 50%N :: uint_str d'
  | Decimal.D3 d' => 51%N :: uint_str d'
  | Decimal.D4 d' => 52%N :: uint_str d'
  | Decimal.D5 d' => 53%N :: uint_str d'
  | Decimal.D6 d' => 54%N :: uint_str d'
  | Decimal.D7 d' => 55%N :: uint_str d'
  | Decimal.D8 d' => 56%N :: uint_str d'
  | Decimal.D9 d' => 57%N :: uint_str d'
  end.
Definition str_of_nat (i : nat) : str := uint_str (Nat.to_uint i).

(** [enumerate(items, start)] *)
Fixpoint enumerate {A : Type} (start : nat) (items : list A) : list (nat * A) :=
  match items with
  | [] => []
  | a :: more => (start, a) :: enumerate (S start) more
  end.

(** The truth value of a string or a list: not empty. *)
Definition nonempty {A : Type} (l : list A) : bool :=
  match l with [] => false | _ :: _ => true end.

(** r'^[A-Z]\d{2}' and r'\n+' *)
Definition icd10_code : regex :=
  seqs [Bos; CSet [CRange (ch "A") (ch "Z")]; digit; digit].
Definition newlines : regex := plus newline.

Definition medical_suffixes : list str :=
  map lit ["-emia"; "-itis"; "-osis"; "-pathy"; "-syndrome"; "-disease"]%string.

Definition medical_conditions : list str :=
  map lit ["diabetes"; "hypertension"; "pneumonia"; "coronary"; "acute";
           "chronic"; "syndrome"; "failure"; "disease"; "disorder"]%string.

(** What a call of the summarization pipeline comes to: the list of
    dictionaries it returns, or the message of the exception it
    raises. *)
Inductive pipeline_outcome :=
| Returned (summary : list dict)
| Raised (message : str).

(** The headings of the formatted summary, as the source file spells
    them. *)
Definition double_rule : str := repeat (ch "=") 60.
Definition single_rule : str := repeat (ch "-") 30.
Definition report_title : str := [240; 376; 8220; 8249]%N ++ lit " MEDICAL REPORT SUMMARY".
Definition patient_heading : str :=
  [10; 240; 376; 8216; 164]%N ++ lit " PATIENT INFORMATION".
Definition flags_heading : str := [10; 240; 376; 353; 168]%N ++ lit " CRITICAL FLAGS".
Definition complaint_heading : str := [10; 240; 376; 8217; 172]%N ++ lit " CHIEF COMPLAINT".
Definition diagnoses_heading : str := [10; 240; 376; 169; 186]%N ++ lit " DIAGNOSES".
Definition vitals_heading : str := [10; 240; 376; 8220; 352]%N ++ lit " VITAL SIGNS".
Definition medications_heading : str := [10; 240; 376; 8217; 352]%N ++ lit " MEDICATIONS".
Definition labs_heading : str := [10; 240; 376; 167; 170]%N ++ lit " LABORATORY RESULTS".
Definition lab_bullet : str := [226; 8364; 162; 32]%N.

Section Presentation.
Context {Py : Runtime}.

(** [re.sub(pattern, repl, text)] for a pattern without groups that
    matches no empty string and a replacement without escapes: the
    pieces between the matches, joined by the replacement. *)
Definition re_sub (fl : flags) (r : regex) (repl : str) (text : str) : str :=
  join repl (re_split fl r text).

Definition validate_medical_entity (self : MedicalReportSummarizer) (text : str) : bool :=
  if (match re_match no_flags icd10_code text with Some _ => true | None => false end)
  then true
  else if existsb (fun suffix => endswith (lower text) suffix) medical_suffixes then true
  else if existsb (fun condition => contains condition (lower text)) medical_conditions
       then true
       else false.

(** The text handed to the pipeline: newlines replaced by spaces, cut
    to 1024 characters. *)
Definition clean_text (text : str) : str :=
  let clean_text := re_sub no_flags newlines (lit " ") text in
  firstn 1024 clean_text.

(** [pipeline] stands for the call
    [self.summarizer(clean_text, max_length=100, min_length=30, do_sample=False)];
    [summary[0]] of an empty list and a missing key raise inside the
    [try] block as well, with the messages Python gives them. *)
Definition generate_summary_text (self : MedicalReportSummarizer)
           (pipeline : str -> pipeline_outcome) (text : str) : str :=
  match summarizer self with
  | None => lit "Summary generation not available"
  | Some _ =>
      match pipeline (clean_text text) with
      | Returned summary =>
          match summary with
          | first :: _ =>
              match dict_get (lit "summary_text") first with
              | Some summary_text => summary_text
              | None => lit "Summary generation error: 'summary_text'"
              end
          | [] => lit "Summary generation error: list index out of range"
          end
      | Raised message => lit "Summary generation error: " ++ message
      end
  end.
End Presentation.

(** The list [output] that [format_summary] builds; [now] is the text
    of [datetime.now().strftime('%Y-%m-%d %H:%M:%S')]. *)
Definition format_output (self : MedicalReportSummarizer) (now : str)
           (summary : MedicalSummary) : list str :=
  let output := [] in
  let output := output ++ [double_rule] in
  let output := output ++ [report_title] in
  let output := output ++ [double_rule] in
  let output := output ++ [patient_heading] in
  let output := output ++ [single_rule] in
  let output := if nonempty (name (patient_info summary))
                then output ++ [lit "Name: " ++ name (patient_info summary)]
                else output in
  let output := if nonempty (age (patient_info summary))
                then output ++ [lit "Age: " ++ age (patient_info summary)]
                else output in
  let output := if nonempty (gender (patient_info summary))
                then output ++ [lit "Gender: " ++ gender (patient_info summary)]
                else output in
  let output := if nonempty (mrn (patient_info summary))
                then output ++ [lit "MRN: " ++ mrn (patient_info summary)]
                else output in
  let output := if nonempty (critical_flags summary)
                then fold_left (fun output flag => output ++ [flag])
                               (critical_flags summary)
                               ((output ++ [flags_heading]) ++ [single_rule])
                else output in
  let output := if nonempty (chief_complaint summary)
                then ((output ++ [complaint_heading]) ++ [single_rule])
                       ++ [chief_complaint summary]
                else output in
  let output := if nonempty (diagnosis summary)
                then fold_left (fun output '(i, diag) =>
                                  output ++ [str_of_nat i ++ lit ". " ++ diag])
                               (enumerate 1 (diagnosis summary))
                               ((output ++ [diagnoses_heading]) ++ [single_rule])
                else output in
  let output := if nonempty (vital_signs summary)
                then fold_left (fun output '(vital, value) =>
                                  output ++ [vital ++ lit ": " ++ value])
                               (vital_signs summary)
                               ((output ++ [vitals_heading]) ++ [single_rule])
                else output in
  let output := if nonempty (medications summary)
                then fold_left (fun output '(i, med) =>
                                  output ++ [str_of_nat i ++ lit ". " ++ med])
                               (enumerate 1 (firstn 10 (medications summary)))
                               ((output ++ [medications_heading]) ++ [single_rule])
                else output in
  let output := if nonempty (lab_results summary)
                then fold_left (fun output lab => output ++ [lab_bullet ++ lab])
                               (lab_results summary)
                               ((output ++ [labs_heading]) ++ [single_rule])
                else output in
  let output := output ++ [10%N :: double_rule] in
  let output := output ++ [lit "Generated on: " ++ now] in
  output.

Definition format_summary (self : MedicalReportSummarizer) (now : str)
           (summary : MedicalSummary) : str :=
  join (lit "\n") (format_output self now summary).

(* ================================================================= *)
(** ** The endpoint of [app.py]

    The parsed body of a request is a JSON value.  Of a number the
    handler only tests whether it is zero. *)

Module app.

#[local] Set Warnings "-register-all".
Inductive json :=
| JNull
| JBool (b : bool)
| JNumber (zero : bool)
| JString (s : str)
| JArray (items : list json)
| JObject (fields : list (str * json)).

(** [not data] *)
Definition falsy (data : json) : bool :=
  match data with
  | JNull => true
  | JBool b => negb b
  | JNumber zero => zero
  | JString s => negb (nonempty s)
  | JArray items => negb (nonempty items)
  | JObject fields => negb (nonempty fields)
  end.

Fixpoint lookup (key : str) (fields : list (str * json)) : option json :=
  match fields with
  | [] => None
  | (k, v) :: more => if str_eqb k key then Some v else lookup key more
  end.

Definition is_string (key : str) (item : json) : bool :=
  match item with
  | JString s => str_eqb s key
  | _ => false
  end.

(** ['medical_report' not in data] followed by [data['medical_report']],
    by the type of [data]: [None] when the key is not in [data].  A
    number or a boolean is no container, and a string or a list that
    holds the key has no item under it. *)
Definition medical_report_of (data : json) : result (option json) :=
  let key := lit "medical_report" in
  match data with
  | JObject fields => Ok (lookup key fields)
  | JArray items => if existsb (is_string key) items then Raise TypeError else Ok None
  | JString s => if contains key s then Raise TypeError else Ok None
  | JNull | JBool _ | JNumber _ => Raise TypeError
  end.

(** [value.strip()] *)
Definition strip_of {Py : Runtime} (value : json) : result str :=
  match value with
  | JString s => Ok (strip s)
  | _ => Raise AttributeError
  end.

(** The three error texts of the handler; [Processing_error e] stands
    for the text made of "Processing error: " and the message of [e]. *)
Inductive error :=
| No_medical_report_provided
| Empty_medical_report
| Processing_error (e : exn).

(** The dictionary [result] of the handler. *)
Record patient_json := {
  p_name : str;
  p_age : str;
  p_gender : str;
  p_mrn : str
}.
Record summary_json := {
  r_patient_info : patient_json;
  r_chief_complaint : str;
  r_diagnoses : list str;
  r_medications : list str;
  r_vital_signs : dict;
  r_lab_results : list str;
  r_critical_flags : list str;
  r_formatted_summary : str
}.

(** The body of a response, [{'success': True, 'summary': result}] or
    [{'success': False, 'error': text}], and its status code. *)
Inductive body :=
| Success (summary : summary_json)
| Failure (error : error).
Definition response : Type := body * nat.

(** The handler of [/api/summarize], from the point where
    [request.get_json()] has returned [data]; [summarizer] is the
    module's summarizer and [now] the time [format_summary] prints. *)
Definition summarize_report {Py : Runtime} (summarizer : MedicalReportSummarizer)
           (now : str) (data : json) : response :=
  let attempt : result response :=
    found <- (if falsy data then Ok None else medical_report_of data) ;;
    match found with
    | None => Ok (Failure No_medical_report_provided, 400)
    | Some value =>
        medical_text <- strip_of value ;;
        if negb (nonempty medical_text)
        then Ok (Failure Empty_medical_report, 400)
        else
          summary <- summarize_report summarizer medical_text ;;
          let result :=
            {| r_patient_info :=
                 {| p_name := name (patient_info summary);
                    p_age := age (patient_info summary);
                    p_gender := gender (patient_info summary);
                    p_mrn := mrn (patient_info summary) |};
               r_chief_complaint := chief_complaint summary;
               r_diagnoses := diagnosis summary;
               r_medications := medications summary;
               r_vital_signs := vital_signs summary;
               r_lab_results := lab_results summary;
               r_critical_flags := critical_flags summary;
               r_formatted_summary := format_summary summarizer now summary |} in
          Ok (Success result, 200)
    end in
  match attempt with
  | Ok r => r
  | Raise e => (Failure (Processing_error e), 500)
  end.

End app.

(* ================================================================= *)
(** ** The earlier module, [Model/summarizer.py]

    It differs from [models/summarizer.py] in [extract_diagnoses],
    which keeps every item of the first section found. *)

Module Model.

(** r"Diagnosis[:\s]+(.*?)(?:\n\n|Plan|Medications)",
    r"Impression[:\s]+(.*?)(?:\n\n|Plan|Medications)",
    r"Assessment[:\s]+(.*?)(?:\n\n|Plan|Medications)" *)
Definition diagnosis_patterns : list regex :=
  [section_pattern (str_ "Diagnosis") ["\n\n"; "Plan"; "Medications"];
   section_pattern (str_ "Impression") ["\n\n"; "Plan"; "Medications"];
   section_pattern (str_ "Assessment") ["\n\n"; "Plan"; "Medications"]]%string.

(** r'\n\s*\d+\.|\n\s*[-B]', where B stands for the bullet U+2022 *)
Definition item_delimiter : regex :=
  alts [seqs [newline; star space; plus digit; dot];
        seqs [newline; star space; CSet [CChar (ch "-"); CChar 8226%N]]].

(** [for pattern in patterns: ... break]; a group that took no part
    would make [re.split] raise. *)
Fixpoint first_section {Py : Runtime} (patterns : list regex) (text : str)
  : result (option str) :=
  match patterns with
  | [] => Ok None
  | pattern :: more =>
      match re_search re_IS pattern text with
      | Some m => g <- need TypeError (group m 1) ;; Ok (Some g)
      | None => first_section more text
      end
  end.

Definition extract_diagnoses {Py : Runtime} (self : MedicalReportSummarizer) (text : str)
  : result (list str) :=
  found <- first_section diagnosis_patterns text ;;
  let diagnoses :=
    match found with
    | Some diag_text =>
        let diag_items := re_split no_flags item_delimiter diag_text in
        filter nonempty (map strip diag_items)
    | None => []
    end in
  Ok (firstn 10 diagnoses).

End Model.

(* ================================================================= *)
(** ** The vocabulary of the properties *)

(** The words a pattern can match, whatever the context: an upper
    bound on what the matcher returns (lookahead and the anchor are
    taken to match the empty word). *)
Inductive matches {Py : Runtime} (fl : flags) : regex -> str -> Prop :=
| M_Eps : matches fl Eps []
| M_Lit p c : lit_match fl p c = true -> matches fl (Lit p) [c]
| M_Any c : any_match fl c = true -> matches fl Any [c]
| M_CSet items c : set_match fl items c = true -> matches fl (CSet items) [c]
| M_Seq a b w1 w2 : matches fl a w1 -> matches fl b w2 -> matches fl (Seq a b) (w1 ++ w2)
| M_AltL a b w : matches fl a w -> matches fl (Alt a b) w
| M_AltR a b w : matches fl b w -> matches fl (Alt a b) w
| M_StarNil g a : matches fl (Star g a) []
| M_StarCons g a w1 w2 :
    matches fl a w1 -> matches fl (Star g a) w2 -> matches fl (Star g a) (w1 ++ w2)
| M_Group n a w : matches fl a w -> matches fl (Group n a) w
| M_Ahead a : matches fl (Ahead a) []
| M_Bos : matches fl Bos [].

(** [Group g a] occurs in the pattern. *)
Fixpoint group_in (g : nat) (a : regex) (r : regex) : Prop :=
  match r with
  | Seq x y | Alt x y => group_in g a x \/ group_in g a y
  | Star _ x | Ahead x => group_in g a x
  | Group n x => (n = g /\ x = a) \/ group_in g a x
  | _ => False
  end.

(** Group [g] is set on every way through the pattern. *)
Fixpoint mandatory (g : nat) (r : regex) : bool :=
  match r with
  | Seq x y => mandatory g x || mandatory g y
  | Alt x y => mandatory g x && mandatory g y
  | Group n x => (n =? g)%nat || mandatory g x
  | _ => false
  end.

(** Every pattern of the program. *)
Definition program_patterns : list regex :=
  name_patterns ++ [age_pattern; gender_pattern; mrn_pattern]
  ++ chief_complaint_patterns ++ diagnosis_patterns
  ++ [item_delimiter; numbering; bullet_mark; management_note]
  ++ medication_patterns ++ [dosage_pattern; numbered_line]
  ++ [bp_pattern; hr_pattern; temp_pattern; rr_pattern; o2_pattern]
  ++ lab_patterns.

(** The pattern may match the empty word. *)
Fixpoint nullable (r : regex) : bool :=
  match r with
  | Eps | Star _ _ | Ahead _ | Bos => true
  | Lit _ | Any | CSet _ => false
  | Seq x y => nullable x && nullable y
  | Alt x y => nullable x || nullable y
  | Group _ x => nullable x
  end.

(** Every repetition in the pattern repeats a sub-pattern that cannot
    match the empty word, and no pattern as a whole matches it. *)
Fixpoint stars_consume (r : regex) : bool :=
  match r with
  | Star _ x => negb (nullable x) && stars_consume x
  | Seq x y | Alt x y => stars_consume x && stars_consume y
  | Group _ x | Ahead x => stars_consume x
  | _ => true
  end.

(** [st'] is reached from [st] by reading [w] and adding captures. *)
Definition reaches (st st' : mstate) (w : str) : Prop :=
  m_rest st = w ++ m_rest st' /\
  m_pos st' = m_pos st + length w /\
  exists new, m_caps st' = new ++ m_caps st.

(** The state in which a match starts. *)
Definition start_state (pos : nat) (rest : str) : mstate :=
  {| m_pos := pos; m_rest := rest; m_caps := [] |}.

(** Every match that [re.search] or [re.finditer] returns is a result
    of the matcher from a state without captures. *)
Definition is_hit {Py : Runtime} (fl : flags) (r : regex) (m : Match) : Prop :=
  exists rest st' w,
    In st' (rmatch fl r (start_state (m_start m) rest)) /\
    m_end m = m_pos st' /\ m_groups m = m_caps st' /\
    reaches (start_state (m_start m) rest) st' w /\ matches fl r w.

(** An ASCII digit. *)
Definition is_digit_char (c : char) : bool := ((48 <=? c) && (c <=? 57))%N.

(** The text of a group, empty when the group is unset. *)
Definition group_text (m : Match) (n : nat) : str :=
  match group m n with Some w => w | None => [] end.

(** A stored blood pressure: digits, a slash, digits. *)
Definition bp_shape {Py : Runtime} (v sys dia : str) : Prop :=
  v = sys ++ ch "/" :: dia /\
  sys <> [] /\ Forall (fun c => isdecimal c = true) sys /\
  dia <> [] /\ Forall (fun c => isdecimal c = true) dia.

(** The summary in which every field has its default. *)
Definition empty_summary : MedicalSummary :=
  {| patient_info := {| name := []; age := []; gender := []; mrn := []; dob := [] |};
     chief_complaint := []; diagnosis := []; medications := []; vital_signs := [];
     procedures := []; allergies := []; lab_results := []; recommendations := [];
     critical_flags := [] |}.

(** An ASCII letter other than "i", "k" and "s", the letters that
    IGNORECASE also matches with a non-ASCII character. *)
Definition plain_letter (p : char) : bool :=
  ascii_isalpha p && negb (mem_char (ascii_tolower p) [105; 107; 115]%N).

(** The four spellings of the gender pattern. *)
Definition genders : list str := [lit "Male"; lit "Female"; lit "M"; lit "F"].

(** The text contains [term] in some letter casing. *)
Definition contains_caseless (term text : str) : Prop :=
  exists a v b, text = a ++ v ++ b /\ map ascii_tolower v = term.

(** No string occurs twice in the list. *)
Fixpoint nodupb (l : list str) : bool :=
  match l with
  | [] => true
  | x :: t => negb (existsb (str_eqb x) t) && nodupb t
  end.

(** A summarizer whose models could not be loaded, and a summary with
    given vital signs and nothing else. *)
Definition bare_summarizer : MedicalReportSummarizer := {| nlp := None; summarizer := None |}.
Definition summary_with_vitals (d : dict) : MedicalSummary :=
  {| patient_info := patient_info empty_summary; chief_complaint := [];
     diagnosis := []; medications := []; vital_signs := d; procedures := [];
     allergies := []; lab_results := []; recommendations := []; critical_flags := [] |}.

(** The part of a candidate before its management note. *)
Definition diagnosis_part {Py : Runtime} (item : str) : str :=
  strip (hd [] (re_split no_flags management_note (candidate item))).

(** A state of the matcher. *)
Definition mk_state (pos : nat) (rest : str) (caps : list (nat * str)) : mstate :=
  {| m_pos := pos; m_rest := rest; m_caps := caps |}.

(** The text that follows does not start with a character of the
    class. *)
Definition stops (ok : char -> bool) (rest : str) : Prop :=
  match rest with
  | c :: _ => ok c = false
  | [] => True
  end.

(** The blood-pressure pattern matches at no position before [k]. *)
Definition no_reading_before {Py : Runtime} (text : str) (k : nat) : Prop :=
  forall j, j < k -> match_at re_I bp_pattern false j (skipn j text) = None.

(** The number of digits of the systolic of the first reading of the
    text, 0 when the text has no reading. *)
Definition systolic_digits {Py : Runtime} (text : str) : nat :=
  match re_search re_I bp_pattern text with
  | Some m => length (hd [] (split_char (ch "/") (group_text m 1)))
  | None => 0
  end.

(** The systolic component of a stored blood pressure: the integer
    before its first slash. *)
Definition systolic {Py : Runtime} (v : str) (z : Z) : Prop :=
  exists part, nth_error (split_char (ch "/") v) 0 = Some part /\ py_int part = Some z.

(** A blood pressure whose systolic has one digit more than the default
    limit of [int]. *)
Definition long_reading : str := lit "BP: " ++ repeat 49%N 4301 ++ lit "/80".

(** A diagnosis block of twelve items. *)
Definition twelve_diagnoses : str :=
  lit "1. Disease a\n2. Disease b\n3. Disease c\n4. Disease d\n5. Disease e\n6. Disease f\n7. Disease g\n8. Disease h\n9. Disease i\n10. Disease j\n11. Disease k\n12. Disease l".



(** *** The vocabulary of the further properties *)

(** The string has no whitespace at either end. *)
Definition trimmed {Py : Runtime} (s : str) : Prop :=
  stops isspace s /\ stops isspace (rev s).

(** [some] is a selection of the items of [all], in the order of
    [all]. *)
Inductive in_order {A : Type} : list A -> list A -> Prop :=
| in_order_done (all : list A) : in_order [] all
| in_order_keep (a : A) (some all : list A) :
    in_order some all -> in_order (a :: some) (a :: all)
| in_order_skip (a : A) (some all : list A) :
    in_order some all -> in_order some (a :: all).

(** The five readings of [extract_vital_signs], in the order of the
    source: pattern, key and unit. *)
Definition vital_keys : list str :=
  [blood_pressure_key; lit "Heart Rate"; lit "Temperature";
   lit "Respiratory Rate"; lit "Oxygen Saturation"].

Definition vital_table : list (regex * str * str) :=
  [(bp_pattern, blood_pressure_key, []);
   (hr_pattern, lit "Heart Rate", lit " bpm");
   (temp_pattern, lit "Temperature", [194; 176; 70]%N);
   (rr_pattern, lit "Respiratory Rate", lit " /min");
   (o2_pattern, lit "Oxygen Saturation", [])].

(** A string of decimal digits, and a decimal number: digits, then
    possibly a point, then possibly digits. *)
Definition decimal_digits {Py : Runtime} (w : str) : Prop :=
  w <> [] /\ Forall (fun c => isdecimal c = true) w.

Definition decimal_shape {Py : Runtime} (w : str) : Prop :=
  exists whole point fraction,
    w = whole ++ point ++ fraction /\ decimal_digits whole /\
    (point = [] \/ point = lit ".") /\
    Forall (fun c => isdecimal c = true) fraction.

(** The ASCII characters of a name (a letter, whitespace or a comma)
    and of a record number (a letter or a digit). *)
Definition name_char (c : char) : bool :=
  (ascii_isalpha c || ascii_isspace c || (c =? 44))%N.
Definition letter_or_digit (c : char) : bool := ascii_isalpha c || is_digit_char c.

(** The last character of the string is an ASCII letter. *)
Definition ends_with_letter (w : str) : Prop :=
  exists u c, w = u ++ [c] /\ ascii_isalpha c = true.

(** The names of the catalog of [extract_lab_results]. *)
Definition analytes : list str :=
  map lit ["Hemoglobin"; "Hgb"; "WBC"; "White Blood Cell"; "Glucose";
           "Creatinine"; "BUN"; "Cholesterol"]%string.

(** [name] spells [word] up to the case of its letters, as a literal
    matches under IGNORECASE. *)
Definition spells {Py : Runtime} (word name : str) : Prop :=
  Forall2 (fun p c => lit_match re_I p c = true) word name.

(** The text holds [word] in some letter casing. *)
Definition occurs {Py : Runtime} (word text : str) : Prop :=
  exists a w b, text = a ++ w ++ b /\ spells word w.

(** The same as a test: [text] starts with [word], resp. holds it, in
    some letter casing. *)
Fixpoint starts_spelled {Py : Runtime} (text word : str) {struct word} : bool :=
  match word, text with
  | [], _ => true
  | p :: ps, c :: cs => lit_match re_I p c && starts_spelled cs ps
  | _ :: _, [] => false
  end.
Fixpoint spelled_in {Py : Runtime} (word text : str) : bool :=
  starts_spelled text word ||
  match text with
  | [] => false
  | _ :: t => spelled_in word t
  end.

(** The state [i] characters after [st]. *)
Definition skip_state (i : nat) (st : mstate) : mstate :=
  {| m_pos := m_pos st + i; m_rest := skipn i (m_rest st); m_caps := m_caps st |}.

(** A section pattern whose first terminator is a blank line, and one
    whose terminators are among [words]. *)
Definition ends_at_blank_line (r : regex) : Prop :=
  exists heading more,
    r = seqs [heading; plus colon_space; Group 1 (star_lazy Any);
              Alt (str_ "\n\n") more] /\
    (forall b, ~ group_in 1 b heading) /\ (forall b, ~ group_in 1 b more).

Definition ends_with_one_of (words : list string) (r : regex) : Prop :=
  exists heading terminators,
    r = section_pattern heading terminators /\ incl terminators words.

(** A capital letter and two decimal digits at the start of the text. *)
Definition icd_shape {Py : Runtime} (text : str) : Prop :=
  exists c d1 d2 rest,
    text = c :: d1 :: d2 :: rest /\
    ascii_isupper c = true /\ isdecimal d1 = true /\ isdecimal d2 = true.

(** The text ends with [suffix] in some letter casing. *)
Definition ends_caseless (suffix text : str) : Prop :=
  exists a v, text = a ++ v /\ map ascii_tolower v = suffix.

(** The lines of the formatted summary: a numbered entry, a vital
    sign, the block of a field (a heading, a rule and the entries,
    printed when the field is not empty) and the line of a patient
    field. *)
Definition numbered_entry (p : nat * str) : str :=
  str_of_nat (fst p) ++ lit ". " ++ snd p.
Definition vital_entry (p : str * str) : str := fst p ++ lit ": " ++ snd p.
Definition block {A : Type} (field : list A) (heading : str) (lines : list str)
  : list str :=
  if nonempty field then heading :: single_rule :: lines else [].
Definition patient_line (label : string) (value : str) : list str :=
  if nonempty value then [lit label ++ value] else [].

(** The key of the report in the body of a request, and the dictionary
    that the handler returns for a summary. *)
Definition report_key : str := lit "medical_report".
Definition result_of (summarizer : MedicalReportSummarizer) (now : str)
           (summary : MedicalSummary) : app.summary_json :=
  {| app.r_patient_info :=
       {| app.p_name := name (patient_info summary);
          app.p_age := age (patient_info summary);
          app.p_gender := gender (patient_info summary);
          app.p_mrn := mrn (patient_info summary) |};
     app.r_chief_complaint := chief_complaint summary;
     app.r_diagnoses := diagnosis summary;
     app.r_medications := medications summary;
     app.r_vital_signs := vital_signs summary;
     app.r_lab_results := lab_results summary;
     app.r_critical_flags := critical_flags summary;
     app.r_formatted_summary := format_summary summarizer now summary |}.

(* ================================================================= *)
(** ** Facts about the matcher *)

Lemma str_eqb_eq a b : str_eqb a b = true <-> a = b.
Proof.
  revert b. induction a as [|x a IH]; intros [|y b]; simpl; split;
    try congruence; try reflexivity.
  - intros H. apply andb_true_iff in H. destruct H as [H1 H2].
    apply N.eqb_eq in H1. apply IH in H2. congruence.
  - intros [= -> ->]. rewrite N.eqb_refl. apply IH. reflexivity.
Qed.

Lemma flat_map_ext_In {A B : Type} (f g : A -> list B) (l : list A) :
  (forall a, In a l -> f a = g a) -> flat_map f l = flat_map g l.
Proof.
  induction l as [|a l IH]; simpl; intros H; [reflexivity|].
  rewrite (H a) by (left; reflexivity).
  rewrite IH; [reflexivity|]. intros b Hb. apply H. right. exact Hb.
Qed.

Lemma assoc_In n l w : assoc n l = Some w -> In (n, w) l.
Proof.
  induction l as [|[k v] l IH]; simpl; [discriminate|].
  destruct (Nat.eqb_spec k n) as [->|_].
  - intros [= ->]. left. reflexivity.
  - intros H. right. apply IH. exact H.
Qed.

Lemma assoc_app n l1 l2 :
  assoc n (l1 ++ l2) = match assoc n l1 with Some w => Some w | None => assoc n l2 end.
Proof.
  induction l1 as [|[k v] l1 IH]; simpl; [reflexivity|].
  destruct (k =? n)%nat; [reflexivity | exact IH].
Qed.

Section MatcherFacts.
Context {Py : Runtime}.
Variable fl : flags.

Lemma reaches_refl st : reaches st st [].
Proof. repeat split. - simpl; lia. - exists []. reflexivity. Qed.

Lemma reaches_trans st1 st2 st3 w1 w2 :
  reaches st1 st2 w1 -> reaches st2 st3 w2 -> reaches st1 st3 (w1 ++ w2).
Proof.
  intros (R1 & P1 & n1 & C1) (R2 & P2 & n2 & C2). repeat split.
  - rewrite R1, R2, app_assoc. reflexivity.
  - rewrite P2, P1, length_app. lia.
  - exists (n2 ++ n1). rewrite C2, C1, app_assoc. reflexivity.
Qed.

Lemma reaches_length st st' w :
  reaches st st' w -> length (m_rest st) = length w + length (m_rest st').
Proof. intros (R & _). rewrite R, length_app. reflexivity. Qed.

Lemma step_if_In ok st st' :
  In st' (step_if ok st) ->
  exists c, m_rest st = c :: m_rest st' /\ ok c = true /\ st' = advance st.
Proof.
  unfold step_if. destruct (m_rest st) as [|c t] eqn:E; [intros []|].
  destruct (ok c) eqn:Hc; [|intros []].
  intros [<-|[]]. exists c. simpl. rewrite E. auto.
Qed.

Lemma step_if_reaches ok st st' :
  In st' (step_if ok st) -> exists c, ok c = true /\ reaches st st' [c].
Proof.
  intros H. destruct (step_if_In _ _ _ H) as (c & E & Hc & ->).
  exists c. split; [exact Hc|]. repeat split.
  - exact E.
  - simpl. lia.
  - exists []. reflexivity.
Qed.

(** What [star_iter] returns, given what its body returns. *)
Lemma star_iter_sound (body : mstate -> list mstate) g a :
  (forall st st', In st' (body st) -> exists w, reaches st st' w /\ matches fl a w) ->
  forall fuel st st',
    In st' (star_iter body g fuel st) ->
    exists w, reaches st st' w /\ matches fl (Star g a) w.
Proof.
  intros Hbody. induction fuel as [|f IH]; intros st st' H.
  - destruct H as [<-|[]]. exists []. split; [apply reaches_refl | constructor].
  - simpl in H.
    assert (Hcases : st' = st \/
              In st' (flat_map (star_iter body g f)
                        (filter (fun x => (length (m_rest x) <? length (m_rest st))%nat)
                                (body st)))).
    { destruct g.
      - apply in_app_or in H. destruct H as [H|[<-|[]]]; auto.
      - destruct H as [<-|H]; auto. }
    destruct Hcases as [->|Hin].
    + exists []. split; [apply reaches_refl | constructor].
    + apply in_flat_map in Hin. destruct Hin as (st1 & H1 & H2).
      apply filter_In in H1. destruct H1 as [H1 _].
      destruct (Hbody _ _ H1) as (w1 & R1 & M1).
      destruct (IH _ _ H2) as (w2 & R2 & M2).
      exists (w1 ++ w2). split; [eapply reaches_trans; eassumption|].
      constructor; assumption.
Qed.

(** Every result of the matcher is reached by reading a word of the
    pattern. *)
Theorem rmatch_sound r : forall st st',
    In st' (rmatch fl r st) -> exists w, reaches st st' w /\ matches fl r w.
Proof.
  induction r as [ |p| |items|a IHa b IHb|a IHa b IHb|g a IHa|n a IHa|a IHa| ];
    intros st st' H; simpl in H.
  - destruct H as [<-|[]]. exists []. split; [apply reaches_refl|constructor].
  - destruct (step_if_reaches _ _ _ H) as (c & Hc & R).
    exists [c]. split; [exact R | constructor; exact Hc].
  - destruct (step_if_reaches _ _ _ H) as (c & Hc & R).
    exists [c]. split; [exact R | constructor; exact Hc].
  - destruct (step_if_reaches _ _ _ H) as (c & Hc & R).
    exists [c]. split; [exact R | constructor; exact Hc].
  - apply in_flat_map in H. destruct H as (st1 & H1 & H2).
    destruct (IHa _ _ H1) as (w1 & R1 & M1).
    destruct (IHb _ _ H2) as (w2 & R2 & M2).
    exists (w1 ++ w2). split; [eapply reaches_trans; eassumption|].
    constructor; assumption.
  - apply in_app_or in H. destruct H as [H|H].
    + destruct (IHa _ _ H) as (w & R & M). exists w. split; [exact R|].
      apply M_AltL. exact M.
    + destruct (IHb _ _ H) as (w & R & M). exists w. split; [exact R|].
      apply M_AltR. exact M.
  - exact (@star_iter_sound (rmatch fl a) g a IHa (S (length (m_rest st))) st st' H).
  - apply in_map_iff in H. destruct H as (st1 & <- & H1).
    destruct (IHa _ _ H1) as (w & (R & P & new & C) & M).
    exists w. split; [|constructor; exact M].
    repeat split; simpl; try assumption.
    eexists (_ :: new). rewrite C. reflexivity.
  - destruct (rmatch fl a st); [destruct H|]. destruct H as [<-|[]].
    exists []. split; [apply reaches_refl|constructor].
  - destruct (m_pos st =? 0)%nat; [|destruct H]. destruct H as [<-|[]].
    exists []. split; [apply reaches_refl|constructor].
Qed.

Corollary rmatch_reaches r st st' :
  In st' (rmatch fl r st) -> exists w, reaches st st' w.
Proof.
  intros H. destruct (rmatch_sound _ _ _ H) as (w & R & _). exists w. exact R.
Qed.
End MatcherFacts.

Section CaptureFacts.
Context {Py : Runtime}.
Variable fl : flags.

Lemma star_iter_caps (body : mstate -> list mstate) gr a g w :
  (forall st st', In st' (body st) -> In (g, w) (m_caps st') ->
                  In (g, w) (m_caps st) \/ exists b, group_in g b a /\ matches fl b w) ->
  forall fuel st st',
    In st' (star_iter body gr fuel st) -> In (g, w) (m_caps st') ->
    In (g, w) (m_caps st) \/ exists b, group_in g b a /\ matches fl b w.
Proof.
  intros Hbody. induction fuel as [|f IH]; intros st st' H Hc.
  - destruct H as [<-|[]]. left. exact Hc.
  - simpl in H.
    assert (Hcases : st' = st \/
              In st' (flat_map (star_iter body gr f)
                        (filter (fun x => (length (m_rest x) <? length (m_rest st))%nat)
                                (body st)))).
    { destruct gr.
      - apply in_app_or in H. destruct H as [H|[<-|[]]]; auto.
      - destruct H as [<-|H]; auto. }
    destruct Hcases as [->|Hin]; [left; exact Hc|].
    apply in_flat_map in Hin. destruct Hin as (st1 & H1 & H2).
    apply filter_In in H1. destruct H1 as [H1 _].
    destruct (IH _ _ H2 Hc) as [Hc1|Hr]; [|right; exact Hr].
    exact (Hbody _ _ H1 Hc1).
Qed.

(** A captured text was captured before the match started or is a
    word of the group that captured it. *)
Theorem rmatch_caps r g w : forall st st',
    In st' (rmatch fl r st) -> In (g, w) (m_caps st') ->
    In (g, w) (m_caps st) \/ exists b, group_in g b r /\ matches fl b w.
Proof.
  induction r as [ |p| |items|a IHa b IHb|a IHa b IHb|gr a IHa|n a IHa|a IHa| ];
    intros st st' H Hc; simpl in H.
  - destruct H as [<-|[]]. left. exact Hc.
  - destruct (step_if_In _ _ _ H) as (c & _ & _ & ->). left. exact Hc.
  - destruct (step_if_In _ _ _ H) as (c & _ & _ & ->). left. exact Hc.
  - destruct (step_if_In _ _ _ H) as (c & _ & _ & ->). left. exact Hc.
  - apply in_flat_map in H. destruct H as (st1 & H1 & H2).
    destruct (IHb _ _ H2 Hc) as [Hc1|(x & Hx & Mx)].
    + destruct (IHa _ _ H1 Hc1) as [Hc0|(x & Hx & Mx)]; [left; exact Hc0|].
      right. exists x. simpl. auto.
    + right. exists x. simpl. auto.
  - apply in_app_or in H. destruct H as [H|H].
    + destruct (IHa _ _ H Hc) as [Hc0|(x & Hx & Mx)]; [left; exact Hc0|].
      right. exists x. simpl. auto.
    + destruct (IHb _ _ H Hc) as [Hc0|(x & Hx & Mx)]; [left; exact Hc0|].
      right. exists x. simpl. auto.
  - exact (@star_iter_caps (rmatch fl a) gr a g w IHa (S (length (m_rest st))) st st' H Hc).
  - apply in_map_iff in H. destruct H as (st1 & <- & H1).
    simpl in Hc. destruct Hc as [Heq|Hc].
    + injection Heq as -> <-.
      destruct (rmatch_sound _ _ _ _ H1) as (w0 & (R & P & _) & M).
      right. exists a. split; [simpl; auto|].
      rewrite P, R.
      replace (m_pos st + length w0 - m_pos st) with (length w0) by lia.
      rewrite firstn_app, Nat.sub_diag, firstn_all. simpl. rewrite app_nil_r.
      exact M.
    + destruct (IHa _ _ H1 Hc) as [Hc0|(x & Hx & Mx)]; [left; exact Hc0|].
      right. exists x. simpl. auto.
  - destruct (rmatch fl a st); [destruct H|]. destruct H as [<-|[]]. left. exact Hc.
  - destruct (m_pos st =? 0)%nat; [|destruct H]. destruct H as [<-|[]]. left. exact Hc.
Qed.

Lemma reaches_assoc st st' w g v :
  reaches st st' w -> assoc g (m_caps st) = Some v ->
  exists v', assoc g (m_caps st') = Some v'.
Proof.
  intros (_ & _ & new & C) H. rewrite C, assoc_app.
  destruct (assoc g new) as [x|]; [exists x; reflexivity|].
  exists v. exact H.
Qed.

(** A group that lies on every way through the pattern is set by
    every match. *)
Theorem rmatch_mandatory g r : forall st st',
    mandatory g r = true -> In st' (rmatch fl r st) ->
    exists v, assoc g (m_caps st') = Some v.
Proof.
  induction r as [ |p| |items|a IHa b IHb|a IHa b IHb|gr a IHa|n a IHa|a IHa| ];
    intros st st' Hm H; simpl in Hm; try discriminate Hm; simpl in H.
  - apply in_flat_map in H. destruct H as (st1 & H1 & H2).
    apply orb_true_iff in Hm. destruct Hm as [Hm|Hm].
    + destruct (IHa _ _ Hm H1) as (v & Hv).
      destruct (rmatch_reaches _ _ _ _ H2) as (w & R).
      exact (reaches_assoc g R Hv).
    + exact (IHb _ _ Hm H2).
  - apply andb_true_iff in Hm. destruct Hm as [Hma Hmb].
    apply in_app_or in H. destruct H as [H|H]; eauto.
  - apply in_map_iff in H. destruct H as (st1 & <- & H1). simpl.
    destruct (Nat.eqb_spec n g) as [_|Hne]; [eexists; reflexivity|].
    simpl in Hm. exact (IHa _ _ Hm H1).
Qed.

(** In the patterns of the program every repetition consumes input on
    each iteration, and no pattern matches the empty word: the cases in
    which Python treats an empty iteration or an empty match specially
    do not arise. *)
Lemma program_patterns_consume :
  forallb (fun r => stars_consume r && negb (nullable r)) program_patterns = true.
Proof. vm_compute. reflexivity. Qed.

(** A pattern that is not nullable matches no empty word. *)
Lemma matches_nonempty r w :
  matches fl r w -> nullable r = false -> 0 < length w.
Proof.
  induction 1; simpl; intros Hn; try discriminate Hn; try lia.
  - rewrite length_app. apply andb_false_iff in Hn. destruct Hn as [Hn|Hn].
    + specialize (IHmatches1 Hn). lia.
    + specialize (IHmatches2 Hn). lia.
  - apply orb_false_iff in Hn. apply IHmatches. apply Hn.
  - apply orb_false_iff in Hn. apply IHmatches. apply Hn.
  - apply IHmatches. exact Hn.
Qed.

(** The fuel of a repetition never runs out. *)
Lemma star_iter_fuel (body : mstate -> list mstate) g : forall n m st,
    length (m_rest st) < n -> length (m_rest st) < m ->
    star_iter body g n st = star_iter body g m st.
Proof.
  induction n as [|n IH]; intros m st Hn Hm; [lia|].
  destruct m as [|m]; [lia|]. simpl.
  assert (E : flat_map (star_iter body g n)
                (filter (fun x => (length (m_rest x) <? length (m_rest st))%nat) (body st))
              = flat_map (star_iter body g m)
                  (filter (fun x => (length (m_rest x) <? length (m_rest st))%nat) (body st))).
  { apply flat_map_ext_In. intros x Hx. apply filter_In in Hx.
    destruct Hx as [_ Hx]. apply Nat.ltb_lt in Hx. apply IH; lia. }
  rewrite E. reflexivity.
Qed.

Corollary rmatch_star_fuel g a st n :
  length (m_rest st) < n -> rmatch fl (Star g a) st = star_iter (rmatch fl a) g n st.
Proof.
  intros H. change (rmatch fl (Star g a) st)
    with (star_iter (rmatch fl a) g (S (length (m_rest st))) st).
  apply star_iter_fuel; lia.
Qed.
End CaptureFacts.

Section SearchFacts.
Context {Py : Runtime}.
Variable fl : flags.
Variable r : regex.

Lemma match_at_In ma pos rest st' :
  match_at fl r ma pos rest = Some st' ->
  In st' (rmatch fl r (start_state pos rest)) /\ (ma = true -> m_pos st' <> pos).
Proof.
  unfold match_at. intros H. apply find_some in H. destruct H as [Hin Hok].
  split; [exact Hin|]. intros ->. simpl in Hok.
  apply negb_true_iff, Nat.eqb_neq in Hok. exact Hok.
Qed.

(** [search_from] returns the first match at the leftmost position
    that has one. *)
Lemma search_from_spec : forall rest ma pos s st',
    search_from fl r ma pos rest = Some (s, st') ->
    exists k, s = pos + k /\ k <= length rest /\
              match_at fl r (if (k =? 0)%nat then ma else false) s (skipn k rest) = Some st' /\
              (forall j, j < k ->
                         match_at fl r (if (j =? 0)%nat then ma else false)
                                  (pos + j) (skipn j rest) = None).
Proof.
  induction rest as [|c rest IH]; intros ma pos s st' H; simpl in H.
  - destruct (match_at fl r ma pos []) as [x|] eqn:E; [|discriminate H].
    injection H as <- <-. exists 0. rewrite Nat.add_0_r. simpl.
    repeat split; [lia | exact E | intros j Hj; lia].
  - destruct (match_at fl r ma pos (c :: rest)) as [x|] eqn:E.
    + injection H as <- <-. exists 0. rewrite Nat.add_0_r. simpl.
      repeat split; [lia | exact E | intros j Hj; lia].
    + destruct (IH _ _ _ _ H) as (k & -> & Hk & Hm & Hnone).
      exists (S k). repeat split.
      * lia.
      * simpl. lia.
      * simpl. destruct k; exact Hm.
      * intros [|j] Hj.
        -- rewrite Nat.add_0_r. exact E.
        -- simpl. replace (pos + S j) with (S pos + j) by lia.
           specialize (Hnone j ltac:(lia)). destruct j; exact Hnone.
Qed.

Lemma search_from_none : forall rest ma pos,
    search_from fl r ma pos rest = None ->
    forall j, j <= length rest ->
              match_at fl r (if (j =? 0)%nat then ma else false) (pos + j) (skipn j rest) = None.
Proof.
  induction rest as [|c rest IH]; intros ma pos H j Hj; simpl in H.
  - destruct (match_at fl r ma pos []) eqn:E; [discriminate H|].
    simpl in Hj. assert (j = 0) as -> by lia. rewrite Nat.add_0_r. exact E.
  - destruct (match_at fl r ma pos (c :: rest)) eqn:E; [discriminate H|].
    destruct j as [|j]; [rewrite Nat.add_0_r; exact E|].
    simpl. replace (pos + S j) with (S pos + j) by lia.
    specialize (IH _ _ H j ltac:(simpl in Hj; lia)). destruct j; exact IH.
Qed.

(** The converse: a match at a position without a match before it is
    what [search_from] returns. *)
Lemma search_from_first : forall k rest ma pos st',
    k <= length rest ->
    (forall j, j < k ->
               match_at fl r (if (j =? 0)%nat then ma else false)
                        (pos + j) (skipn j rest) = None) ->
    match_at fl r (if (k =? 0)%nat then ma else false) (pos + k) (skipn k rest) = Some st' ->
    search_from fl r ma pos rest = Some (pos + k, st').
Proof.
  induction k as [|k IH]; intros rest ma pos st' Hk Hnone Hm.
  - rewrite Nat.add_0_r in *. simpl in Hm.
    destruct rest; simpl; rewrite Hm; reflexivity.
  - destruct rest as [|c rest]; [simpl in Hk; lia|].
    simpl. generalize (Hnone 0 ltac:(lia)). rewrite Nat.add_0_r. simpl.
    intros ->. replace (pos + S k) with (S pos + k) by lia.
    apply IH.
    + simpl in Hk. lia.
    + intros j Hj. specialize (Hnone (S j) ltac:(lia)). simpl in Hnone.
      replace (pos + S j) with (S pos + j) in Hnone by lia.
      destruct j; exact Hnone.
    + simpl in Hm. replace (pos + S k) with (S pos + k) in Hm by lia.
      destruct k; exact Hm.
Qed.

Lemma search_from_hit rest ma pos s st' :
  search_from fl r ma pos rest = Some (s, st') ->
  exists k w, s = pos + k /\ k <= length rest /\
              In st' (rmatch fl r (start_state s (skipn k rest))) /\
              reaches (start_state s (skipn k rest)) st' w /\ matches fl r w /\
              (k = 0 -> ma = true -> 0 < length w).
Proof.
  intros H. destruct (search_from_spec _ _ _ H) as (k & -> & Hk & Hm & _).
  apply match_at_In in Hm. destruct Hm as [Hin Hadv].
  destruct (rmatch_sound _ _ _ _ Hin) as (w & R & M).
  exists k, w. repeat split; try assumption; try apply R.
  intros -> ->. simpl in Hadv. specialize (Hadv eq_refl).
  destruct R as (_ & P & _). simpl in P. lia.
Qed.

Lemma re_search_hit text m : re_search fl r text = Some m -> is_hit fl r m.
Proof.
  unfold re_search. destruct (search_from fl r false 0 text) as [[s st']|] eqn:E;
    [|discriminate]. intros [= <-].
  destruct (search_from_hit _ _ _ E) as (k & w & -> & _ & Hin & R & M & _).
  exists (skipn k text), st', w. simpl. auto.
Qed.

Lemma re_match_hit text m : re_match fl r text = Some m -> is_hit fl r m.
Proof.
  unfold re_match. destruct (match_at fl r false 0 text) as [st'|] eqn:E;
    [|discriminate]. intros [= <-].
  apply match_at_In in E. destruct E as [Hin _].
  destruct (rmatch_sound _ _ _ _ Hin) as (w & R & M).
  exists text, st', w. simpl. auto.
Qed.

Lemma finditer_from_hit : forall fuel ma pos rest hit,
    In hit (finditer_from fl r fuel ma pos rest) -> is_hit fl r (to_match hit).
Proof.
  induction fuel as [|f IH]; intros ma pos rest hit H; simpl in H; [destruct H|].
  destruct (search_from fl r ma pos rest) as [[s st']|] eqn:E; [|destruct H].
  destruct H as [<-|H]; [|exact (IH _ _ _ _ H)].
  destruct (search_from_hit _ _ _ E) as (k & w & -> & _ & Hin & R & M & _).
  exists (skipn k rest), st', w. simpl. auto.
Qed.

Lemma re_finditer_hit text m : In m (re_finditer fl r text) -> is_hit fl r m.
Proof.
  unfold re_finditer. intros H. apply in_map_iff in H.
  destruct H as (hit & <- & H). exact (finditer_from_hit _ _ _ _ _ H).
Qed.

(** The groups of a hit. *)
Lemma hit_group_mandatory m g :
  is_hit fl r m -> mandatory g r = true -> exists v, group m g = Some v.
Proof.
  intros (rest & st' & w & Hin & _ & Hg & _) Hm. unfold group. rewrite Hg.
  exact (rmatch_mandatory _ g r _ _ Hm Hin).
Qed.

Lemma hit_group_matches m g v :
  is_hit fl r m -> group m g = Some v -> exists b, group_in g b r /\ matches fl b v.
Proof.
  intros (rest & st' & w & Hin & _ & Hg & _) Hv. unfold group in Hv.
  rewrite Hg in Hv. apply assoc_In in Hv.
  destruct (rmatch_caps _ _ _ _ _ _ Hin Hv) as [[]|H]. exact H.
Qed.

(** The matches of [finditer] do not overlap and come in the order of
    the text. *)
Lemma finditer_from_sorted : forall fuel ma pos rest,
    StronglySorted (fun a b => m_pos (snd a) <= fst b) (finditer_from fl r fuel ma pos rest)
    /\ Forall (fun a => pos <= fst a /\ fst a <= m_pos (snd a))
              (finditer_from fl r fuel ma pos rest).
Proof.
  induction fuel as [|f IH]; intros ma pos rest; simpl.
  - split; constructor.
  - destruct (search_from fl r ma pos rest) as [[s st']|] eqn:E; [|split; constructor].
    destruct (search_from_hit _ _ _ E) as (k & w & -> & _ & _ & (_ & P & _) & _ & _).
    simpl in P.
    destruct (IH (m_pos st' =? pos + k)%nat (m_pos st') (m_rest st')) as [Hs Hf].
    split.
    + constructor; [exact Hs|].
      eapply Forall_impl; [|exact Hf]. simpl. intros a [Ha _]. exact Ha.
    + constructor; [simpl; lia|].
      eapply Forall_impl; [|exact Hf]. simpl. intros a [Ha Hb]. lia.
Qed.

(** The fuel of [finditer] never runs out. *)
Lemma finditer_fuel : forall n m (ma : bool) pos rest,
    2 * length rest + (if ma then 0 else 1) < n ->
    2 * length rest + (if ma then 0 else 1) < m ->
    finditer_from fl r n ma pos rest = finditer_from fl r m ma pos rest.
Proof.
  induction n as [|n IH]; intros m ma pos rest Hn Hm; [lia|].
  destruct m as [|m]; [lia|]. simpl.
  destruct (search_from fl r ma pos rest) as [[s st']|] eqn:E; [|reflexivity].
  f_equal.
  destruct (search_from_hit _ _ _ E) as (k & w & -> & Hk & _ & R & _ & Hadv).
  pose proof (reaches_length R) as HL. destruct R as (_ & P & _).
  simpl in HL, P. rewrite length_skipn in HL.
  assert (Hmu : 2 * length (m_rest st')
                + (if (m_pos st' =? pos + k)%nat then 0 else 1)
                < 2 * length rest + (if ma then 0 else 1)).
  { destruct (Nat.eqb_spec (m_pos st') (pos + k)) as [He|He].
    - assert (length w = 0) as Hw by lia.
      destruct k as [|k].
      + destruct ma; [specialize (Hadv eq_refl eq_refl); lia | lia].
      + lia.
    - assert (0 < length w) by lia. destruct ma; lia. }
  apply IH; lia.
Qed.
End SearchFacts.

(* ================================================================= *)
(** ** Facts about strings and patterns *)

Ltac bool_to_prop :=
  repeat match goal with
         | H : (_ && _)%bool = true |- _ => apply andb_true_iff in H; destruct H
         | H : (_ || _)%bool = false |- _ => apply orb_false_iff in H; destruct H
         | H : negb _ = true |- _ => apply negb_true_iff in H
         | H : negb _ = false |- _ => apply negb_false_iff in H
         | H : (_ <=? _)%N = true |- _ => apply N.leb_le in H
         | H : (_ <=? _)%N = false |- _ => apply N.leb_gt in H
         | H : (_ <? _)%N = true |- _ => apply N.ltb_lt in H
         | H : (_ <? _)%N = false |- _ => apply N.ltb_ge in H
         | H : (_ =? _)%N = true |- _ => apply N.eqb_eq in H
         | H : (_ =? _)%N = false |- _ => apply N.eqb_neq in H
         end.

Lemma ascii_todecimal_digit c :
  is_digit_char c = true -> ascii_todecimal c = Some (c - 48)%N.
Proof. unfold is_digit_char, ascii_todecimal. intros ->. reflexivity. Qed.

Section StringFacts.
Context {Py : Runtime}.
Local Open Scope N_scope.

Lemma isdecimal_ascii c :
  is_ascii c = true -> isdecimal c = true -> is_digit_char c = true.
Proof.
  unfold isdecimal, todecimal, ascii_todecimal, is_digit_char. intros ->.
  destruct ((48 <=? c) && (c <=? 57)); [reflexivity | discriminate].
Qed.

Lemma isdecimal_not c : isdecimal c = true -> c <> 47 /\ c <> 95.
Proof.
  intros H. destruct (is_ascii c) eqn:E.
  - apply (isdecimal_ascii _ E) in H. unfold is_digit_char in H. bool_to_prop. lia.
  - unfold is_ascii in E. bool_to_prop. lia.
Qed.

(** [int] maps a string of decimal digits to ASCII digits. *)
Lemma int_to_ascii_digits s :
  Forall (fun c => isdecimal c = true) s ->
  exists a, int_to_ascii s = Some a /\ length a = length s /\
            Forall (fun x => is_digit_char x = true) a.
Proof.
  induction 1 as [|c s Hc Hs (a & Ha & Hl & Hd)]; simpl.
  - exists []. repeat split. constructor.
  - rewrite Ha. destruct (is_ascii c) eqn:E.
    + exists (c :: a). repeat split; [simpl; congruence|].
      constructor; [exact (isdecimal_ascii _ E Hc) | exact Hd].
    + unfold isdecimal, todecimal in Hc. rewrite E in Hc.
      destruct (u_todecimal c) as [d|] eqn:Ed; [|discriminate Hc].
      rewrite (u_decimal_not_space _ Ed).
      exists (48 + d :: a). repeat split; [simpl; congruence|].
      constructor; [|exact Hd].
      pose proof (u_decimal_lt _ Ed) as Hlt.
      unfold is_digit_char. apply andb_true_iff. split; apply N.leb_le; lia.
Qed.

Lemma digit_run_digits a :
  Forall (fun x => is_digit_char x = true) a -> digit_run a = (a, []).
Proof.
  induction 1 as [|x a Hx Ha IH]; simpl; [reflexivity|].
  unfold is_digit_or_us. rewrite (ascii_todecimal_digit _ Hx), IH. reflexivity.
Qed.

Lemma run_ok_digits a :
  Forall (fun x => is_digit_char x = true) a -> run_ok false a = true.
Proof.
  induction 1 as [|x a Hx Ha IH]; simpl; [reflexivity|].
  unfold is_digit_char in Hx. bool_to_prop.
  destruct (N.eqb_spec x 95); [lia | exact IH].
Qed.

Lemma run_digits_digits a :
  Forall (fun x => is_digit_char x = true) a -> run_digits a = length a.
Proof.
  unfold run_digits. induction 1 as [|x a Hx Ha IH]; simpl; [reflexivity|].
  unfold is_digit_char in Hx. bool_to_prop.
  destruct (N.eqb_spec x 95); [lia|]. simpl. rewrite IH. reflexivity.
Qed.

(** [int] succeeds on a non-empty string of decimal digits, unless it
    has more digits than the interpreter allows. *)
Lemma py_int_digits s :
  s <> [] -> Forall (fun c => isdecimal c = true) s ->
  if int_exceeds (length s) then py_int s = None else exists z, py_int s = Some z.
Proof.
  intros Hne Hs. destruct (int_to_ascii_digits Hs) as (a & Ha & Hl & Hd).
  unfold py_int. rewrite Ha.
  destruct a as [|x a]; [destruct s; [congruence | discriminate Hl]|].
  inversion Hd as [|? ? Hx Hd']; subst.
  assert (Hx' := Hx). unfold is_digit_char in Hx'. bool_to_prop.
  assert (Hsp : c_isspace x = false).
  { unfold c_isspace. apply orb_false_iff. split.
    - apply andb_false_iff. right. apply N.leb_gt. lia.
    - apply N.eqb_neq. lia. }
  simpl skip_c_space. rewrite Hsp.
  destruct (N.eqb_spec x 45); [lia|]. destruct (N.eqb_spec x 43); [lia|].
  rewrite (digit_run_digits Hd). simpl skip_c_space.
  rewrite (run_digits_digits Hd), Hl.
  simpl run_ok. destruct (N.eqb_spec x 95); [lia|].
  rewrite (run_ok_digits Hd'). cbn [andb].
  destruct (int_exceeds (length s)); cbn [negb]; [reflexivity | eexists; reflexivity].
Qed.

(** *** [split] and [in] *)
Lemma split_char_head sep w rest :
  ~ In sep w ->
  exists more, split_char sep (w ++ sep :: rest) = w :: more.
Proof.
  induction w as [|c w IH]; intros Hn; simpl.
  - rewrite N.eqb_refl. eexists. reflexivity.
  - destruct (N.eqb_spec c sep) as [->|_]; [exfalso; apply Hn; left; reflexivity|].
    destruct IH as (more & ->); [intros Hin; apply Hn; right; exact Hin|].
    eexists. reflexivity.
Qed.

Lemma split_char_nonempty sep s : exists h t, split_char sep s = h :: t.
Proof.
  induction s as [|c s (h & t & IH)]; simpl; [eauto|].
  destruct (c =? sep); [eauto|]. rewrite IH. eauto.
Qed.

Lemma startswith_app s t : startswith (s ++ t) s = true.
Proof.
  induction s as [|c s IH]; simpl; [destruct t; reflexivity|].
  rewrite N.eqb_refl. exact IH.
Qed.

Lemma contains_startswith needle hay :
  startswith hay needle = true -> contains needle hay = true.
Proof.
  intros H. destruct hay as [|c t].
  - change (contains needle []) with (startswith [] needle || false).
    rewrite H. reflexivity.
  - change (contains needle (c :: t))
      with (startswith (c :: t) needle || contains needle t).
    rewrite H. reflexivity.
Qed.

Lemma contains_app a needle b : contains needle (a ++ needle ++ b) = true.
Proof.
  induction a as [|c a IH].
  - apply contains_startswith. exact (startswith_app needle b).
  - change (contains needle ((c :: a) ++ needle ++ b))
      with (startswith (c :: a ++ needle ++ b) needle
            || contains needle (a ++ needle ++ b)).
    rewrite IH. apply orb_true_r.
Qed.

Lemma startswith_inv s p : startswith s p = true -> exists t, s = p ++ t.
Proof.
  revert s. induction p as [|c p IH]; intros s H; simpl in H.
  - exists s. reflexivity.
  - destruct s as [|x s]; [discriminate H|].
    apply andb_true_iff in H. destruct H as [H1 H2].
    apply N.eqb_eq in H1. subst x.
    destruct (IH _ H2) as (t & ->). exists t. reflexivity.
Qed.

Lemma contains_inv needle hay :
  contains needle hay = true -> exists a b, hay = a ++ needle ++ b.
Proof.
  induction hay as [|c hay IH]; intros H.
  - change (contains needle []) with (startswith [] needle || false) in H.
    rewrite orb_false_r in H. apply startswith_inv in H. destruct H as (t & ->).
    exists [], t. reflexivity.
  - change (contains needle (c :: hay))
      with (startswith (c :: hay) needle || contains needle hay) in H.
    apply orb_true_iff in H. destruct H as [H|H].
    + apply startswith_inv in H. destruct H as (t & ->). exists [], t. reflexivity.
    + destruct (IH H) as (a & b & ->). exists (c :: a), b. reflexivity.
Qed.

(** *** Dictionaries *)
Lemma str_eqb_refl a : str_eqb a a = true.
Proof. apply str_eqb_eq. reflexivity. Qed.

Lemma dict_get_set_same k v d : dict_get k (dict_set k v d) = Some v.
Proof.
  induction d as [|[k' v'] d IH]; simpl.
  - rewrite str_eqb_refl. reflexivity.
  - destruct (str_eqb k' k) eqn:E; simpl; rewrite E; [reflexivity | exact IH].
Qed.

Lemma dict_get_set_other k k' v d :
  str_eqb k' k = false -> dict_get k (dict_set k' v d) = dict_get k d.
Proof.
  intros Hne. induction d as [|[k0 v0] d IH]; simpl.
  - rewrite Hne. reflexivity.
  - destruct (str_eqb k0 k') eqn:E; simpl.
    + apply str_eqb_eq in E. subst k0. rewrite Hne. reflexivity.
    + rewrite IH. reflexivity.
Qed.

(** *** Words of patterns *)
Variable fl : flags.

Lemma matches_seq_inv a b w :
  matches fl (Seq a b) w ->
  exists w1 w2, w = w1 ++ w2 /\ matches fl a w1 /\ matches fl b w2.
Proof. intros H. inversion H; subst. eauto. Qed.

Lemma matches_eps_inv w : matches fl Eps w -> w = [].
Proof. intros H. inversion H. reflexivity. Qed.

Lemma matches_lit_inv p w :
  matches fl (Lit p) w -> exists c, w = [c] /\ lit_match fl p c = true.
Proof. intros H. inversion H; subst. eauto. Qed.

Lemma matches_cset_inv items w :
  matches fl (CSet items) w -> exists c, w = [c] /\ set_match fl items c = true.
Proof. intros H. inversion H; subst. eauto. Qed.

Lemma matches_alt_inv a b w :
  matches fl (Alt a b) w -> matches fl a w \/ matches fl b w.
Proof. intros H. inversion H; subst; auto. Qed.

Lemma matches_star_cset g items w :
  matches fl (Star g (CSet items)) w -> Forall (fun c => set_match fl items c = true) w.
Proof.
  intros H. remember (Star g (CSet items)) as r eqn:E.
  induction H; try discriminate E.
  - constructor.
  - injection E as -> ->. apply matches_cset_inv in H.
    destruct H as (c & -> & Hc). simpl. constructor; [exact Hc|].
    apply IHmatches2. reflexivity.
Qed.

Lemma matches_plus_cset items w :
  matches fl (plus (CSet items)) w ->
  w <> [] /\ Forall (fun c => set_match fl items c = true) w.
Proof.
  intros H. apply matches_seq_inv in H. destruct H as (w1 & w2 & -> & H1 & H2).
  apply matches_cset_inv in H1. destruct H1 as (c & -> & Hc).
  apply matches_star_cset in H2. split; [discriminate|].
  simpl. constructor; assumption.
Qed.

Lemma matches_lits_inv s w :
  matches fl (lits s) w -> Forall2 (fun p c => lit_match fl p c = true) s w.
Proof.
  revert w. induction s as [|p s IH]; intros w H; simpl in H.
  - apply matches_eps_inv in H. subst. constructor.
  - apply matches_seq_inv in H. destruct H as (w1 & w2 & -> & H1 & H2).
    apply matches_lit_inv in H1. destruct H1 as (c & -> & Hc).
    simpl. constructor; [exact Hc | exact (IH _ H2)].
Qed.
End StringFacts.

(* ================================================================= *)
(** ** The extractors never raise *)

Section Totality.
Context {Py : Runtime}.
Variable self : MedicalReportSummarizer.

Lemma need_group e fl r text m :
  re_search fl r text = Some m -> mandatory 1 r = true ->
  need e (group m 1) = Ok (group_text m 1).
Proof.
  intros Hs Hm. apply re_search_hit in Hs.
  destruct (hit_group_mandatory 1 Hs Hm) as (v & Hv).
  unfold group_text. rewrite Hv. reflexivity.
Qed.

Lemma extract_name_total text : forall patterns p,
    Forall (fun r => mandatory 1 r = true) patterns ->
    exists p', extract_name patterns text p = Ok p' /\
               age p' = age p /\ gender p' = gender p /\ mrn p' = mrn p /\ dob p' = dob p.
Proof.
  induction patterns as [|r rs IH]; intros p Hm; simpl.
  - exists p. auto.
  - inversion Hm as [|? ? Hr Hrs]; subst.
    destruct (re_search re_I r text) as [m|] eqn:E; [|exact (IH p Hrs)].
    rewrite (need_group AttributeError _ _ _ E Hr). simpl.
    eexists. split; [reflexivity|]. simpl. auto.
Qed.

Lemma extract_field_total pattern text store p :
  mandatory 1 pattern = true ->
  extract_field pattern text store p =
  Ok (match re_search re_I pattern text with
      | Some m => store p (group_text m 1)
      | None => p
      end).
Proof.
  intros Hm. unfold extract_field.
  destruct (re_search re_I pattern text) as [m|] eqn:E; [|reflexivity].
  rewrite (need_group TypeError _ _ _ E Hm). reflexivity.
Qed.

(** [extract_patient_info] returns, and the gender it returns is the
    text of group 1 of the first match of the gender pattern. *)
Lemma extract_patient_info_total text :
  exists p, extract_patient_info self text = Ok p /\
            dob p = [] /\
            gender p = match re_search re_I gender_pattern text with
                       | Some m => group_text m 1
                       | None => []
                       end.
Proof.
  unfold extract_patient_info.
  destruct (extract_name_total text (patterns := name_patterns) new_patient)
    as (p1 & -> & _ & Hg & _ & Hd).
  { repeat constructor. }
  cbn [bind].
  repeat (rewrite extract_field_total by reflexivity; cbn [bind]).
  eexists. split; [reflexivity|].
  destruct (re_search re_I age_pattern text);
    destruct (re_search re_I gender_pattern text);
    destruct (re_search re_I mrn_pattern text); simpl; auto.
Qed.

Lemma first_section_total text : forall patterns,
    Forall (fun r => mandatory 1 r = true) patterns ->
    exists o, first_section patterns text = Ok o.
Proof.
  induction patterns as [|r rs IH]; intros Hm; simpl; [eauto|].
  inversion Hm as [|? ? Hr Hrs]; subst.
  destruct (re_search re_IS r text) as [m|] eqn:E; [|exact (IH Hrs)].
  rewrite (need_group AttributeError _ _ _ E Hr). simpl. eauto.
Qed.

Lemma first_medication_section_total text : forall patterns,
    Forall (fun r => mandatory 1 r = true) patterns ->
    exists o, first_medication_section patterns text = Ok o.
Proof.
  induction patterns as [|r rs IH]; intros Hm; simpl; [eauto|].
  inversion Hm as [|? ? Hr Hrs]; subst.
  destruct (re_search re_IS r text) as [m|] eqn:E; [|exact (IH Hrs)].
  rewrite (need_group TypeError _ _ _ E Hr). simpl. eauto.
Qed.

Lemma extract_chief_complaint_total text :
  exists c, extract_chief_complaint self text = Ok c.
Proof.
  unfold extract_chief_complaint.
  destruct (first_section_total text (patterns := chief_complaint_patterns))
    as (o & ->); [repeat constructor|].
  simpl. destruct o; eauto.
Qed.

Lemma split_pieces_nonempty text cur ms :
  exists h t, split_pieces text cur ms = h :: t.
Proof. destruct ms; simpl; eauto. Qed.

Lemma clean_item_total item : exists o, clean_item item = Ok o.
Proof.
  unfold clean_item.
  destruct (_ || _); [eauto|].
  destruct (_ && _); [eauto|].
  unfold re_split at 1.
  destruct (split_pieces_nonempty
              (re_sub_empty no_flags bullet_mark
                 (re_sub_empty no_flags numbering (strip item))) 0
              (re_finditer no_flags management_note
                 (re_sub_empty no_flags bullet_mark
                    (re_sub_empty no_flags numbering (strip item)))))
    as (h & t & ->).
  simpl. destruct (_ && _); eauto.
Qed.

Lemma mapM_total {A B : Type} (f : A -> result B) (l : list A) :
  (forall a, exists b, f a = Ok b) -> exists bs, mapM f l = Ok bs.
Proof.
  intros Hf. induction l as [|a l (bs & IH)]; simpl; [eauto|].
  destruct (Hf a) as (b & ->). simpl. rewrite IH. simpl. eauto.
Qed.

Lemma clean_diagnosis_text_total text :
  exists l, clean_diagnosis_text self text = Ok l.
Proof.
  unfold clean_diagnosis_text.
  destruct (mapM_total clean_item (re_split no_flags item_delimiter text)
                       clean_item_total) as (bs & ->).
  simpl. eauto.
Qed.

Lemma extract_diagnoses_total text :
  exists l, extract_diagnoses self text = Ok l /\ length l <= 10.
Proof.
  unfold extract_diagnoses.
  destruct (first_section_total text (patterns := diagnosis_patterns))
    as (o & ->); [repeat constructor|].
  cbn [bind]. destruct o as [g|].
  - destruct (clean_diagnosis_text_total (strip g)) as (l & ->). cbn [bind].
    eexists. split; [reflexivity|]. apply firstn_le_length.
  - cbn [bind]. eexists. split; [reflexivity|]. apply firstn_le_length.
Qed.

Lemma extract_medications_total text :
  exists l, extract_medications self text = Ok l /\ length l <= 15.
Proof.
  unfold extract_medications.
  destruct (first_medication_section_total text (patterns := medication_patterns))
    as (o & ->); [repeat constructor|].
  cbn [bind]. eexists. split; [reflexivity|]. apply firstn_le_length.
Qed.

Lemma extract_vital_total pattern key suffix text vitals :
  mandatory 1 pattern = true ->
  extract_vital pattern key suffix text vitals =
  Ok (match re_search re_I pattern text with
      | Some m => dict_set key (group_text m 1 ++ suffix) vitals
      | None => vitals
      end).
Proof.
  intros Hm. unfold extract_vital.
  destruct (re_search re_I pattern text) as [m|] eqn:E; [|reflexivity].
  rewrite (need_group TypeError _ _ _ E Hm). reflexivity.
Qed.

Lemma dict_get_bp_other (o : option Match) key (v : Match -> str) d :
  str_eqb key blood_pressure_key = false ->
  dict_get blood_pressure_key
           (match o with Some m => dict_set key (v m) d | None => d end)
  = dict_get blood_pressure_key d.
Proof.
  intros Hk. destruct o; [|reflexivity]. apply dict_get_set_other. exact Hk.
Qed.

(** [extract_vital_signs] returns, and the blood pressure it stores
    is the text of group 1 of the first match of the pattern. *)
Lemma extract_vital_signs_total text :
  exists d, extract_vital_signs self text = Ok d /\
            dict_get blood_pressure_key d =
            option_map (fun m => group_text m 1) (re_search re_I bp_pattern text).
Proof.
  unfold extract_vital_signs.
  repeat (rewrite extract_vital_total by reflexivity; cbn [bind]).
  eexists. split; [reflexivity|].
  rewrite !dict_get_bp_other by reflexivity.
  destruct (re_search re_I bp_pattern text); simpl; [|reflexivity].
  rewrite app_nil_r. reflexivity.
Qed.
End Totality.

(* ================================================================= *)
(** ** Blood pressure and the critical flags *)

Ltac split_group_in H :=
  simpl in H;
  repeat match type of H with
         | False => destruct H
         | _ \/ _ => destruct H as [H|H]
         | _ /\ _ => let E := fresh "E" in destruct H as [E H]
         end.

Section BloodPressure.
Context {Py : Runtime}.
Variable self : MedicalReportSummarizer.
Local Open Scope N_scope.

Lemma set_match_digit fl c : set_match fl [CDigit] c = isdecimal c.
Proof.
  unfold set_match. simpl. rewrite andb_false_r, orb_false_r. reflexivity.
Qed.

Lemma matches_digits fl w :
  matches fl (plus digit) w -> w <> [] /\ Forall (fun c => isdecimal c = true) w.
Proof.
  intros H. apply matches_plus_cset in H. destruct H as [Hne Hall].
  split; [exact Hne|]. eapply Forall_impl; [|exact Hall].
  intros c Hc. cbv beta in Hc. rewrite set_match_digit in Hc. exact Hc.
Qed.

Lemma bp_group_shape text m :
  re_search re_I bp_pattern text = Some m ->
  exists sys dia, bp_shape (group_text m 1) sys dia.
Proof.
  intros Hs. apply re_search_hit in Hs.
  destruct (hit_group_mandatory 1 Hs eq_refl) as (v & Hv).
  unfold group_text. rewrite Hv.
  destruct (hit_group_matches 1 Hs Hv) as (b & Hb & M).
  split_group_in Hb. subst b. clear E.
  apply matches_seq_inv in M. destruct M as (sys & w2 & -> & M1 & M).
  apply matches_seq_inv in M. destruct M as (sl & w3 & -> & M2 & M).
  apply matches_seq_inv in M. destruct M as (dia & w4 & -> & M3 & M).
  apply matches_eps_inv in M. subst w4. rewrite app_nil_r.
  apply matches_lit_inv in M2. destruct M2 as (c & -> & Hc).
  change (lit_match re_I (ch "/") c) with (c =? 47) in Hc.
  apply N.eqb_eq in Hc. subst c.
  apply matches_digits in M1, M3. destruct M1, M3.
  exists sys, dia. repeat split; assumption.
Qed.

Lemma bp_shape_systolic v sys dia :
  bp_shape v sys dia -> nth_error (split_char (ch "/") v) 0 = Some sys.
Proof.
  intros (-> & _ & Hsys & _).
  destruct (split_char_head (ch "/") sys dia) as (more & ->); [|reflexivity].
  intros Hin. rewrite Forall_forall in Hsys.
  apply Hsys, isdecimal_not in Hin. destruct Hin as [Hin _]. apply Hin. reflexivity.
Qed.

(** On a blood pressure of that shape the threshold check succeeds,
    unless the systolic has more digits than [int] accepts. *)
Lemma identify_critical_flags_shape text summary v sys dia :
  dict_get blood_pressure_key (vital_signs summary) = Some v ->
  bp_shape v sys dia ->
  if int_exceeds (length sys)
  then identify_critical_flags self text summary = Raise ValueError
  else exists z, py_int sys = Some z /\
                 identify_critical_flags self text summary =
                 Ok (if ((140 <? z) || (z <? 90))%Z
                     then vocabulary_flags text ++ [abnormal_bp_flag]
                     else vocabulary_flags text).
Proof.
  intros Hget Hshape. pose proof (bp_shape_systolic Hshape) as Hpart.
  destruct Hshape as (-> & Hne & Hsys & _ & _).
  pose proof (py_int_digits Hne Hsys) as Hint.
  unfold identify_critical_flags. rewrite Hget.
  change (lit "/") with [ch "/"].
  pose proof (contains_app sys [ch "/"] dia) as Hc.
  change (sys ++ [ch "/"] ++ dia) with (sys ++ ch "/" :: dia) in Hc.
  rewrite Hc, Hpart. cbn [need bind].
  destruct (int_exceeds (length sys)).
  - rewrite Hint. reflexivity.
  - destruct Hint as (z & Hz). exists z. split; [exact Hz|].
    rewrite Hz. cbn [need bind].
    destruct ((140 <? z) || (z <? 90))%Z; reflexivity.
Qed.
End BloodPressure.

(* ================================================================= *)
(** ** The properties of the pipeline *)

(** The threshold check of [summarize_report], by the number of digits
    of the systolic. *)
Lemma identify_in_summary (Py : Runtime) (self : MedicalReportSummarizer)
      (text : str) (summary : MedicalSummary) :
  dict_get blood_pressure_key (vital_signs summary)
  = option_map (fun m => group_text m 1) (re_search re_I bp_pattern text) ->
  if int_exceeds (systolic_digits text)
  then identify_critical_flags self text summary = Raise ValueError
  else exists f, identify_critical_flags self text summary = Ok f.
Proof.
  intros Hbp. unfold systolic_digits.
  destruct (re_search re_I bp_pattern text) as [hit|] eqn:E; simpl in Hbp.
  - destruct (bp_group_shape _ E) as (sys & dia & Hshape).
    pose proof (identify_critical_flags_shape self text summary Hbp Hshape) as H.
    pose proof (bp_shape_systolic Hshape) as Hpart.
    destruct (split_char (ch "/") (group_text hit 1)) as [|h t]; [discriminate Hpart|].
    injection Hpart as ->. cbn [hd].
    destruct (int_exceeds (length sys)); [exact H|].
    destruct H as (z & _ & ->). eauto.
  - change (int_exceeds 0) with false. cbv iota.
    unfold identify_critical_flags. rewrite Hbp. eauto.
Qed.

(** [summarize_report] returns on every text whose systolic is not
    longer than [int] accepts, and raises on the others. *)
Lemma summarize_report_returns (Py : Runtime) (self : MedicalReportSummarizer) (text : str) :
  if int_exceeds (systolic_digits text)
  then summarize_report self text = Raise ValueError
  else exists s, summarize_report self text = Ok s /\
                 procedures s = [] /\ allergies s = [] /\ recommendations s = [] /\
                 dob (patient_info s) = [].
Proof.
  unfold summarize_report.
  destruct (extract_patient_info_total self text) as (p & -> & Hdob & _).
  destruct (extract_chief_complaint_total self text) as (c & ->).
  destruct (extract_diagnoses_total self text) as (d & -> & _).
  destruct (extract_medications_total self text) as (m & -> & _).
  destruct (extract_vital_signs_total self text) as (v & -> & Hbp).
  cbn [bind].
  match goal with
  | |- context [identify_critical_flags self text ?s] => set (summary := s)
  end.
  pose proof (identify_in_summary Py self text summary Hbp) as H.
  destruct (int_exceeds (systolic_digits text)).
  - rewrite H. reflexivity.
  - destruct H as (f & ->). cbn [bind].
    eexists. split; [reflexivity|]. simpl. auto.
Qed.

(** C1, as the claim states it, fails: [int] refuses a systolic of more
    digits than the interpreter allows, and the [ValueError] leaves
    [summarize_report]. *)
Lemma long_systolic_raises :
  ~ (forall (Py : Runtime) (self : MedicalReportSummarizer) (text : str),
        exists s, summarize_report self text = Ok s).
Proof.
  intros H. destruct (H BasicRuntime bare_summarizer long_reading) as (s & Hs).
  assert (Hr : summarize_report (Py := BasicRuntime) bare_summarizer long_reading
               = Raise ValueError) by (vm_compute; reflexivity).
  rewrite Hr in Hs. discriminate Hs.
Qed.

(** C1, amended: [summarize_report] returns a [MedicalSummary] and
    raises no exception on every input string, unless the systolic of
    its first blood-pressure reading has more digits than the
    interpreter accepts in an [int] conversion (4300 by default); on
    such a text it raises [ValueError].  The three placeholder lists and
    the date of birth of a returned summary are empty, and on a text in
    which nothing matches (the empty text) every field has its empty
    default. *)
Theorem summarize_report_total (Py : Runtime) (self : MedicalReportSummarizer) :
  (forall text : str,
      int_exceeds (systolic_digits text) = false ->
      exists s, summarize_report self text = Ok s /\
                procedures s = [] /\ allergies s = [] /\ recommendations s = [] /\
                dob (patient_info s) = []) /\
  (forall text : str,
      int_exceeds (systolic_digits text) = true ->
      summarize_report self text = Raise ValueError) /\
  summarize_report self [] = Ok empty_summary.
Proof.
  split; [|split; [|reflexivity]]; intros text Hfit;
    pose proof (summarize_report_returns Py self text) as H;
    rewrite Hfit in H; exact H.
Qed.

Lemma summarize_report_total_witness :
  (exists s, summarize_report (Py := BasicRuntime) bare_summarizer (lit "BP: 150/95") = Ok s)
  /\ summarize_report (Py := BasicRuntime) bare_summarizer long_reading = Raise ValueError.
Proof.
  destruct (summarize_report_total BasicRuntime bare_summarizer) as (H1 & H2 & _).
  split.
  - destruct (H1 (lit "BP: 150/95") eq_refl) as (s & Hs & _). exists s. exact Hs.
  - apply H2. vm_compute. reflexivity.
Defined.

(** C6: for every input text [extract_diagnoses] returns at most 10
    entries and [extract_medications] at most 15. *)
Theorem diagnoses_and_medications_capped
        (Py : Runtime) (self : MedicalReportSummarizer) (text : str) :
  exists d m, extract_diagnoses self text = Ok d /\
              extract_medications self text = Ok m /\
              length d <= 10 /\ length m <= 15.
Proof.
  destruct (extract_diagnoses_total self text) as (d & Hd & Ld).
  destruct (extract_medications_total self text) as (m & Hm & Lm).
  exists d, m. auto.
Qed.

(** The cap at work: a diagnosis block of twelve items yields its first
    ten. *)
Example twelve_diagnoses_capped :
  clean_diagnosis_text (Py := BasicRuntime) bare_summarizer twelve_diagnoses
  = Ok (map lit ["Disease a"; "Disease b"; "Disease c"; "Disease d"; "Disease e";
                 "Disease f"; "Disease g"; "Disease h"; "Disease i"; "Disease j";
                 "Disease k"; "Disease l"]%string) /\
  extract_diagnoses (Py := BasicRuntime) bare_summarizer
                    (lit "Diagnosis: " ++ twelve_diagnoses ++ lit "\n\n")
  = Ok (map lit ["Disease a"; "Disease b"; "Disease c"; "Disease d"; "Disease e";
                 "Disease f"; "Disease g"; "Disease h"; "Disease i"; "Disease j"]%string).
Proof. split; vm_compute; reflexivity. Qed.

(* ----------------------------------------------------------------- *)
(** *** Gender *)

Lemma lit_match_plain_letter (Py : Runtime) p c :
  plain_letter p = true -> lit_match re_I p c = true ->
  ascii_tolower c = ascii_tolower p.
Proof.
  unfold plain_letter, mem_char. simpl existsb. intros Hp.
  apply andb_true_iff in Hp. destruct Hp as [Ha Hn].
  apply negb_true_iff in Hn. rewrite orb_false_r in Hn.
  apply orb_false_iff in Hn. destruct Hn as [Hi Hn].
  apply orb_false_iff in Hn. destruct Hn as [Hk Hs].
  apply N.eqb_neq in Hi, Hk, Hs.
  assert (Hascii : is_ascii p = true).
  { unfold ascii_isalpha, ascii_isupper, ascii_islower in Ha. unfold is_ascii.
    apply N.ltb_lt. apply orb_true_iff in Ha. destruct Ha as [Ha|Ha]; bool_to_prop; lia. }
  assert (Hlo : is_ascii (ascii_tolower p) = true).
  { unfold ascii_tolower, ascii_isalpha, ascii_isupper, ascii_islower, is_ascii in *.
    destruct ((65 <=? p) && (p <=? 90))%N eqn:E; [|exact Hascii].
    bool_to_prop. apply N.ltb_lt. lia. }
  assert (Hcased : sre_iscased p = true).
  { unfold sre_iscased, tolower, toupper. rewrite Hascii.
    unfold ascii_tolower, ascii_toupper, ascii_isalpha in *.
    apply orb_true_iff in Ha. destruct Ha as [Ha|Ha]; rewrite Ha.
    - apply orb_true_iff. left. apply negb_true_iff, N.eqb_neq. lia.
    - apply orb_true_iff. right. apply negb_true_iff, N.eqb_neq.
      unfold ascii_islower in Ha. bool_to_prop. lia. }
  unfold lit_match. simpl IGNORECASE. rewrite Hcased. simpl andb. cbv zeta.
  assert (Hlow : tolower p = ascii_tolower p) by (unfold tolower; rewrite Hascii; reflexivity).
  rewrite Hlow. unfold fixes. rewrite Hlo.
  destruct (N.eqb_spec (ascii_tolower p) 105); [contradiction|].
  destruct (N.eqb_spec (ascii_tolower p) 115); [contradiction|].
  simpl mem_char. rewrite orb_false_r. intros Hc. apply N.eqb_eq in Hc.
  unfold tolower in Hc. destruct (is_ascii c) eqn:Ec; [exact Hc|].
  exfalso. rewrite <- Hc in Hlo, Hi, Hk.
  destruct (u_tolower_ascii c Ec Hlo); contradiction.
Qed.

Lemma lits_caseless (Py : Runtime) s w :
  forallb plain_letter s = true -> matches re_I (lits s) w ->
  map ascii_tolower w = map ascii_tolower s.
Proof.
  intros Hs M. apply matches_lits_inv in M.
  induction M as [|p c s w Hpc M IH]; [reflexivity|].
  simpl in Hs. apply andb_true_iff in Hs. destruct Hs as [Hp Hs].
  simpl. rewrite (@lit_match_plain_letter Py p c Hp Hpc), (IH Hs). reflexivity.
Qed.

(** C7, as the claim states it, fails: the gender is the matched text
    itself, and the pattern is matched without regard to case. *)
Lemma gender_not_one_of_four :
  ~ (forall (Py : Runtime) (self : MedicalReportSummarizer) (text : str) (p : PatientInfo),
        extract_patient_info self text = Ok p ->
        gender p = [] \/ In (gender p) genders).
Proof.
  intros H.
  specialize (H BasicRuntime {| nlp := None; summarizer := None |}
                (lit "Gender: male")
                {| name := []; age := []; gender := lit "male"; mrn := []; dob := [] |}
                eq_refl).
  destruct H as [H|H]; [discriminate H|].
  simpl in H. repeat (destruct H as [H|H]; [discriminate H|]). exact H.
Qed.

(** C7, amended: for every input text the gender returned by
    [extract_patient_info] is empty or is one of "Male", "Female", "M",
    "F" up to the case of its ASCII letters. *)
Theorem gender_caseless_one_of_four
        (Py : Runtime) (self : MedicalReportSummarizer) (text : str) :
  exists p, extract_patient_info self text = Ok p /\
            (gender p = [] \/
             In (map ascii_tolower (gender p)) (map (map ascii_tolower) genders)).
Proof.
  destruct (extract_patient_info_total self text) as (p & Hp & _ & Hg).
  exists p. split; [exact Hp|]. rewrite Hg.
  destruct (re_search re_I gender_pattern text) as [m|] eqn:E; [|left; reflexivity].
  right. apply re_search_hit in E.
  destruct (hit_group_mandatory 1 E eq_refl) as (v & Hv).
  unfold group_text. rewrite Hv.
  destruct (hit_group_matches 1 E Hv) as (b & Hb & M).
  split_group_in Hb. subst b. clear E0.
  unfold genders. simpl map at 2.
  apply matches_alt_inv in M. destruct M as [M|M];
    [apply lits_caseless in M; [rewrite M; simpl; auto | reflexivity]|].
  apply matches_alt_inv in M. destruct M as [M|M];
    [apply lits_caseless in M; [rewrite M; simpl; auto | reflexivity]|].
  apply matches_alt_inv in M. destruct M as [M|M];
    apply lits_caseless in M; try reflexivity; rewrite M; simpl; auto.
Qed.

(* ----------------------------------------------------------------- *)
(** *** The vocabulary scan *)

Lemma existsb_str_eqb x l : existsb (str_eqb x) l = false -> ~ In x l.
Proof.
  induction l as [|y l IH]; simpl; intros H; [tauto|].
  apply orb_false_iff in H. destruct H as [H1 H2]. intros [->|Hin].
  - rewrite (proj2 (str_eqb_eq x x) eq_refl) in H1. discriminate H1.
  - exact (IH H2 Hin).
Qed.

Lemma nodupb_sound l : nodupb l = true -> NoDup l.
Proof.
  induction l as [|x l IH]; simpl; intros H; constructor.
  - apply andb_true_iff in H. destruct H as [H _].
    apply negb_true_iff in H. exact (existsb_str_eqb _ _ H).
  - apply andb_true_iff in H. apply IH, H.
Qed.

(** The flags of the selected terms are distinct when the flags of all
    terms are. *)
Lemma selected_flags_distinct (selected : str -> bool) (flag : str -> str) :
  forall terms : list str,
    NoDup (map flag terms) -> NoDup (map flag (filter selected terms)).
Proof.
  intros terms. induction terms as [|t terms IH]; simpl; intros H; [constructor|].
  inversion H as [|? ? Hfresh Hrest]; subst.
  destruct (selected t); [|exact (IH Hrest)].
  simpl. constructor; [|exact (IH Hrest)].
  intros Hin. apply Hfresh. apply in_map_iff in Hin. destruct Hin as (x & Hx & Hin).
  apply filter_In in Hin. apply in_map_iff. exists x. split; [exact Hx | apply Hin].
Qed.

Lemma fold_left_select {A B : Type} (f : A -> B) (p : A -> bool) (l : list A) :
  forall init,
    fold_left (fun acc a => if p a then acc ++ [f a] else acc) l init
    = init ++ map f (filter p l).
Proof.
  induction l as [|a l IH]; intros init; simpl.
  - rewrite app_nil_r. reflexivity.
  - rewrite IH. destruct (p a); [|reflexivity].
    simpl. rewrite <- app_assoc. reflexivity.
Qed.

Section Vocabulary.
Context {Py : Runtime}.
Variable self : MedicalReportSummarizer.

Lemma vocabulary_flags_filter text :
  vocabulary_flags text =
  map term_flag (filter (fun term => contains term (lower text)) critical_terms).
Proof. unfold vocabulary_flags. rewrite fold_left_select. reflexivity. Qed.

Lemma ascii_tolower_is_ascii c :
  is_ascii (ascii_tolower c) = true -> is_ascii c = true.
Proof.
  unfold ascii_tolower, ascii_isupper, is_ascii.
  destruct ((65 <=? c) && (c <=? 90))%N eqn:E; [|tauto].
  intros _. bool_to_prop. apply N.ltb_lt. lia.
Qed.

(** ASCII characters are lowered without regard to their context. *)
Lemma lower_from_ascii v : forall before b,
    Forall (fun c => is_ascii c = true) v ->
    lower_from before (v ++ b) = map ascii_tolower v ++ lower_from (rev v ++ before) b.
Proof.
  induction v as [|c v IH]; intros before b Hv; simpl; [reflexivity|].
  inversion Hv as [|? ? Hc Hv']; subst. rewrite Hc. simpl.
  rewrite (IH _ _ Hv'), <- app_assoc. reflexivity.
Qed.

Lemma lower_from_middle a : forall before v b,
    Forall (fun c => is_ascii c = true) v ->
    exists X Y, lower_from before (a ++ v ++ b) = X ++ map ascii_tolower v ++ Y.
Proof.
  induction a as [|c a IH]; intros before v b Hv.
  - exists [], (lower_from (rev v ++ before) b). simpl.
    apply lower_from_ascii. exact Hv.
  - destruct (IH (c :: before) v b Hv) as (X & Y & E).
    simpl. rewrite E. eexists (_ ++ X), Y. rewrite <- app_assoc. reflexivity.
Qed.

(** A term in any casing is found by the scan of the lowered text. *)
Lemma contains_caseless_lower term text :
  forallb is_ascii term = true -> contains_caseless term text ->
  contains term (lower text) = true.
Proof.
  intros Ht (a & v & b & -> & Hv). unfold lower.
  assert (Hascii : Forall (fun c => is_ascii c = true) v).
  { subst term. rewrite forallb_forall in Ht. apply Forall_forall.
    intros c Hc. apply ascii_tolower_is_ascii. apply Ht.
    apply in_map. exact Hc. }
  destruct (lower_from_middle a [] b Hascii) as (X & Y & ->).
  rewrite Hv. apply contains_app.
Qed.

Lemma critical_terms_ascii term :
  In term critical_terms -> forallb is_ascii term = true.
Proof.
  intros H. assert (Hall : forallb (forallb is_ascii) critical_terms = true)
    by reflexivity.
  rewrite forallb_forall in Hall. exact (Hall _ H).
Qed.

Lemma vocabulary_flags_In text term :
  In term critical_terms -> contains_caseless term text ->
  In (term_flag term) (vocabulary_flags text).
Proof.
  intros Hin Hc. rewrite vocabulary_flags_filter. apply in_map.
  apply filter_In. split; [exact Hin|].
  apply contains_caseless_lower; [apply critical_terms_ascii, Hin | exact Hc].
Qed.

Lemma all_flags_nodup : NoDup (map term_flag critical_terms ++ [abnormal_bp_flag]).
Proof. apply nodupb_sound. vm_compute. reflexivity. Qed.

Lemma vocabulary_flags_nodup text : NoDup (vocabulary_flags text).
Proof.
  rewrite vocabulary_flags_filter. apply selected_flags_distinct.
  exact (NoDup_app_remove_r _ _ all_flags_nodup).
Qed.

Lemma abnormal_not_vocabulary text : ~ In abnormal_bp_flag (vocabulary_flags text).
Proof.
  rewrite vocabulary_flags_filter. intros H.
  apply in_map_iff in H. destruct H as (term & Ht & H).
  apply filter_In in H. destruct H as [H _].
  pose proof all_flags_nodup as Hnd. apply NoDup_remove_2 in Hnd.
  rewrite app_nil_r in Hnd. apply Hnd. rewrite <- Ht. apply in_map. exact H.
Qed.

(** What [identify_critical_flags] returns when it returns. *)
Lemma identify_critical_flags_cases text summary flags :
  identify_critical_flags self text summary = Ok flags ->
  flags = vocabulary_flags text \/ flags = vocabulary_flags text ++ [abnormal_bp_flag].
Proof.
  unfold identify_critical_flags.
  destruct (dict_get blood_pressure_key (vital_signs summary)) as [bp|];
    [|intros [= <-]; auto].
  destruct (contains (lit "/") bp); [|intros [= <-]; auto].
  destruct (nth_error (split_char (ch "/") bp) 0) as [part|]; [|discriminate].
  cbn [need bind]. destruct (py_int part) as [z|]; [|discriminate].
  cbn [need bind]. destruct ((140 <? z) || (z <? 90))%Z; intros [= <-]; auto.
Qed.

Lemma identify_critical_flags_nodup text summary flags :
  identify_critical_flags self text summary = Ok flags -> NoDup flags.
Proof.
  intros H. destruct (identify_critical_flags_cases _ _ H) as [->| ->].
  - apply vocabulary_flags_nodup.
  - apply NoDup_app; [apply vocabulary_flags_nodup | repeat constructor; intros [] |].
    intros x Hx [<-|[]]. exact (abnormal_not_vocabulary _ Hx).
Qed.
End Vocabulary.

Lemma caseless_chest_pain : contains_caseless (lit "chest pain") (lit "Chest Pain, ACUTE onset").
Proof. exists [], (lit "Chest Pain"), (lit ", ACUTE onset"). split; reflexivity. Qed.

Lemma caseless_acute : contains_caseless (lit "acute") (lit "Chest Pain, ACUTE onset").
Proof. exists (lit "Chest Pain, "), (lit "ACUTE"), (lit " onset"). split; reflexivity. Qed.

(** C5, as the claim states it, fails: the flags are not the strings
    "Chest Pain Mentioned" and "Acute Mentioned". *)
Lemma flags_not_title_cased :
  ~ (forall (Py : Runtime) (self : MedicalReportSummarizer) (text : str)
            (summary : MedicalSummary) (flags : list str),
        contains_caseless (lit "chest pain") text ->
        contains_caseless (lit "acute") text ->
        identify_critical_flags self text summary = Ok flags ->
        In (lit "Chest Pain Mentioned") flags /\ In (lit "Acute Mentioned") flags).
Proof.
  intros H.
  destruct (H BasicRuntime bare_summarizer (lit "Chest Pain, ACUTE onset") empty_summary _
              caseless_chest_pain caseless_acute eq_refl) as [H1 _].
  vm_compute in H1. repeat (destruct H1 as [H1|H1]; [discriminate H1|]). exact H1.
Qed.

(** C5, amended: for every text that contains "chest pain" and "acute"
    in any letter casing, [identify_critical_flags] yields the flags
    "Chest Pain mentioned" and "Acute mentioned", each behind the
    prefix of the source; in general every critical term contained in
    some casing yields its flag, in which the term alone is title-cased,
    and no flag occurs twice. *)
Theorem vocabulary_flags_caseless
        (Py : Runtime) (self : MedicalReportSummarizer) (text : str)
        (summary : MedicalSummary) (flags : list str) :
  identify_critical_flags self text summary = Ok flags ->
  (contains_caseless (lit "chest pain") text ->
   In (flag_prefix ++ lit "Chest Pain mentioned") flags) /\
  (contains_caseless (lit "acute") text ->
   In (flag_prefix ++ lit "Acute mentioned") flags) /\
  (forall term, In term critical_terms -> contains_caseless term text ->
                In (flag_prefix ++ title term ++ lit " mentioned") flags) /\
  NoDup flags.
Proof.
  intros H.
  assert (Hall : forall term, In term critical_terms -> contains_caseless term text ->
                              In (term_flag term) flags).
  { intros term Hin Hc. pose proof (vocabulary_flags_In Hin Hc) as Hv.
    destruct (identify_critical_flags_cases _ _ _ H) as [->| ->];
      [exact Hv | apply in_or_app; left; exact Hv]. }
  repeat split.
  - intros Hc. apply (Hall (lit "chest pain")); [|exact Hc].
    unfold critical_terms. simpl. tauto.
  - intros Hc. apply (Hall (lit "acute")); [|exact Hc].
    unfold critical_terms. simpl. tauto.
  - exact Hall.
  - exact (identify_critical_flags_nodup _ _ _ H).
Qed.

Lemma vocabulary_flags_caseless_witness :
  identify_critical_flags (Py := BasicRuntime) bare_summarizer
                          (lit "Chest Pain, ACUTE onset") empty_summary
  = Ok [flag_prefix ++ lit "Acute mentioned"; flag_prefix ++ lit "Chest Pain mentioned"]
  /\ In (flag_prefix ++ lit "Chest Pain mentioned")
        [flag_prefix ++ lit "Acute mentioned"; flag_prefix ++ lit "Chest Pain mentioned"]
  /\ In (flag_prefix ++ lit "Acute mentioned")
        [flag_prefix ++ lit "Acute mentioned"; flag_prefix ++ lit "Chest Pain mentioned"].
Proof.
  split; [reflexivity|].
  destruct (@vocabulary_flags_caseless BasicRuntime bare_summarizer
              (lit "Chest Pain, ACUTE onset") empty_summary _ eq_refl)
    as (H1 & H2 & _).
  split; [exact (H1 caseless_chest_pain) | exact (H2 caseless_acute)].
Defined.

(* ----------------------------------------------------------------- *)
(** *** A malformed blood pressure *)

(** C2, as the claim states it, fails: on a blood pressure whose part
    before the slash is not a number the detector raises. *)
Lemma malformed_systolic_raises :
  ~ (forall (Py : Runtime) (self : MedicalReportSummarizer) (text : str)
            (summary : MedicalSummary) (bp part : str),
        dict_get blood_pressure_key (vital_signs summary) = Some bp ->
        nth_error (split_char (ch "/") bp) 0 = Some part ->
        py_int part = None ->
        identify_critical_flags self text summary = Ok (vocabulary_flags text)).
Proof.
  intros H.
  specialize (H BasicRuntime bare_summarizer (lit "chest pain")
                (summary_with_vitals [(blood_pressure_key, lit "abc/80")])
                (lit "abc/80") (lit "abc") eq_refl eq_refl eq_refl).
  discriminate H.
Qed.

(** C2, amended: when the part of the stored blood pressure before its
    first slash is not a number, [identify_critical_flags] skips the
    threshold check and returns the flags of the vocabulary scan if the
    value contains no slash, and raises [ValueError] if it contains
    one. *)
Theorem malformed_blood_pressure
        (Py : Runtime) (self : MedicalReportSummarizer) (text : str)
        (summary : MedicalSummary) (bp part : str) :
  dict_get blood_pressure_key (vital_signs summary) = Some bp ->
  nth_error (split_char (ch "/") bp) 0 = Some part ->
  py_int part = None ->
  identify_critical_flags self text summary =
  if contains (lit "/") bp then Raise ValueError else Ok (vocabulary_flags text).
Proof.
  intros Hbp Hpart Hint. unfold identify_critical_flags. rewrite Hbp.
  destruct (contains (lit "/") bp); [|reflexivity].
  rewrite Hpart. cbn [need bind]. rewrite Hint. reflexivity.
Qed.

Lemma malformed_blood_pressure_witness :
  identify_critical_flags (Py := BasicRuntime) bare_summarizer (lit "chest pain")
                          (summary_with_vitals [(blood_pressure_key, lit "abc/80")])
  = Raise ValueError
  /\ identify_critical_flags (Py := BasicRuntime) bare_summarizer (lit "chest pain")
                             (summary_with_vitals [(blood_pressure_key, lit "n.a.")])
     = Ok [flag_prefix ++ lit "Chest Pain mentioned"].
Proof.
  split.
  - exact (@malformed_blood_pressure BasicRuntime bare_summarizer (lit "chest pain")
             (summary_with_vitals [(blood_pressure_key, lit "abc/80")])
             (lit "abc/80") (lit "abc") eq_refl eq_refl eq_refl).
  - exact (@malformed_blood_pressure BasicRuntime bare_summarizer (lit "chest pain")
             (summary_with_vitals [(blood_pressure_key, lit "n.a.")])
             (lit "n.a.") (lit "n.a.") eq_refl eq_refl eq_refl).
Defined.

(* ----------------------------------------------------------------- *)
(** *** Medication lines *)

(** C8, as the claim states it, fails: a line of three characters is
    kept. *)
Lemma short_medication_line_kept :
  ~ (forall (Py : Runtime) (self : MedicalReportSummarizer) (text section : str)
            (meds : list str) (line : str),
        first_medication_section medication_patterns text = Ok (Some section) ->
        extract_medications self text = Ok meds ->
        In line (medication_lines section) -> In line meds ->
        5 <= length line).
Proof.
  intros H.
  specialize (H BasicRuntime bare_summarizer (lit "Rx: ASA\n\n") (lit "ASA")
                [lit "ASA"] (lit "ASA") eq_refl eq_refl).
  simpl in H. specialize (H (or_introl eq_refl) (or_introl eq_refl)). lia.
Qed.

(** C8, amended: the medication list is the first 15 of the dosage
    matches of the section followed by its kept lines; a line is kept
    exactly when it is a line of the section stripped of surrounding
    whitespace, is not empty and does not start with a number and a
    period.  No minimum length applies and no numbering is removed: a
    numbered line is dropped whole. *)
Theorem medication_lines_kept
        (Py : Runtime) (self : MedicalReportSummarizer) (text : str) :
  (exists meds, extract_medications self text = Ok meds /\
     ((first_medication_section medication_patterns text = Ok None /\ meds = []) \/
      exists section,
        first_medication_section medication_patterns text = Ok (Some section) /\
        meds = firstn 15 (re_findall1 no_flags dosage_pattern section
                          ++ medication_lines section))) /\
  (forall section line,
      In line (medication_lines section) <->
      exists raw, In raw (split_char 10%N section) /\ line = strip raw /\
                  line <> [] /\ re_match no_flags numbered_line line = None).
Proof.
  split.
  - unfold extract_medications.
    destruct (first_medication_section_total text (patterns := medication_patterns))
      as (o & Ho); [repeat constructor|].
    rewrite Ho. cbn [bind]. eexists. split; [reflexivity|].
    destruct o as [section|]; [right; exists section; auto | left; auto].
  - intros section line. unfold medication_lines. rewrite filter_In, in_map_iff.
    split.
    + intros [(raw & <- & Hraw) Hkeep]. exists raw.
      apply andb_true_iff in Hkeep. destruct Hkeep as [Hne Hnum].
      repeat split; [exact Hraw | |].
      * destruct (strip raw); [discriminate Hne | discriminate].
      * destruct (re_match no_flags numbered_line (strip raw));
          [discriminate Hnum | reflexivity].
    + intros (raw & Hraw & -> & Hne & Hnum). split; [exists raw; auto|].
      rewrite Hnum. destruct (strip raw); [congruence | reflexivity].
Qed.

Lemma medication_lines_kept_witness :
  In (lit "ASA") (medication_lines (Py := BasicRuntime) (lit "ASA\n1. Aspirin 81mg daily"))
  /\ ~ In (lit "1. Aspirin 81mg daily")
          (medication_lines (Py := BasicRuntime) (lit "ASA\n1. Aspirin 81mg daily")).
Proof.
  destruct (medication_lines_kept BasicRuntime bare_summarizer []) as [_ H].
  split.
  - apply H. exists (lit "ASA"). repeat split; [left; reflexivity | discriminate].
  - intros Hin. apply H in Hin. destruct Hin as (raw & _ & _ & _ & Hnum).
    discriminate Hnum.
Defined.

(* ----------------------------------------------------------------- *)
(** *** Diagnosis cleaning *)

(** C4: in diagnosis cleaning an item whose candidate text contains an
    exclusion word and no medical indicator is dropped; an item of at
    least five characters that contains a medical indicator is not
    dropped for its exclusion words (it is kept whenever the part before
    its management note has more than three characters).  The cleaned
    list of "1. Acute coronary syndrome\n2. Medication adjustment" is
    the one item "Acute coronary syndrome". *)
Theorem diagnosis_exclusion_rule (Py : Runtime) (self : MedicalReportSummarizer) :
  (forall item,
      any_in exclude_words (lower (candidate item)) = true ->
      any_in medical_indicators (lower (candidate item)) = false ->
      clean_item item = Ok None) /\
  (forall item,
      5 <= length (strip item) ->
      any_in medical_indicators (lower (candidate item)) = true ->
      clean_item item =
      Ok (if (3 <? length (diagnosis_part item))%nat
          then Some (diagnosis_part item) else None)) /\
  clean_diagnosis_text self (lit "1. Acute coronary syndrome\n2. Medication adjustment")
  = Ok [lit "Acute coronary syndrome"].
Proof.
  split; [|split; [|reflexivity]].
  - intros item He Hi. unfold clean_item. fold (candidate item).
    destruct (_ || _); [reflexivity|].
    rewrite He, Hi. reflexivity.
  - intros item Hlen Hi. unfold clean_item. fold (candidate item).
    assert (Hlong : (length (strip item) <? 5)%nat = false)
      by (apply Nat.ltb_ge; exact Hlen).
    rewrite Hlong. destruct (strip item) as [|c t] eqn:Es; [simpl in Hlen; lia|].
    cbn [orb]. rewrite Hi. cbn [negb]. rewrite andb_false_r.
    unfold diagnosis_part, re_split.
    destruct (split_pieces_nonempty (candidate item) 0
                (re_finditer no_flags management_note (candidate item)))
      as (h & tl & ->).
    cbn [nth_error need bind hd].
    destruct (strip h) as [|x s]; [reflexivity|].
    cbn [negb andb]. destruct (3 <? length (x :: s))%nat; reflexivity.
Qed.

Lemma diagnosis_exclusion_rule_witness :
  clean_item (Py := BasicRuntime) (lit " Medication adjustment") = Ok None
  /\ clean_item (Py := BasicRuntime) (lit "Hypertension - well controlled")
     = Ok (Some (lit "Hypertension - well controlled")).
Proof.
  destruct (diagnosis_exclusion_rule BasicRuntime bare_summarizer) as (H1 & H2 & _).
  split.
  - apply H1; reflexivity.
  - rewrite H2; [reflexivity | vm_compute; lia | reflexivity].
Defined.

(* ----------------------------------------------------------------- *)
(** *** Laboratory results *)

Lemma fold_left_append {A B : Type} (f : A -> B) (l : list A) :
  forall init, fold_left (fun acc a => acc ++ [f a]) l init = init ++ map f l.
Proof.
  induction l as [|a l IH]; intros init; simpl.
  - rewrite app_nil_r. reflexivity.
  - rewrite IH, <- app_assoc. reflexivity.
Qed.

Lemma fold_left_groups {A B C : Type} (f : B -> C) (items : A -> list B) (l : list A) :
  forall init,
    fold_left (fun acc a => fold_left (fun acc b => acc ++ [f b]) (items a) acc) l init
    = init ++ flat_map (fun a => map f (items a)) l.
Proof.
  induction l as [|a l IH]; intros init; simpl.
  - rewrite app_nil_r. reflexivity.
  - rewrite IH, fold_left_append, <- app_assoc. reflexivity.
Qed.

Lemma StronglySorted_map {A B : Type} (R : B -> B -> Prop) (f : A -> B) (l : list A) :
  StronglySorted (fun a b => R (f a) (f b)) l -> StronglySorted R (map f l).
Proof.
  induction 1 as [|a l Hs IH Hf]; simpl; constructor; [exact IH|].
  apply Forall_map. exact Hf.
Qed.

Lemma StronglySorted_weaken {A : Type} (R Q : A -> A -> Prop) (P : A -> Prop) (l : list A) :
  (forall a b, P a -> R a b -> Q a b) ->
  Forall P l -> StronglySorted R l -> StronglySorted Q l.
Proof.
  intros Himp Hp Hs. induction Hs as [|a l Hs IH Hf]; constructor.
  - apply IH. inversion Hp; assumption.
  - inversion Hp as [|? ? Pa Pl]; subst.
    eapply Forall_impl; [|exact Hf]. intros b Hb. exact (Himp _ _ Pa Hb).
Qed.

Section Finditer.
Context {Py : Runtime}.
Variable fl : flags.
Variable r : regex.

(** The matches of a pattern that is not nullable are not empty. *)
Lemma finditer_from_nonempty : nullable r = false ->
  forall fuel ma pos rest,
    Forall (fun a => fst a < m_pos (snd a)) (finditer_from fl r fuel ma pos rest).
Proof.
  intros Hn. induction fuel as [|f IH]; intros ma pos rest; simpl; [constructor|].
  destruct (search_from fl r ma pos rest) as [[s st']|] eqn:E; [|constructor].
  constructor; [|apply IH].
  destruct (search_from_hit _ _ _ _ _ E) as (k & w & -> & _ & _ & (_ & P & _) & M & _).
  pose proof (matches_nonempty M Hn). simpl in *. lia.
Qed.

(** The matches of [re.finditer] come in the order of the text; those
    of a pattern that is not nullable start at increasing positions. *)
Lemma re_finditer_sorted text : nullable r = false ->
  StronglySorted (fun m1 m2 => m_start m1 < m_start m2 /\ m_end m1 <= m_start m2)
                 (re_finditer fl r text).
Proof.
  intros Hn. unfold re_finditer. apply StronglySorted_map.
  destruct (finditer_from_sorted fl r (2 * length text + 2) false 0 text) as [Hs _].
  eapply StronglySorted_weaken;
    [|exact (finditer_from_nonempty Hn (2 * length text + 2) false 0 text)|exact Hs].
  simpl. intros a b Ha Hab. lia.
Qed.
End Finditer.

(** C10: the laboratory results are the matches of the first pattern of
    the catalog, then those of the second, and so on to the sixth; the
    matches of one pattern come in the order of the text, at increasing
    positions and without overlap.  Across patterns the order of the
    text is not kept: glucose written before hemoglobin is listed after
    it. *)
Theorem lab_results_in_catalog_order
        (Py : Runtime) (self : MedicalReportSummarizer) (text : str) :
  extract_lab_results self text
  = flat_map (fun pattern => map format_lab (re_finditer re_I pattern text)) lab_patterns
  /\ Forall (fun pattern =>
               StronglySorted
                 (fun m1 m2 => m_start m1 < m_start m2 /\ m_end m1 <= m_start m2)
                 (re_finditer re_I pattern text))
            lab_patterns
  /\ extract_lab_results self (lit "Glucose: 100\nHgb: 12.5\nGlucose: 90\nHemoglobin: 13")
     = [lit "Hgb: 12.5"; lit "Hemoglobin: 13"; lit "Glucose: 100"; lit "Glucose: 90"].
Proof.
  split; [|split; [|reflexivity]].
  - unfold extract_lab_results. rewrite fold_left_groups. reflexivity.
  - unfold lab_patterns. repeat constructor; apply re_finditer_sorted; reflexivity.
Qed.

(* ----------------------------------------------------------------- *)
(** *** The greedy path of the matcher

    When every part of a sequence succeeds on its first try, the first
    result of the sequence is found without backtracking. *)

Lemma hd_error_app_some {A : Type} (l1 l2 : list A) a :
  hd_error l1 = Some a -> hd_error (l1 ++ l2) = Some a.
Proof. destruct l1; simpl; [discriminate | tauto]. Qed.

Section GreedyPath.
Context {Py : Runtime}.
Variable fl : flags.

Lemma first_seq a b st st' st'' :
  hd_error (rmatch fl a st) = Some st' ->
  hd_error (rmatch fl b st') = Some st'' ->
  hd_error (rmatch fl (Seq a b) st) = Some st''.
Proof.
  intros Ha Hb. simpl. destruct (rmatch fl a st) as [|x l]; [discriminate Ha|].
  injection Ha as ->. simpl. apply hd_error_app_some. exact Hb.
Qed.

Lemma first_lit p c pos rest caps :
  lit_match fl p c = true ->
  hd_error (rmatch fl (Lit p) (mk_state pos (c :: rest) caps))
  = Some (mk_state (S pos) rest caps).
Proof. intros H. simpl. unfold step_if. simpl. rewrite H. reflexivity. Qed.

Lemma first_lits s : forall w pos rest caps,
    Forall2 (fun p c => lit_match fl p c = true) s w ->
    hd_error (rmatch fl (lits s) (mk_state pos (w ++ rest) caps))
    = Some (mk_state (pos + length w) rest caps).
Proof.
  induction s as [|p s IH]; intros w pos rest caps H; inversion H; subst.
  - simpl. rewrite Nat.add_0_r. reflexivity.
  - change (lits (p :: s)) with (Seq (Lit p) (lits s)).
    eapply first_seq; [apply first_lit; eassumption|].
    rewrite IH by assumption. simpl. f_equal. f_equal. lia.
Qed.

Lemma step_if_cons ok pos c t caps :
  step_if ok (mk_state pos (c :: t) caps)
  = if ok c then [mk_state (S pos) t caps] else [].
Proof. reflexivity. Qed.

Lemma step_if_stops ok pos rest caps :
  stops ok rest -> step_if ok (mk_state pos rest caps) = [].
Proof.
  intros H. destruct rest as [|c t]; [reflexivity|].
  rewrite step_if_cons. simpl in H. rewrite H. reflexivity.
Qed.

Lemma first_star_run ok : forall w fuel pos rest caps,
    Forall (fun c => ok c = true) w -> stops ok rest ->
    length (w ++ rest) < fuel ->
    hd_error (star_iter (step_if ok) true fuel (mk_state pos (w ++ rest) caps))
    = Some (mk_state (pos + length w) rest caps).
Proof.
  induction w as [|c w IH]; intros fuel pos rest caps Hw Hstop Hfuel;
    (destruct fuel as [|f]; [lia|]).
  - cbn [star_iter app]. rewrite step_if_stops by exact Hstop.
    simpl. rewrite Nat.add_0_r. reflexivity.
  - inversion Hw as [|? ? Hc Hw']; subst.
    cbn [star_iter app]. rewrite step_if_cons, Hc.
    cbn [filter m_rest mk_state].
    assert (Hlt : (length (w ++ rest) <? length (c :: w ++ rest))%nat = true)
      by (apply Nat.ltb_lt; simpl; lia).
    rewrite Hlt. cbn [flat_map].
    apply hd_error_app_some, hd_error_app_some.
    rewrite IH; [|assumption|assumption|simpl in Hfuel; lia].
    f_equal. f_equal. simpl. lia.
Qed.

(** A greedy run of a class takes every character of the class. *)
Lemma first_plus_run items c w pos rest caps :
  Forall (fun c => set_match fl items c = true) (c :: w) ->
  stops (set_match fl items) rest ->
  hd_error (rmatch fl (plus (CSet items)) (mk_state pos ((c :: w) ++ rest) caps))
  = Some (mk_state (pos + length (c :: w)) rest caps).
Proof.
  intros Hw Hstop. inversion Hw as [|? ? Hc Hw']; subst.
  unfold plus. eapply first_seq.
  - change (rmatch fl (CSet items)) with (step_if (set_match fl items)).
    cbn [app]. rewrite step_if_cons, Hc. reflexivity.
  - change (rmatch fl (Star true (CSet items)) (mk_state (S pos) (w ++ rest) caps))
      with (star_iter (step_if (set_match fl items)) true
                      (S (length (w ++ rest))) (mk_state (S pos) (w ++ rest) caps)).
    rewrite first_star_run by (try assumption; lia).
    f_equal. f_equal. simpl. lia.
Qed.

Lemma first_group n a st st' :
  hd_error (rmatch fl a st) = Some st' ->
  hd_error (rmatch fl (Group n a) st)
  = Some (set_cap n (firstn (m_pos st' - m_pos st) (m_rest st)) st').
Proof.
  intros H. simpl. destruct (rmatch fl a st); [discriminate H|].
  injection H as ->. reflexivity.
Qed.

Lemma match_at_first r pos rest st' :
  hd_error (rmatch fl r (start_state pos rest)) = Some st' ->
  match_at fl r false pos rest = Some st'.
Proof.
  unfold match_at, start_state. intros H.
  destruct (rmatch fl r _) as [|x l]; [discriminate H|].
  injection H as ->. reflexivity.
Qed.
End GreedyPath.

Section BloodPressureReading.
Context {Py : Runtime}.
Local Open Scope N_scope.

Lemma isdecimal_not_colon_space c :
  isdecimal c = true -> set_match re_I [CChar (ch ":"); CSpace] c = false.
Proof.
  intros H. unfold set_match.
  change (IGNORECASE re_I && existsb item_cased [CChar (ch ":"); CSpace]) with false.
  cbn [existsb item_mem]. rewrite orb_false_r.
  apply orb_false_iff. split.
  - apply N.eqb_neq. intros ->. discriminate H.
  - unfold isspace. destruct (is_ascii c) eqn:E.
    + apply (isdecimal_ascii _ E) in H. unfold is_digit_char in H.
      unfold ascii_isspace. bool_to_prop.
      repeat (apply orb_false_iff; split);
        try (apply andb_false_iff; left; apply N.leb_gt; lia);
        try (apply andb_false_iff; right; apply N.leb_gt; lia);
        apply N.eqb_neq; lia.
    + unfold isdecimal, todecimal in H. rewrite E in H.
      destruct (u_todecimal c) eqn:Ed; [|discriminate H].
      exact (u_decimal_not_space _ Ed).
Qed.

(** The pattern of the blood pressure on a reading: the letters, a run
    of colons and spaces, digits, a slash, digits, and then no further
    digit. *)
Lemma bp_reading_match pos sep sys dia post :
  sep <> [] -> Forall (fun c => set_match re_I [CChar (ch ":"); CSpace] c = true) sep ->
  sys <> [] -> Forall (fun c => isdecimal c = true) sys ->
  dia <> [] -> Forall (fun c => isdecimal c = true) dia ->
  stops isdecimal post ->
  match_at re_I bp_pattern false pos
           (lit "BP" ++ sep ++ sys ++ [ch "/"] ++ dia ++ post)
  = Some (mk_state (pos + length (lit "BP" ++ sep ++ sys ++ [ch "/"] ++ dia))%nat post
                   [(1%nat, sys ++ [ch "/"] ++ dia)]).
Proof.
  intros Hsep Fsep Hsys Fsys Hdia Fdia Hpost.
  destruct sep as [|s0 sep]; [congruence|].
  destruct sys as [|d0 sys]; [congruence|].
  destruct dia as [|e0 dia]; [congruence|].
  assert (Fd : forall w, Forall (fun c => isdecimal c = true) w ->
                         Forall (fun c => set_match re_I [CDigit] c = true) w).
  { intros w Hw. eapply Forall_impl; [|exact Hw].
    intros c Hc. rewrite set_match_digit. exact Hc. }
  apply match_at_first. unfold bp_pattern, seqs, start_state. cbn [fold_right].
  eapply first_seq.
  { apply (first_lits re_I (s := lit "BP") (w := lit "BP")). repeat constructor. }
  eapply first_seq.
  { apply first_plus_run; [exact Fsep|].
    inversion Fsys; subst. cbn [app stops].
    apply isdecimal_not_colon_space. assumption. }
  eapply first_seq; [|reflexivity].
  erewrite first_group.
  2:{ eapply first_seq.
      { apply first_plus_run; [exact (Fd _ Fsys)|]. reflexivity. }
      eapply first_seq.
      { cbn [app]. apply first_lit. reflexivity. }
      eapply first_seq; [|reflexivity].
      apply first_plus_run; [exact (Fd _ Fdia)|].
      destruct post as [|c post]; [exact I|]. cbn [stops] in *.
      rewrite set_match_digit. exact Hpost. }
  unfold set_cap, mk_state. cbn [m_pos m_rest m_caps].
  f_equal. f_equal.
  - rewrite !length_app. simpl. lia.
  - f_equal. f_equal.
    match goal with
    | |- firstn ?n _ = _ =>
        replace n with (length ((d0 :: sys) ++ [ch "/"] ++ e0 :: dia))
          by (rewrite !length_app; cbn [length]; lia)
    end.
    replace ((d0 :: sys) ++ [ch "/"] ++ (e0 :: dia) ++ post)
      with (((d0 :: sys) ++ [ch "/"] ++ e0 :: dia) ++ post)
      by (rewrite <- !app_assoc; reflexivity).
    rewrite firstn_app, Nat.sub_diag, firstn_all. simpl. rewrite app_nil_r.
    reflexivity.
Qed.
End BloodPressureReading.

(* ----------------------------------------------------------------- *)
(** *** The blood-pressure flag *)

Section BloodPressureFlag.
Context {Py : Runtime}.
Variable self : MedicalReportSummarizer.

(** The blood pressure and the flags of a summary, from the first
    match of the pattern. *)
Lemma summarize_report_blood_pressure text s :
  summarize_report self text = Ok s ->
  match re_search re_I bp_pattern text with
  | None => dict_get blood_pressure_key (vital_signs s) = None /\
            critical_flags s = vocabulary_flags text
  | Some m =>
      dict_get blood_pressure_key (vital_signs s) = Some (group_text m 1) /\
      exists z, systolic (group_text m 1) z /\
                critical_flags s =
                if ((140 <? z) || (z <? 90))%Z
                then vocabulary_flags text ++ [abnormal_bp_flag]
                else vocabulary_flags text
  end.
Proof.
  unfold summarize_report.
  destruct (extract_patient_info_total self text) as (p & -> & _ & _).
  destruct (extract_chief_complaint_total self text) as (c & ->).
  destruct (extract_diagnoses_total self text) as (d & -> & _).
  destruct (extract_medications_total self text) as (m & -> & _).
  destruct (extract_vital_signs_total self text) as (v & -> & Hbp).
  cbn [bind].
  match goal with
  | |- context [identify_critical_flags self text ?x] => set (summary := x)
  end.
  destruct (re_search re_I bp_pattern text) as [hit|] eqn:E; simpl in Hbp.
  - destruct (bp_group_shape _ E) as (sys & dia & Hshape).
    pose proof (identify_critical_flags_shape self text summary Hbp Hshape) as H.
    destruct (int_exceeds (length sys)); [rewrite H; discriminate|].
    destruct H as (z & Hz & ->).
    cbn [bind]. intros [= <-]. cbn [vital_signs critical_flags set_critical_flags].
    split; [exact Hbp|]. exists z. split; [|reflexivity].
    exists sys. split; [exact (bp_shape_systolic Hshape) | exact Hz].
  - unfold identify_critical_flags. subst summary. cbn [vital_signs].
    rewrite Hbp. cbn [bind]. intros [= <-].
    cbn [vital_signs critical_flags set_critical_flags]. auto.
Qed.

(** The first match of the pattern in a text whose first reading is
    [BP<sep><sys>/<dia>]. *)
Lemma re_search_first_reading pre sep sys dia post :
  no_reading_before (pre ++ lit "BP" ++ sep ++ sys ++ [ch "/"] ++ dia ++ post)
                    (length pre) ->
  sep <> [] -> Forall (fun c => set_match re_I [CChar (ch ":"); CSpace] c = true) sep ->
  sys <> [] -> Forall (fun c => isdecimal c = true) sys ->
  dia <> [] -> Forall (fun c => isdecimal c = true) dia ->
  stops isdecimal post ->
  exists m, re_search re_I bp_pattern
                      (pre ++ lit "BP" ++ sep ++ sys ++ [ch "/"] ++ dia ++ post) = Some m /\
            group_text m 1 = sys ++ [ch "/"] ++ dia.
Proof.
  intros Hbefore Hsep Fsep Hsys Fsys Hdia Fdia Hpost.
  set (reading := lit "BP" ++ sep ++ sys ++ [ch "/"] ++ dia ++ post) in *.
  pose proof (@bp_reading_match Py (0 + length pre) sep sys dia post
                Hsep Fsep Hsys Fsys Hdia Fdia Hpost)
    as Hm. fold reading in Hm.
  assert (Hskip : skipn (length pre) (pre ++ reading) = reading).
  { rewrite skipn_app, Nat.sub_diag, skipn_all. reflexivity. }
  unfold re_search.
  rewrite (@search_from_first Py re_I bp_pattern (length pre) (pre ++ reading) false 0
             (mk_state (0 + length pre + length (lit "BP" ++ sep ++ sys ++ [ch "/"] ++ dia))
                       post [(1, sys ++ [ch "/"] ++ dia)])).
  - eexists. split; [reflexivity|]. reflexivity.
  - rewrite length_app. lia.
  - intros j Hj. simpl. specialize (Hbefore j Hj).
    destruct (j =? 0); exact Hbefore.
  - rewrite Hskip. destruct (length pre =? 0); exact Hm.
Qed.

Lemma flag_iff_systolic text s :
  summarize_report self text = Ok s ->
  (In abnormal_bp_flag (critical_flags s) <->
   exists v z, dict_get blood_pressure_key (vital_signs s) = Some v /\
               systolic v z /\ (140 < z \/ z < 90)%Z).
Proof.
  intros Hs. pose proof (summarize_report_blood_pressure _ Hs) as H.
  destruct (re_search re_I bp_pattern text) as [m|].
  - destruct H as (Hv & z & Hz & Hf). rewrite Hf, Hv. split.
    + intros Hin. exists (group_text m 1), z. repeat split; try assumption.
      destruct ((140 <? z)%Z) eqn:E1; [left; apply Z.ltb_lt; exact E1|].
      destruct ((z <? 90)%Z) eqn:E2; [right; apply Z.ltb_lt; exact E2|].
      exfalso. simpl in Hin. exact (abnormal_not_vocabulary _ Hin).
    + intros (v & z' & [= <-] & (part' & Hp' & Hz') & Hcond).
      destruct Hz as (part & Hp & Hz).
      assert (z' = z) by congruence. subst z'.
      assert (Hc : ((140 <? z) || (z <? 90))%Z = true).
      { apply orb_true_iff. destruct Hcond as [Hc|Hc];
          [left | right]; apply Z.ltb_lt; exact Hc. }
      rewrite Hc. apply in_or_app. right. left. reflexivity.
  - destruct H as (Hv & Hf). rewrite Hf, Hv. split.
    + intros Hin. exfalso. exact (abnormal_not_vocabulary _ Hin).
    + intros (v & z & Hd & _). discriminate Hd.
Qed.
End BloodPressureFlag.

(** C3, as the claim states it, fails: when an earlier reading precedes
    "BP: 150/95" in the text, the earlier one is stored and decides the
    flag. *)
Lemma first_reading_wins :
  ~ (forall (Py : Runtime) (self : MedicalReportSummarizer) (text : str)
            (s : MedicalSummary),
        contains (lit "BP: 150/95") text = true ->
        summarize_report self text = Ok s ->
        dict_get blood_pressure_key (vital_signs s) = Some (lit "150/95") /\
        In abnormal_bp_flag (critical_flags s)).
Proof.
  intros H.
  assert (E : exists s, summarize_report (Py := BasicRuntime) bare_summarizer
                                         (lit "BP: 120/80\nBP: 150/95") = Ok s /\
                        dict_get blood_pressure_key (vital_signs s) = Some (lit "120/80")).
  { eexists. split; [vm_compute; reflexivity | reflexivity]. }
  destruct E as (s & Hs & Hbp).
  destruct (H BasicRuntime bare_summarizer (lit "BP: 120/80\nBP: 150/95") s eq_refl Hs)
    as [H1 _].
  rewrite Hbp in H1. discriminate H1.
Qed.

(** C3, amended: if the first blood-pressure reading of the text (the
    leftmost match of the pattern) is "BP: 150/95" and no digit follows
    it, the summary maps "Blood Pressure" to "150/95" and its flags
    contain the abnormal-blood-pressure flag; if it is "BP: 120/80", the
    summary maps "Blood Pressure" to "120/80" and the flag is absent.
    In general the flag is emitted exactly when a blood pressure was
    extracted and its systolic component is greater than 140 or less
    than 90. *)
Theorem blood_pressure_threshold (Py : Runtime) (self : MedicalReportSummarizer) :
  (forall pre post s,
      no_reading_before (pre ++ lit "BP: 150/95" ++ post) (length pre) ->
      stops isdecimal post ->
      summarize_report self (pre ++ lit "BP: 150/95" ++ post) = Ok s ->
      dict_get blood_pressure_key (vital_signs s) = Some (lit "150/95") /\
      In abnormal_bp_flag (critical_flags s)) /\
  (forall pre post s,
      no_reading_before (pre ++ lit "BP: 120/80" ++ post) (length pre) ->
      stops isdecimal post ->
      summarize_report self (pre ++ lit "BP: 120/80" ++ post) = Ok s ->
      dict_get blood_pressure_key (vital_signs s) = Some (lit "120/80") /\
      ~ In abnormal_bp_flag (critical_flags s)) /\
  (forall text s,
      summarize_report self text = Ok s ->
      (In abnormal_bp_flag (critical_flags s) <->
       exists v z, dict_get blood_pressure_key (vital_signs s) = Some v /\
                   systolic v z /\ (140 < z \/ z < 90)%Z)).
Proof.
  split; [|split].
  - intros pre post s Hbefore Hpost Hs.
    destruct (@re_search_first_reading Py pre (lit ": ") (lit "150") (lit "95") post
                Hbefore ltac:(discriminate) ltac:(repeat constructor)
                ltac:(discriminate) ltac:(repeat constructor)
                ltac:(discriminate) ltac:(repeat constructor) Hpost)
      as (m & Hm & Hg).
    pose proof (summarize_report_blood_pressure self _ Hs) as H.
    change (pre ++ lit "BP: 150/95" ++ post)
      with (pre ++ lit "BP" ++ lit ": " ++ lit "150" ++ [ch "/"] ++ lit "95" ++ post) in H.
    rewrite Hm, Hg in H. destruct H as (Hv & z & (part & Hp & Hz) & Hf).
    split; [rewrite Hv; reflexivity|].
    vm_compute in Hp. injection Hp as <-.
    vm_compute in Hz. injection Hz as <-. rewrite Hf.
    apply in_or_app. right. left. reflexivity.
  - intros pre post s Hbefore Hpost Hs.
    destruct (@re_search_first_reading Py pre (lit ": ") (lit "120") (lit "80") post
                Hbefore ltac:(discriminate) ltac:(repeat constructor)
                ltac:(discriminate) ltac:(repeat constructor)
                ltac:(discriminate) ltac:(repeat constructor) Hpost)
      as (m & Hm & Hg).
    pose proof (summarize_report_blood_pressure self _ Hs) as H.
    change (pre ++ lit "BP: 120/80" ++ post)
      with (pre ++ lit "BP" ++ lit ": " ++ lit "120" ++ [ch "/"] ++ lit "80" ++ post) in H.
    rewrite Hm, Hg in H. destruct H as (Hv & z & (part & Hp & Hz) & Hf).
    split; [rewrite Hv; reflexivity|].
    vm_compute in Hp. injection Hp as <-.
    vm_compute in Hz. injection Hz as <-. rewrite Hf.
    apply abnormal_not_vocabulary.
  - intros text s Hs. exact (flag_iff_systolic self _ Hs).
Qed.

Lemma blood_pressure_threshold_witness :
  exists s,
    summarize_report (Py := BasicRuntime) bare_summarizer
                     (lit "Patient: Bob\n" ++ lit "BP: 150/95" ++ lit "\nHR: 110") = Ok s /\
    dict_get blood_pressure_key (vital_signs s) = Some (lit "150/95") /\
    In abnormal_bp_flag (critical_flags s).
Proof.
  pose proof (summarize_report_returns BasicRuntime bare_summarizer
                (lit "Patient: Bob\n" ++ lit "BP: 150/95" ++ lit "\nHR: 110")) as Hr.
  replace (int_exceeds _) with false in Hr by reflexivity.
  destruct Hr as (s & Hs & _).
  exists s. split; [exact Hs|].
  destruct (blood_pressure_threshold BasicRuntime bare_summarizer) as (H & _ & _).
  apply (H (lit "Patient: Bob\n") (lit "\nHR: 110") s).
  - intros j Hj. do 13 (destruct j as [|j]; [reflexivity|]). simpl in Hj. lia.
  - reflexivity.
  - exact Hs.
Defined.

(* ----------------------------------------------------------------- *)
(** *** Two runs of the pipeline *)

Section Limits.
Variable Py : Runtime.
Variables n m : nat.
Variables self1 self2 : MedicalReportSummarizer.









End Limits.







(* ================================================================= *)
(** ** Facts for the further properties *)

(* ----------------------------------------------------------------- *)
(** *** [strip] *)

Section StripFacts.
Context {Py : Runtime}.

Lemma lstrip_stops s : stops isspace (lstrip s).
Proof.
  induction s as [|c t IH]; simpl; [exact I|].
  destruct (isspace c) eqn:E; [exact IH | simpl; exact E].
Qed.

Lemma lstrip_split s :
  exists a, s = a ++ lstrip s /\ Forall (fun c => isspace c = true) a.
Proof.
  induction s as [|c t (a & E & F)]; simpl.
  - exists []. split; [reflexivity | constructor].
  - destruct (isspace c) eqn:Ec.
    + exists (c :: a). split; [simpl; congruence | constructor; assumption].
    + exists []. split; [reflexivity | constructor].
Qed.

Lemma rstrip_split s :
  exists b, s = rstrip s ++ b /\ Forall (fun c => isspace c = true) b.
Proof.
  unfold rstrip. destruct (lstrip_split (rev s)) as (a & E & F).
  exists (rev a). split.
  - rewrite <- rev_app_distr, <- E, rev_involutive. reflexivity.
  - apply Forall_rev. exact F.
Qed.

Lemma rstrip_stops s : stops isspace (rev (rstrip s)).
Proof. unfold rstrip. rewrite rev_involutive. apply lstrip_stops. Qed.

Lemma rstrip_keeps_head s : stops isspace s -> stops isspace (rstrip s).
Proof.
  intros H. destruct (rstrip_split s) as (b & E & _).
  destruct (rstrip s) as [|c t]; [exact I|].
  rewrite E in H. exact H.
Qed.

Lemma strip_trimmed s : trimmed (strip s).
Proof.
  split.
  - apply rstrip_keeps_head, lstrip_stops.
  - apply rstrip_stops.
Qed.

(** [strip] removes whitespace only, from the two ends. *)
Lemma strip_split s :
  exists a b, s = a ++ strip s ++ b /\
              Forall (fun c => isspace c = true) a /\
              Forall (fun c => isspace c = true) b.
Proof.
  destruct (lstrip_split s) as (a & Ea & Fa).
  destruct (rstrip_split (lstrip s)) as (b & Eb & Fb).
  exists a, b. split; [|split; assumption].
  unfold strip. rewrite <- Eb. exact Ea.
Qed.
End StripFacts.

(* ----------------------------------------------------------------- *)
(** *** The vital signs *)

Section VitalSigns.
Context {Py : Runtime}.
Variable self : MedicalReportSummarizer.

Lemma extract_vital_signs_table text :
  exists d, extract_vital_signs self text = Ok d /\
            in_order (map fst d) vital_keys /\
            Forall (fun row =>
                      dict_get (snd (fst row)) d =
                      option_map (fun m => group_text m 1 ++ snd row)
                                 (re_search re_I (fst (fst row)) text))
                   vital_table.
Proof.
  unfold extract_vital_signs.
  repeat (rewrite extract_vital_total by reflexivity; cbn [bind]).
  eexists. split; [reflexivity|].
  split.
  - destruct (re_search re_I bp_pattern text);
      destruct (re_search re_I hr_pattern text);
      destruct (re_search re_I temp_pattern text);
      destruct (re_search re_I rr_pattern text);
      destruct (re_search re_I o2_pattern text);
      simpl; repeat constructor.
  - unfold vital_table.
    repeat (apply Forall_cons; [cbn [fst snd]|]); [..|apply Forall_nil];
      destruct (re_search re_I bp_pattern text);
      destruct (re_search re_I hr_pattern text);
      destruct (re_search re_I temp_pattern text);
      destruct (re_search re_I rr_pattern text);
      destruct (re_search re_I o2_pattern text);
      reflexivity.
Qed.

Lemma matches_decimal_number fl w :
  matches fl decimal_number w -> decimal_shape w.
Proof.
  intros M.
  apply matches_seq_inv in M. destruct M as (whole & w2 & -> & M1 & M).
  apply matches_seq_inv in M. destruct M as (point & w3 & -> & M2 & M).
  apply matches_seq_inv in M. destruct M as (fraction & w4 & -> & M3 & M).
  apply matches_eps_inv in M. subst w4. rewrite app_nil_r.
  exists whole, point, fraction. split; [reflexivity|].
  split; [apply matches_digits in M1; exact M1|]. split.
  - apply matches_alt_inv in M2. destruct M2 as [M2|M2].
    + right. apply matches_lit_inv in M2. destruct M2 as (c & -> & Hc).
      assert (E : lit_match fl (ch ".") c = (c =? 46)%N).
      { unfold lit_match. destruct (IGNORECASE fl); reflexivity. }
      rewrite E in Hc. apply N.eqb_eq in Hc. subst c. reflexivity.
    + left. apply matches_eps_inv in M2. exact M2.
  - apply matches_star_cset in M3.
    eapply Forall_impl; [|exact M3]. intros c Hc. cbv beta in Hc.
    rewrite set_match_digit in Hc. exact Hc.
Qed.
End VitalSigns.

Ltac first_group_of Hs v M :=
  apply re_search_hit in Hs;
  let Hv := fresh "Hv" in
  let Hb := fresh "Hb" in
  let b := fresh "b" in
  destruct (hit_group_mandatory 1 Hs eq_refl) as (v & Hv);
  unfold group_text; rewrite Hv;
  destruct (hit_group_matches 1 Hs Hv) as (b & Hb & M);
  split_group_in Hb; subst b.

Section Readings.
Context {Py : Runtime}.
Variable self : MedicalReportSummarizer.

Lemma hr_group text m :
  re_search re_I hr_pattern text = Some m -> decimal_digits (group_text m 1).
Proof. intros Hs. first_group_of Hs v M. apply matches_digits in M. exact M. Qed.

Lemma rr_group text m :
  re_search re_I rr_pattern text = Some m -> decimal_digits (group_text m 1).
Proof. intros Hs. first_group_of Hs v M. apply matches_digits in M. exact M. Qed.

Lemma age_group text m :
  re_search re_I age_pattern text = Some m -> decimal_digits (group_text m 1).
Proof. intros Hs. first_group_of Hs v M. apply matches_digits in M. exact M. Qed.

Lemma temp_group text m :
  re_search re_I temp_pattern text = Some m -> decimal_shape (group_text m 1).
Proof. intros Hs. first_group_of Hs v M. apply matches_decimal_number in M. exact M. Qed.

Lemma o2_group text m :
  re_search re_I o2_pattern text = Some m ->
  exists n, decimal_digits n /\ group_text m 1 = n ++ lit "%".
Proof.
  intros Hs. first_group_of Hs v M.
  apply matches_seq_inv in M. destruct M as (n & w2 & -> & M1 & M).
  apply matches_seq_inv in M. destruct M as (p & w3 & -> & M2 & M).
  apply matches_eps_inv in M. subst w3. rewrite app_nil_r.
  apply matches_lit_inv in M2. destruct M2 as (c & -> & Hc).
  change (lit_match re_I (ch "%") c) with (c =? 37)%N in Hc.
  apply N.eqb_eq in Hc. subst c.
  apply matches_digits in M1. exists n. split; [exact M1 | reflexivity].
Qed.

Lemma vital_sign_values_aux text d :
  extract_vital_signs self text = Ok d ->
  (forall v, dict_get blood_pressure_key d = Some v -> exists sys dia, bp_shape v sys dia) /\
  (forall v, dict_get (lit "Heart Rate") d = Some v ->
             exists n, decimal_digits n /\ v = n ++ lit " bpm") /\
  (forall v, dict_get (lit "Temperature") d = Some v ->
             exists n, decimal_shape n /\ v = n ++ [194; 176; 70]%N) /\
  (forall v, dict_get (lit "Respiratory Rate") d = Some v ->
             exists n, decimal_digits n /\ v = n ++ lit " /min") /\
  (forall v, dict_get (lit "Oxygen Saturation") d = Some v ->
             exists n, decimal_digits n /\ v = n ++ lit "%").
Proof.
  intros Hd. destruct (extract_vital_signs_table self text) as (d' & Hd' & _ & T).
  rewrite Hd in Hd'. injection Hd' as <-.
  assert (L : forall row, In row vital_table ->
                          dict_get (snd (fst row)) d =
                          option_map (fun m => group_text m 1 ++ snd row)
                                     (re_search re_I (fst (fst row)) text))
    by (apply Forall_forall; exact T).
  pose proof (L (bp_pattern, blood_pressure_key, []) ltac:(simpl; tauto)) as T1.
  pose proof (L (hr_pattern, lit "Heart Rate", lit " bpm") ltac:(simpl; tauto)) as T2.
  pose proof (L (temp_pattern, lit "Temperature", [194; 176; 70]%N)
                ltac:(simpl; tauto)) as T3.
  pose proof (L (rr_pattern, lit "Respiratory Rate", lit " /min")
                ltac:(simpl; tauto)) as T4.
  pose proof (L (o2_pattern, lit "Oxygen Saturation", []) ltac:(simpl; tauto)) as T5.
  cbn [fst snd] in T1, T2, T3, T4, T5. clear L T.
  repeat split; intros v Hv.
  - rewrite T1 in Hv. destruct (re_search re_I bp_pattern text) as [m|] eqn:Hs;
      [|discriminate]. injection Hv as <-. rewrite app_nil_r.
    eapply bp_group_shape. exact Hs.
  - rewrite T2 in Hv. destruct (re_search re_I hr_pattern text) as [m|] eqn:Hs;
      [|discriminate]. injection Hv as <-.
    exists (group_text m 1). split; [eapply hr_group; exact Hs | reflexivity].
  - rewrite T3 in Hv. destruct (re_search re_I temp_pattern text) as [m|] eqn:Hs;
      [|discriminate]. injection Hv as <-.
    exists (group_text m 1). split; [eapply temp_group; exact Hs | reflexivity].
  - rewrite T4 in Hv. destruct (re_search re_I rr_pattern text) as [m|] eqn:Hs;
      [|discriminate]. injection Hv as <-.
    exists (group_text m 1). split; [eapply rr_group; exact Hs | reflexivity].
  - rewrite T5 in Hv. destruct (re_search re_I o2_pattern text) as [m|] eqn:Hs;
      [|discriminate]. injection Hv as <-. rewrite app_nil_r.
    eapply o2_group. exact Hs.
Qed.
End Readings.

Lemma char_range_In c : forall n lo,
    (lo <= c)%N -> (c < lo + N.of_nat n)%N -> In c (char_range lo n).
Proof.
  induction n as [|n IH]; intros lo H1 H2; [lia|].
  simpl. destruct (N.eq_dec lo c) as [E|E]; [left; exact E|].
  right. apply IH; lia.
Qed.

Lemma ascii_cases (P : char -> bool) :
  forallb P (char_range 0%N 128) = true ->
  forall c, is_ascii c = true -> P c = true.
Proof.
  intros H c Hc. rewrite forallb_forall in H. apply H.
  unfold is_ascii in Hc. apply N.ltb_lt in Hc.
  apply char_range_In; simpl; lia.
Qed.

(* ----------------------------------------------------------------- *)
(** *** The patient record *)

Section PatientFields.
Context {Py : Runtime}.
Variable self : MedicalReportSummarizer.

Lemma name_chars_ascii c :
  is_ascii c = true ->
  set_match re_I [CRange (ch "A") (ch "Z"); CRange (ch "a") (ch "z");
                  CSpace; CChar (ch ",")] c = true ->
  name_char c = true.
Proof.
  intros Hc.
  assert (T : forallb (fun c => implb (set_match re_I [CRange (ch "A") (ch "Z");
                                                       CRange (ch "a") (ch "z");
                                                       CSpace; CChar (ch ",")] c)
                                      (name_char c)) (char_range 0%N 128) = true)
    by (vm_compute; reflexivity).
  apply (ascii_cases _ T c) in Hc.
  intros H. rewrite H in Hc. exact Hc.
Qed.

Lemma mrn_chars_ascii c :
  is_ascii c = true ->
  set_match re_I [CRange (ch "A") (ch "Z"); CRange (ch "0") (ch "9")] c = true ->
  letter_or_digit c = true.
Proof.
  intros Hc.
  assert (T : forallb (fun c => implb (set_match re_I [CRange (ch "A") (ch "Z");
                                                       CRange (ch "0") (ch "9")] c)
                                      (letter_or_digit c)) (char_range 0%N 128) = true)
    by (vm_compute; reflexivity).
  apply (ascii_cases _ T c) in Hc.
  intros H. rewrite H in Hc. exact Hc.
Qed.

Lemma name_group pattern text m :
  In pattern name_patterns ->
  re_search re_I pattern text = Some m ->
  Forall (fun c => is_ascii c = true -> name_char c = true) (group_text m 1).
Proof.
  intros Hp Hs.
  assert (M : exists v, group m 1 = Some v /\ matches re_I (plus_lazy name_chars) v).
  { destruct Hp as [<-|[<-|[]]].
    - first_group_of Hs v M. exists v. split; [reflexivity | exact M].
    - first_group_of Hs v M. exists v. split; [reflexivity | exact M]. }
  destruct M as (v & Hv & M). unfold group_text. rewrite Hv.
  apply matches_seq_inv in M. destruct M as (w1 & w2 & -> & M1 & M2).
  apply matches_cset_inv in M1. destruct M1 as (c & -> & Hc).
  apply matches_star_cset in M2.
  assert (F : Forall (fun c => set_match re_I
                       [CRange (ch "A") (ch "Z"); CRange (ch "a") (ch "z");
                        CSpace; CChar (ch ",")] c = true) ([c] ++ w2)).
  { constructor; assumption. }
  eapply Forall_impl; [|exact F]. intros x Hx Hax. cbv beta in Hx.
  apply name_chars_ascii; assumption.
Qed.

Lemma mrn_group text m :
  re_search re_I mrn_pattern text = Some m ->
  group_text m 1 <> [] /\
  Forall (fun c => is_ascii c = true -> letter_or_digit c = true) (group_text m 1).
Proof.
  intros Hs. first_group_of Hs v M.
  apply matches_plus_cset in M. destruct M as [Hn F]. split; [exact Hn|].
  eapply Forall_impl; [|exact F]. intros x Hx Hax. cbv beta in Hx.
  apply mrn_chars_ascii; assumption.
Qed.

Lemma strip_Forall (P : char -> Prop) s : Forall P s -> Forall P (strip s).
Proof.
  intros F. destruct (strip_split s) as (a & b & E & _ & _).
  rewrite E in F. apply Forall_app in F. destruct F as [_ F].
  apply Forall_app in F. tauto.
Qed.

Lemma extract_patient_info_fields text :
  exists p, extract_patient_info self text = Ok p /\
            trimmed (name p) /\
            Forall (fun c => is_ascii c = true -> name_char c = true) (name p) /\
            (age p = [] \/ decimal_digits (age p)) /\
            Forall (fun c => is_ascii c = true -> letter_or_digit c = true) (mrn p).
Proof.
  unfold extract_patient_info.
  assert (N : exists p1, extract_name name_patterns text new_patient = Ok p1 /\
                         trimmed (name p1) /\
                         Forall (fun c => is_ascii c = true -> name_char c = true) (name p1) /\
                         age p1 = [] /\ mrn p1 = []).
  { unfold name_patterns. cbn [extract_name].
    destruct (re_search re_I (name_pattern "Patient") text) as [m|] eqn:E1.
    - rewrite (need_group AttributeError _ _ _ E1 eq_refl). cbn [bind].
      eexists. split; [reflexivity|]. cbn [name with_name]. repeat split.
      + apply rstrip_keeps_head, lstrip_stops.
      + apply rstrip_stops.
      + apply strip_Forall. eapply name_group; [|exact E1]. simpl; tauto.
    - destruct (re_search re_I (name_pattern "Name") text) as [m|] eqn:E2.
      + rewrite (need_group AttributeError _ _ _ E2 eq_refl). cbn [bind].
        eexists. split; [reflexivity|]. cbn [name with_name]. repeat split.
        * apply rstrip_keeps_head, lstrip_stops.
        * apply rstrip_stops.
        * apply strip_Forall. eapply name_group; [|exact E2]. simpl; tauto.
      + eexists. split; [reflexivity|]. repeat split; constructor. }
  destruct N as (p1 & -> & Ht & Hn & Ha & Hm). cbn [bind].
  repeat (rewrite extract_field_total by reflexivity; cbn [bind]).
  eexists. split; [reflexivity|].
  destruct (re_search re_I age_pattern text) as [ma|] eqn:Ea;
    destruct (re_search re_I gender_pattern text) as [mg|] eqn:Eg;
    destruct (re_search re_I mrn_pattern text) as [mm|] eqn:Em;
    cbn [name age mrn with_age with_gender with_mrn];
    (split; [exact Ht|]); (split; [exact Hn|]); split;
    try (right; eapply age_group; exact Ea);
    try (eapply mrn_group; exact Em);
    try (left; exact Ha);
    try (rewrite Hm; constructor).
Qed.
End PatientFields.

Lemma in_order_selected {A B : Type} (flag : A -> B) (selected : A -> bool) (terms : list A) :
  in_order (map flag (filter selected terms)) (map flag terms).
Proof.
  induction terms as [|t ts IH]; simpl; [constructor|].
  destruct (selected t); simpl; constructor; exact IH.
Qed.

Lemma in_order_with_last {A : Type} (some all : list A) (last : A) :
  in_order some all ->
  in_order (some ++ [last]) (all ++ [last]) /\ in_order some (all ++ [last]).
Proof.
  induction 1 as [all|a some all H [IH1 IH2]|a some all H [IH1 IH2]]; simpl.
  - split; [|constructor].
    induction all as [|b all IH]; simpl; repeat constructor. exact IH.
  - split; constructor; assumption.
  - split; constructor; assumption.
Qed.

Lemma in_order_length {A : Type} (some all : list A) :
  in_order some all -> length some <= length all.
Proof. induction 1; simpl; lia. Qed.

(* ----------------------------------------------------------------- *)
(** *** The order of the flags *)

Section FlagOrder.
Context {Py : Runtime}.
Variable self : MedicalReportSummarizer.

Lemma identify_critical_flags_in_order text summary flags :
  identify_critical_flags self text summary = Ok flags ->
  in_order flags (map term_flag critical_terms ++ [abnormal_bp_flag]).
Proof.
  intros H. apply identify_critical_flags_cases in H.
  pose proof (in_order_with_last abnormal_bp_flag
                (in_order_selected term_flag
                   (fun term => contains term (lower text)) critical_terms)) as [H1 H2].
  rewrite <- vocabulary_flags_filter in H1, H2.
  destruct H as [->| ->]; assumption.
Qed.
End FlagOrder.

Lemma Ok_inj {A : Type} (a b : A) : Ok a = Ok b -> a = b.
Proof. intros H. injection H as H. exact H. Qed.

(* ----------------------------------------------------------------- *)
(** *** The diagnoses *)

Section Diagnoses.
Context {Py : Runtime}.
Variable self : MedicalReportSummarizer.

Lemma clean_item_some item d :
  clean_item item = Ok (Some d) -> trimmed d /\ 3 < length d.
Proof.
  unfold clean_item.
  destruct (_ || _); [discriminate|].
  destruct (_ && _); [discriminate|].
  destruct (need IndexError _) as [part|e]; cbn [bind]; [|discriminate].
  destruct (negb _ && (3 <? length (strip part))) eqn:E; [|discriminate].
  intros H. injection H as <-.
  apply andb_true_iff in E. destruct E as [_ E]. apply Nat.ltb_lt in E.
  split; [apply strip_trimmed | exact E].
Qed.

Lemma mapM_keep {A B : Type} (f : A -> result (option B)) (P : B -> Prop) :
  (forall a b, f a = Ok (Some b) -> P b) ->
  forall l bs, mapM f l = Ok bs -> Forall P (keep bs).
Proof.
  intros Hf. induction l as [|a l IH]; intros bs H; simpl in H.
  - injection H as <-. constructor.
  - destruct (f a) as [o|e] eqn:Ea; cbn [bind] in H; [|discriminate].
    destruct (mapM f l) as [os|e]; cbn [bind] in H; [|discriminate].
    injection H as <-. destruct o as [b|]; simpl; [constructor|]; eauto.
Qed.

Lemma clean_diagnosis_text_entries text l :
  clean_diagnosis_text self text = Ok l ->
  Forall (fun d => trimmed d /\ 3 < length d) l.
Proof.
  unfold clean_diagnosis_text. intros H.
  destruct (mapM clean_item _) as [os|e] eqn:E; cbn [bind] in H; [|discriminate].
  injection H as <-. eapply mapM_keep; [|exact E]. apply clean_item_some.
Qed.

Lemma firstn_Forall {A : Type} (P : A -> Prop) n (l : list A) :
  Forall P l -> Forall P (firstn n l).
Proof.
  intros F. rewrite <- (firstn_skipn n l) in F. apply Forall_app in F. tauto.
Qed.

Lemma extract_diagnoses_entries text l :
  extract_diagnoses self text = Ok l ->
  Forall (fun d => trimmed d /\ 3 < length d) l.
Proof.
  unfold extract_diagnoses. intros H.
  destruct (first_section diagnosis_patterns text) as [[g|]|e]; cbn [bind] in H;
    try discriminate.
  - destruct (clean_diagnosis_text self (strip g)) as [ds|e] eqn:E; cbn [bind] in H;
      [|discriminate].
    apply Ok_inj in H. subst l.
    apply firstn_Forall. eapply clean_diagnosis_text_entries, E.
  - apply Ok_inj in H. subst l. constructor.
Qed.
End Diagnoses.

(* ----------------------------------------------------------------- *)
(** *** The medications *)

Section Medications.
Context {Py : Runtime}.
Variable self : MedicalReportSummarizer.

Lemma matches_star_inv fl g a w :
  matches fl (Star g a) w -> exists ws, w = concat ws /\ Forall (matches fl a) ws.
Proof.
  intros H. remember (Star g a) as r eqn:E.
  induction H; try discriminate E.
  - exists []. split; [reflexivity | constructor].
  - injection E as -> ->. destruct (IHmatches2 eq_refl) as (ws & -> & F).
    exists (w1 :: ws). split; [reflexivity | constructor; assumption].
Qed.

Lemma alpha_letter c : set_match no_flags [CRange (ch "A") (ch "Z"); CRange (ch "a") (ch "z")] c
                       = ascii_isalpha c.
Proof.
  unfold set_match, ascii_isalpha, ascii_isupper, ascii_islower. simpl.
  rewrite orb_false_r. reflexivity.
Qed.

Lemma letter_not_space c : ascii_isalpha c = true -> isspace c = false.
Proof.
  unfold ascii_isalpha, ascii_isupper, ascii_islower, isspace, is_ascii, ascii_isspace.
  intros H.
  assert (R : (65 <= c <= 122)%N).
  { apply orb_true_iff in H. destruct H as [H|H]; bool_to_prop; lia. }
  assert (A : (c <? 128)%N = true) by (apply N.ltb_lt; lia).
  assert (B : (c <=? 13)%N = false) by (apply N.leb_gt; lia).
  assert (C : (c <=? 31)%N = false) by (apply N.leb_gt; lia).
  assert (D : (c =? 32)%N = false) by (apply N.eqb_neq; lia).
  rewrite A, B, C, D, !andb_false_r. reflexivity.
Qed.

Lemma letters_end w :
  w <> [] -> Forall (fun c => ascii_isalpha c = true) w -> ends_with_letter w.
Proof.
  intros Hn F. destruct (exists_last Hn) as (u & c & ->).
  exists u, c. split; [reflexivity|].
  apply Forall_app in F. destruct F as [_ F]. inversion F; assumption.
Qed.

Lemma ends_with_letter_app a b : ends_with_letter b -> ends_with_letter (a ++ b).
Proof. intros (u & c & -> & H). exists (a ++ u), c. rewrite app_assoc. auto. Qed.

Lemma ends_with_letter_concat ws :
  Forall ends_with_letter ws -> concat ws = [] \/ ends_with_letter (concat ws).
Proof.
  induction 1 as [|w ws H F IH]; simpl; [left; reflexivity|].
  right. destruct IH as [->|IH].
  - rewrite app_nil_r. exact H.
  - apply ends_with_letter_app, IH.
Qed.

Lemma dosage_name_shape v :
  matches no_flags (seqs [plus alpha; star (seqs [plus space; plus alpha])]) v ->
  v <> [] /\ trimmed v /\ Forall (fun c => ascii_isalpha c || isspace c = true) v.
Proof.
  intros M.
  apply matches_seq_inv in M. destruct M as (w1 & w2 & -> & M1 & M).
  apply matches_seq_inv in M. destruct M as (w3 & w4 & -> & M2 & M).
  apply matches_eps_inv in M. subst w4. rewrite app_nil_r.
  apply matches_plus_cset in M1. destruct M1 as [N1 F1].
  assert (L1 : Forall (fun c => ascii_isalpha c = true) w1).
  { eapply Forall_impl; [|exact F1]. intros c Hc. cbv beta in Hc.
    rewrite alpha_letter in Hc. exact Hc. }
  apply matches_star_inv in M2. destruct M2 as (ws & -> & Fw).
  assert (B : Forall (fun w => ends_with_letter w /\
                               Forall (fun c => ascii_isalpha c || isspace c = true) w) ws).
  { eapply Forall_impl; [|exact Fw]. intros w Mw.
    apply matches_seq_inv in Mw. destruct Mw as (sp & x & -> & Ms & Mw).
    apply matches_seq_inv in Mw. destruct Mw as (al & y & -> & Ma & Mw).
    apply matches_eps_inv in Mw. subst y. rewrite app_nil_r.
    apply matches_plus_cset in Ms, Ma. destruct Ms as [_ Fs], Ma as [Na Fa].
    assert (La : Forall (fun c => ascii_isalpha c = true) al).
    { eapply Forall_impl; [|exact Fa]. intros c Hc. cbv beta in Hc.
      rewrite alpha_letter in Hc. exact Hc. }
    split.
    - apply ends_with_letter_app, letters_end; assumption.
    - apply Forall_app. split.
      + eapply Forall_impl; [|exact Fs]. intros c Hc. cbv beta in Hc.
        unfold set_match in Hc. simpl in Hc. rewrite orb_false_r in Hc.
        rewrite Hc. apply orb_true_r.
      + eapply Forall_impl; [|exact La]. intros c Hc. cbv beta in Hc.
        rewrite Hc. reflexivity. }
  assert (E : ends_with_letter (w1 ++ concat ws)).
  { destruct (ends_with_letter_concat (ws := ws)) as [->|E].
    - eapply Forall_impl; [|exact B]. intros w Hw. destruct Hw; assumption.
    - rewrite app_nil_r. apply letters_end; assumption.
    - apply ends_with_letter_app, E. }
  split; [|split; [split|]].
  - destruct w1; [contradiction | discriminate].
  - destruct w1 as [|c w1]; [contradiction|]. simpl.
    apply letter_not_space. inversion L1; assumption.
  - destruct E as (u & c & -> & Hc). rewrite rev_app_distr. simpl.
    apply letter_not_space, Hc.
  - apply Forall_app. split.
    + eapply Forall_impl; [|exact L1]. intros c Hc. cbv beta in Hc.
      rewrite Hc. reflexivity.
    + apply Forall_concat. eapply Forall_impl; [|exact B]. intros w Hw. destruct Hw; assumption.
Qed.
Lemma dosage_names_shape section name :
  In name (re_findall1 no_flags dosage_pattern section) ->
  name <> [] /\ trimmed name /\
  Forall (fun c => ascii_isalpha c || isspace c = true) name.
Proof.
  unfold re_findall1. intros H. apply in_map_iff in H. destruct H as (m & <- & Hm).
  apply re_finditer_hit in Hm.
  destruct (hit_group_mandatory 1 Hm eq_refl) as (v & Hv). rewrite Hv.
  destruct (hit_group_matches 1 Hm Hv) as (b & Hb & M).
  split_group_in Hb. subst b. apply dosage_name_shape, M.
Qed.

Lemma medication_lines_shape section line :
  In line (medication_lines section) -> line <> [] /\ trimmed line.
Proof.
  unfold medication_lines. intros H. apply filter_In in H. destruct H as [H1 H2].
  apply in_map_iff in H1. destruct H1 as (raw & <- & _).
  split; [|apply strip_trimmed].
  destruct (strip raw); [discriminate H2 | discriminate].
Qed.

Lemma extract_medications_entries text meds :
  extract_medications self text = Ok meds ->
  Forall (fun m => m <> [] /\ trimmed m) meds.
Proof.
  unfold extract_medications. intros H.
  destruct (first_medication_section medication_patterns text) as [[section|]|e];
    cbn [bind] in H; try discriminate; apply Ok_inj in H; subst meds.
  - apply firstn_Forall, Forall_app. split; apply Forall_forall; intros m Hm.
    + apply dosage_names_shape in Hm. tauto.
    + apply medication_lines_shape in Hm. exact Hm.
  - constructor.
Qed.
End Medications.

(* ----------------------------------------------------------------- *)
(** *** The laboratory results *)

Section LabResults.
Context {Py : Runtime}.
Variable self : MedicalReportSummarizer.

Lemma lit_match_ascii p c :
  is_ascii p = true -> is_ascii c = true -> lit_match re_I p c = true ->
  ascii_tolower c = ascii_tolower p.
Proof.
  intros Hp Hc H.
  assert (T : forallb (fun p => forallb (fun c =>
                 implb (lit_match re_I p c) (ascii_tolower c =? ascii_tolower p)%N)
                 (char_range 0%N 128)) (char_range 0%N 128) = true)
    by (vm_compute; reflexivity).
  pose proof (ascii_cases _ T p Hp) as T1. cbv beta in T1.
  pose proof (ascii_cases _ T1 c Hc) as T2. cbv beta in T2.
  rewrite H in T2. apply N.eqb_eq. exact T2.
Qed.

Lemma spells_ascii word name :
  spells word name -> forallb is_ascii word = true -> forallb is_ascii name = true ->
  map ascii_tolower name = map ascii_tolower word.
Proof.
  induction 1 as [|p c word name H F IH]; simpl; intros Hw Hn; [reflexivity|].
  apply andb_true_iff in Hw, Hn. destruct Hw, Hn.
  f_equal; [apply lit_match_ascii; assumption | apply IH; assumption].
Qed.

Lemma digits_decimal_shape w : decimal_digits w -> decimal_shape w.
Proof.
  intros H. exists w, [], []. rewrite !app_nil_r.
  split; [reflexivity|]. split; [exact H|]. split; [left; reflexivity | constructor].
Qed.

Lemma lab_hit_shape pattern m :
  In pattern lab_patterns -> is_hit re_I pattern m ->
  exists word name value,
    format_lab m = name ++ lit ": " ++ value /\
    In word analytes /\ spells word name /\ decimal_shape value.
Proof.
  intros Hp Hm.
  assert (G : exists name value b1 b2,
             group m 1 = Some name /\ group m 2 = Some value /\
             group_in 1 b1 pattern /\ matches re_I b1 name /\
             group_in 2 b2 pattern /\ matches re_I b2 value).
  { assert (M1 : mandatory 1 pattern = true)
      by (repeat (destruct Hp as [<-|Hp]; [reflexivity|]); destruct Hp).
    assert (M2 : mandatory 2 pattern = true)
      by (repeat (destruct Hp as [<-|Hp]; [reflexivity|]); destruct Hp).
    destruct (hit_group_mandatory 1 Hm M1) as (name & H1).
    destruct (hit_group_mandatory 2 Hm M2) as (value & H2).
    destruct (hit_group_matches 1 Hm H1) as (b1 & B1 & N1).
    destruct (hit_group_matches 2 Hm H2) as (b2 & B2 & N2).
    exists name, value, b1, b2. auto 10. }
  destruct G as (name & value & b1 & b2 & H1 & H2 & B1 & N1 & B2 & N2).
  unfold format_lab. rewrite H1, H2. cbn [format_group].
  assert (W : exists word, In word analytes /\ spells word name).
  { unfold lab_patterns in Hp.
    repeat (destruct Hp as [<-|Hp]; [split_group_in B1; try discriminate; subst b1|]);
      [..|destruct Hp]; cbn [map alts] in N1;
      repeat match type of N1 with
             | matches _ (Alt _ _) _ => apply matches_alt_inv in N1; destruct N1 as [N1|N1]
             end;
      apply matches_lits_inv in N1;
      (eexists; split; [|exact N1]); simpl; tauto. }
  assert (V : decimal_shape value).
  { unfold lab_patterns in Hp.
    repeat (destruct Hp as [<-|Hp]; [split_group_in B2; try discriminate; subst b2|]);
      [..|destruct Hp];
      first [ apply matches_decimal_number in N2; exact N2
            | apply digits_decimal_shape, matches_digits with (fl := re_I); exact N2 ]. }
  destruct W as (word & Hw & Sw).
  exists word, name, value. auto.
Qed.

Lemma extract_lab_results_entries text :
  Forall (fun entry =>
            exists word name value,
              entry = name ++ lit ": " ++ value /\
              In word analytes /\ spells word name /\ decimal_shape value)
         (extract_lab_results self text).
Proof.
  unfold extract_lab_results. rewrite fold_left_groups. cbn [app].
  apply Forall_forall. intros entry H.
  apply in_flat_map in H. destruct H as (pattern & Hp & H).
  apply in_map_iff in H. destruct H as (m & <- & Hm).
  apply re_finditer_hit in Hm. eapply lab_hit_shape; eassumption.
Qed.
End LabResults.

Lemma hd_error_flat_map {A B : Type} (f : A -> list B) (l : list A) x :
  hd_error (flat_map f l) = Some x -> exists a, In a l /\ hd_error (f a) = Some x.
Proof.
  induction l as [|a l IH]; simpl; [discriminate|].
  destruct (f a) as [|y ys] eqn:E; simpl.
  - intros H. destruct (IH H) as (a' & Ha & Hx). exists a'. auto.
  - intros H. exists a. rewrite E. auto.
Qed.

Lemma flat_map_after_map {A B C : Type} (f : B -> list C) (g : A -> B) (l : list A) :
  flat_map f (map g l) = flat_map (fun a => f (g a)) l.
Proof. induction l as [|a l IH]; simpl; [reflexivity|]. rewrite IH. reflexivity. Qed.

Lemma group_in_lits g b s : group_in g b (lits s) -> False.
Proof. induction s as [|c s IH]; simpl; tauto. Qed.

(* ----------------------------------------------------------------- *)
(** *** The text of a section *)

Section LazySection.
Context {Py : Runtime}.
Variable fl : flags.

Lemma first_seq_inv a b st x :
  hd_error (rmatch fl (Seq a b) st) = Some x ->
  exists st', In st' (rmatch fl a st) /\ hd_error (rmatch fl b st') = Some x.
Proof. simpl. apply hd_error_flat_map. Qed.

Lemma skip_state_advance j st c t :
  m_rest st = c :: t -> skip_state (S j) st = skip_state j (advance st).
Proof.
  intros E. unfold skip_state, advance. simpl. rewrite E. simpl.
  f_equal. lia.
Qed.

Lemma skip_state_0 st : skip_state 0 st = st.
Proof. destruct st. unfold skip_state. simpl. f_equal. lia. Qed.

(** A lazy run of characters that are all accepted stops at the first
    place from which the continuation succeeds. *)
Lemma lazy_run_first {B : Type} (ok : char -> bool) (k : mstate -> list B) x :
  (forall c, ok c = true) ->
  forall fuel st,
    length (m_rest st) < fuel ->
    hd_error (flat_map k (star_iter (step_if ok) false fuel st)) = Some x ->
    exists i, i <= length (m_rest st) /\
              hd_error (k (skip_state i st)) = Some x /\
              forall j, j < i -> k (skip_state j st) = [].
Proof.
  intros Hok. induction fuel as [|fuel IH]; intros st Hf H; [lia|].
  cbn [star_iter flat_map] in H.
  destruct (k st) as [|y ys] eqn:E.
  - simpl in H. unfold step_if in H.
    destruct (m_rest st) as [|c t] eqn:Er; [discriminate H|].
    rewrite Hok in H. cbn [filter] in H.
    replace (length (m_rest (advance st)) <? length (c :: t)) with true in H
      by (symmetry; apply Nat.ltb_lt; unfold advance; simpl; rewrite Er; simpl; lia).
    cbn [flat_map] in H. rewrite app_nil_r in H.
    destruct (IH (advance st)) as (i & Hi & Hx & Hmin).
    { unfold advance. simpl. rewrite Er. simpl in *. lia. }
    { exact H. }
    exists (S i). split; [|split].
    + unfold advance in Hi. simpl in Hi. rewrite Er in Hi. simpl in *. lia.
    + rewrite (skip_state_advance i st Er). exact Hx.
    + intros [|j] Hj.
      * rewrite skip_state_0. exact E.
      * rewrite (skip_state_advance j st Er). apply Hmin. lia.
  - exists 0. split; [lia|]. split.
    + rewrite skip_state_0, E. simpl in H. exact H.
    + intros j Hj. lia.
Qed.

Lemma find_always {A : Type} (l : list A) : find (fun _ => true) l = hd_error l.
Proof. destruct l; reflexivity. Qed.

Lemma match_at_hd r pos rest :
  match_at fl r false pos rest = hd_error (rmatch fl r (start_state pos rest)).
Proof. unfold match_at. simpl. apply find_always. Qed.

Lemma hd_error_In {A : Type} (l : list A) x : hd_error l = Some x -> In x l.
Proof. destruct l; simpl; [discriminate|]. intros H. injection H as ->. left. reflexivity. Qed.

(** The text of a section holds no word that ends the section. *)
Lemma section_text_stops heading word more needle text m v :
  DOTALL fl = true ->
  (forall b, ~ group_in 1 b heading) -> (forall b, ~ group_in 1 b more) ->
  Forall2 (fun p c => lit_match fl p c = true) word needle -> needle <> [] ->
  re_search fl (seqs [heading; plus colon_space; Group 1 (star_lazy Any);
                      Alt (lits word) more]) text = Some m ->
  group m 1 = Some v ->
  contains needle v = false.
Proof.
  intros Hd Hh Hm Hw Hn Hs Hv.
  unfold re_search in Hs.
  destruct (search_from fl _ false 0 text) as [[s st'']|] eqn:E; [|discriminate Hs].
  simpl in Hs. injection Hs as <-.
  apply search_from_spec in E. destruct E as (k & -> & _ & E & _).
  replace (if (k =? 0) then false else false) with false in E by (destruct k; reflexivity).
  rewrite match_at_hd in E. unfold seqs, fold_right in E.
  apply first_seq_inv in E. destruct E as (st1 & H1 & E).
  apply first_seq_inv in E. destruct E as (st2 & H2 & E).
  cbn [rmatch] in E. rewrite flat_map_after_map in E.
  apply lazy_run_first in E; [|intros c; unfold any_match; rewrite Hd; reflexivity|lia].
  destruct E as (i & Hi & E & Hmin).
  unfold group, to_match in Hv. cbn [m_groups snd] in Hv.
  apply assoc_In in Hv.
  apply hd_error_In in E.
  assert (Ev : v = firstn i (m_rest st2)).
  { change (In st'' (rmatch fl (Seq (Alt (lits word) more) Eps)
                      (set_cap 1 (firstn (m_pos (skip_state i st2) - m_pos st2) (m_rest st2))
                               (skip_state i st2)))) in E.
    destruct (rmatch_caps _ _ _ _ _ _ E Hv) as [C|(b & C & _)].
    - cbn [set_cap m_caps skip_state m_pos] in C. destruct C as [C|C].
      + injection C as <-. f_equal. lia.
      + exfalso. destruct (rmatch_caps _ _ _ _ _ _ H2 C) as [C2|(b & C2 & _)].
        * destruct (rmatch_caps _ _ _ _ _ _ H1 C2) as [[]|(b & C3 & _)].
          exact (Hh b C3).
        * simpl in C2. tauto.
    - exfalso. cbn [group_in] in C. destruct C as [[C|C]|[]].
      + exact (group_in_lits _ _ _ C).
      + exact (Hm b C). }
  subst v. destruct (contains needle (firstn i (m_rest st2))) eqn:C; [|reflexivity].
  exfalso. apply contains_inv in C. destruct C as (a & b & C).
  assert (Hj : length a < i).
  { pose proof (f_equal (@length _) C) as L. rewrite !length_app, length_firstn in L.
    destruct needle; [contradiction|]. simpl in L. lia. }
  specialize (Hmin (length a) Hj).
  assert (R : m_rest st2 = a ++ needle ++ (b ++ skipn i (m_rest st2))).
  { rewrite <- (firstn_skipn i (m_rest st2)) at 1. rewrite C, <- !app_assoc. reflexivity. }
  pose proof (first_lits fl (m_pos st2 + length a) (b ++ skipn i (m_rest st2))
                ((1, firstn (m_pos (skip_state (length a) st2) - m_pos st2) (m_rest st2))
                   :: m_caps st2) Hw) as F.
  replace (mk_state _ _ _)
    with (set_cap 1 (firstn (m_pos (skip_state (length a) st2) - m_pos st2) (m_rest st2))
                  (skip_state (length a) st2)) in F.
  - clear E. destruct (rmatch fl (lits word) _) as [|y ys]; [discriminate F|].
    cbn [app flat_map] in Hmin. discriminate Hmin.
  - unfold set_cap, skip_state, mk_state. cbn [m_pos m_rest m_caps]. f_equal.
    rewrite R at 1. rewrite skipn_app, skipn_all, Nat.sub_diag. reflexivity.
Qed.
End LazySection.

Ltac ends_at_blank_line :=
  repeat constructor; eexists _, _; (split; [reflexivity|]);
  split; intros b H; simpl in H; tauto.

Section BlankLine.
Context {Py : Runtime}.
Variable self : MedicalReportSummarizer.

Lemma contains_strip needle s :
  contains needle s = false -> contains needle (strip s) = false.
Proof.
  intros H. destruct (contains needle (strip s)) eqn:C; [|reflexivity].
  apply contains_inv in C. destruct C as (x & y & C).
  destruct (strip_split s) as (a & b & E & _ & _).
  rewrite E, C in H.
  replace (a ++ (x ++ needle ++ y) ++ b) with ((a ++ x) ++ needle ++ (y ++ b)) in H
    by (rewrite <- !app_assoc; reflexivity).
  rewrite contains_app in H. discriminate H.
Qed.

Lemma blank_line_stops r text m v :
  ends_at_blank_line r -> re_search re_IS r text = Some m -> group m 1 = Some v ->
  contains (lit "\n\n") v = false.
Proof.
  intros (heading & more & -> & Hh & Hm) Hs Hv.
  exact (@section_text_stops Py re_IS heading (lit "\n\n") more (lit "\n\n") text m v
           eq_refl Hh Hm ltac:(repeat constructor) ltac:(discriminate) Hs Hv).
Qed.

Lemma first_section_no_blank_line text : forall patterns g,
    Forall ends_at_blank_line patterns ->
    first_section patterns text = Ok (Some g) ->
    contains (lit "\n\n") g = false.
Proof.
  induction patterns as [|r rs IH]; intros g F H; simpl in H; [discriminate|].
  inversion F as [|? ? Fr Frs]; subst.
  destruct (re_search re_IS r text) as [m|] eqn:E; [|exact (IH g Frs H)].
  destruct (group m 1) as [v|] eqn:Ev; simpl in H; [|discriminate].
  injection H as <-. eapply blank_line_stops; eassumption.
Qed.

Lemma first_medication_section_no_blank_line text : forall patterns g,
    Forall ends_at_blank_line patterns ->
    first_medication_section patterns text = Ok (Some g) ->
    contains (lit "\n\n") g = false.
Proof.
  induction patterns as [|r rs IH]; intros g F H; simpl in H; [discriminate|].
  inversion F as [|? ? Fr Frs]; subst.
  destruct (re_search re_IS r text) as [m|] eqn:E; [|exact (IH g Frs H)].
  destruct (group m 1) as [v|] eqn:Ev; simpl in H; [|discriminate].
  injection H as <-. eapply blank_line_stops; eassumption.
Qed.

Lemma chief_complaint_patterns_end : Forall ends_at_blank_line chief_complaint_patterns.
Proof. unfold chief_complaint_patterns. ends_at_blank_line. Qed.

Lemma medication_patterns_end : Forall ends_at_blank_line medication_patterns.
Proof. unfold medication_patterns. ends_at_blank_line. Qed.

Lemma diagnosis_patterns_end : Forall ends_at_blank_line diagnosis_patterns.
Proof. unfold diagnosis_patterns. ends_at_blank_line. Qed.

Lemma extract_chief_complaint_text text :
  exists c, extract_chief_complaint self text = Ok c /\
            trimmed c /\ contains (lit "\n\n") c = false.
Proof.
  unfold extract_chief_complaint.
  destruct (first_section chief_complaint_patterns text) as [[g|]|e] eqn:E; cbn [bind].
  - eexists. split; [reflexivity|]. split; [apply strip_trimmed|].
    apply contains_strip.
    eapply first_section_no_blank_line; [apply chief_complaint_patterns_end | exact E].
  - eexists. split; [reflexivity|]. split; [split; exact I | reflexivity].
  - exfalso. destruct (first_section_total text (patterns := chief_complaint_patterns))
      as (o & Ho); [repeat constructor|]. congruence.
Qed.
End BlankLine.

(* ----------------------------------------------------------------- *)
(** *** [validate_medical_entity] *)

Section Validation.
Context {Py : Runtime}.
Variable self : MedicalReportSummarizer.

Lemma rmatch_icd10 text :
  rmatch no_flags icd10_code (start_state 0 text) =
  match text with
  | c :: d1 :: d2 :: rest =>
      if ascii_isupper c && isdecimal d1 && isdecimal d2
      then [mk_state 3 rest []] else []
  | _ => []
  end.
Proof.
  assert (Ec : forall c, set_match no_flags [CRange (ch "A") (ch "Z")] c = ascii_isupper c).
  { intros c. unfold set_match, ascii_isupper. simpl. apply orb_false_r. }
  destruct text as [|c [|d1 [|d2 rest]]]; cbn -[set_match];
    rewrite ?Ec, ?set_match_digit; try reflexivity.
  - destruct (ascii_isupper c); reflexivity.
  - destruct (ascii_isupper c); [|reflexivity]. cbn -[set_match].
    rewrite ?set_match_digit. destruct (isdecimal d1); reflexivity.
  - destruct (ascii_isupper c); [|reflexivity]. cbn -[set_match].
    rewrite ?set_match_digit. destruct (isdecimal d1); [|reflexivity]. cbn -[set_match].
    rewrite ?set_match_digit. destruct (isdecimal d2); reflexivity.
Qed.

Lemma re_match_icd10 text :
  (exists m, re_match no_flags icd10_code text = Some m) <-> icd_shape text.
Proof.
  unfold re_match. rewrite match_at_hd, rmatch_icd10. unfold icd_shape. split.
  - intros (m & H). destruct text as [|c [|d1 [|d2 rest]]]; try discriminate H.
    destruct (ascii_isupper c) eqn:Hc; [|discriminate H].
    destruct (isdecimal d1) eqn:H1; [|discriminate H].
    destruct (isdecimal d2) eqn:H2; [|discriminate H].
    exists c, d1, d2, rest. auto.
  - intros (c & d1 & d2 & rest & -> & -> & -> & ->). eexists. reflexivity.
Qed.

Lemma lower_ascii text :
  forallb is_ascii text = true -> lower text = map ascii_tolower text.
Proof.
  intros H. unfold lower.
  pose proof (@lower_from_ascii Py text [] []) as L. rewrite !app_nil_r in L.
  apply L. rewrite forallb_forall in H. apply Forall_forall. exact H.
Qed.

Lemma lower_from_split a : forall before rest,
    exists X, lower_from before (a ++ rest) = X ++ lower_from (rev a ++ before) rest.
Proof.
  induction a as [|c a IH]; intros before rest.
  - exists []. reflexivity.
  - destruct (IH (c :: before) rest) as (X & E). simpl. rewrite E.
    exists ((if is_ascii c then [ascii_tolower c]
             else u_lower_full before c (a ++ rest)) ++ X).
    rewrite <- !app_assoc. reflexivity.
Qed.

Lemma lowered_is_ascii v word :
  map ascii_tolower v = word -> forallb is_ascii word = true ->
  Forall (fun c => is_ascii c = true) v.
Proof.
  intros <- H. rewrite forallb_forall in H. apply Forall_forall.
  intros c Hc. apply ascii_tolower_is_ascii, H, in_map, Hc.
Qed.

Lemma endswith_app a suffix : endswith (a ++ suffix) suffix = true.
Proof. unfold endswith. rewrite rev_app_distr. apply startswith_app. Qed.

Lemma endswith_inv s suffix : endswith s suffix = true -> exists a, s = a ++ suffix.
Proof.
  unfold endswith. intros H. apply startswith_inv in H. destruct H as (t & E).
  exists (rev t). apply (f_equal (@rev _)) in E.
  rewrite rev_involutive, rev_app_distr, rev_involutive in E. exact E.
Qed.

Lemma ends_caseless_lower suffix text :
  forallb is_ascii suffix = true -> ends_caseless suffix text ->
  endswith (lower text) suffix = true.
Proof.
  intros Hs (a & v & -> & Hv). unfold lower.
  destruct (lower_from_split a [] v) as (X & ->).
  pose proof (@lower_from_ascii Py v (rev a ++ []) [] (@lowered_is_ascii _ _ Hv Hs)) as L.
  rewrite !app_nil_r in L. rewrite app_nil_r. rewrite L, Hv. apply endswith_app.
Qed.

Lemma validate_medical_entity_true text :
  validate_medical_entity self text = true <->
  icd_shape text \/
  existsb (fun suffix => endswith (lower text) suffix) medical_suffixes = true \/
  existsb (fun condition => contains condition (lower text)) medical_conditions = true.
Proof.
  unfold validate_medical_entity. rewrite <- re_match_icd10.
  destruct (re_match no_flags icd10_code text) as [m|].
  - split; [intros _; left; exists m; reflexivity | reflexivity].
  - destruct (existsb _ medical_suffixes).
    + split; [intros _; right; left; reflexivity | reflexivity].
    + destruct (existsb _ medical_conditions).
      * split; [intros _; right; right; reflexivity | reflexivity].
      * split; [discriminate|]. intros [(m & H)|[H|H]]; discriminate.
Qed.

Lemma validate_medical_entity_accepts text :
  icd_shape text \/
  (exists suffix, In suffix medical_suffixes /\ ends_caseless suffix text) \/
  (exists condition, In condition medical_conditions /\ contains_caseless condition text) ->
  validate_medical_entity self text = true.
Proof.
  intros H. apply validate_medical_entity_true.
  destruct H as [H|[(suffix & Hin & H)|(condition & Hin & H)]].
  - left. exact H.
  - right. left. apply existsb_exists. exists suffix. split; [exact Hin|].
    apply ends_caseless_lower; [|exact H].
    revert suffix Hin H. clear. intros suffix Hin _.
    repeat (destruct Hin as [<-|Hin]; [reflexivity|]). destruct Hin.
  - right. right. apply existsb_exists. exists condition. split; [exact Hin|].
    apply contains_caseless_lower; [|exact H].
    repeat (destruct Hin as [<-|Hin]; [reflexivity|]). destruct Hin.
Qed.

Lemma validate_medical_entity_ascii text :
  forallb is_ascii text = true ->
  validate_medical_entity self text = true ->
  icd_shape text \/
  (exists suffix, In suffix medical_suffixes /\ ends_caseless suffix text) \/
  (exists condition, In condition medical_conditions /\ contains_caseless condition text).
Proof.
  intros Ha H. apply validate_medical_entity_true in H.
  rewrite (lower_ascii _ Ha) in H.
  destruct H as [H|[H|H]]; [left; exact H | right; left | right; right];
    apply existsb_exists in H; destruct H as (word & Hin & H); exists word;
    (split; [exact Hin|]).
  - apply endswith_inv in H. destruct H as (a & E).
    apply map_eq_app in E. destruct E as (a' & v & -> & _ & E).
    exists a', v. auto.
  - apply contains_inv in H. destruct H as (a & b & E).
    apply map_eq_app in E. destruct E as (a' & r & -> & _ & E).
    apply map_eq_app in E. destruct E as (v & b' & -> & E & _).
    exists a', v, b'. auto.
Qed.
End Validation.

(* ----------------------------------------------------------------- *)
(** *** The pieces of [re.split] *)

Section Gaps.
Context {Py : Runtime}.
Variable fl : flags.
Variable r : regex.
Variable trigger : char -> bool.
Hypothesis r_consumes : nullable r = false.
Hypothesis trigger_matches :
  forall ma pos c t, trigger c = true -> match_at fl r ma pos (c :: t) <> None.

Lemma unmatched_prefix : forall k rest (ma : nat -> bool) pos,
    (forall j, j < k -> match_at fl r (ma j) (pos + j) (skipn j rest) = None) ->
    Forall (fun c => trigger c = false) (firstn k rest).
Proof.
  induction k as [|k IH]; intros rest ma pos H; [constructor|].
  destruct rest as [|c t]; [constructor|]. simpl. constructor.
  - destruct (trigger c) eqn:E; [|reflexivity]. exfalso.
    apply (trigger_matches (ma 0) (pos + 0) t E). apply (H 0). lia.
  - apply (IH t (fun j => ma (S j)) (S pos)). intros j Hj.
    specialize (H (S j) ltac:(lia)). simpl in H.
    replace (S pos + j) with (pos + S j) by lia. exact H.
Qed.

Lemma split_pieces_gaps text : forall fuel ma pos rest,
    skipn pos text = rest ->
    2 * length rest + 1 < fuel ->
    Forall (Forall (fun c => trigger c = false))
           (split_pieces text pos (map to_match (finditer_from fl r fuel ma pos rest))).
Proof.
  induction fuel as [|fuel IH]; intros ma pos rest Hr Hf; [lia|].
  cbn [finditer_from].
  destruct (search_from fl r ma pos rest) as [[s st']|] eqn:E.
  - cbn [map split_pieces to_match m_start m_end fst snd].
    pose proof (search_from_spec _ _ _ _ _ E) as (k & -> & Hk & Hm & Hnone).
    apply match_at_In in Hm. destruct Hm as [Hin _].
    destruct (rmatch_sound _ _ _ _ Hin) as (w & (R1 & R2 & _) & Mw).
    pose proof (matches_nonempty Mw r_consumes) as Hw.
    cbn [start_state m_rest m_pos] in R1, R2.
    constructor.
    + rewrite Hr. replace (pos + k - pos) with k by lia.
      apply (@unmatched_prefix k rest (fun j => if j =? 0 then ma else false) pos Hnone).
    + apply IH.
      * rewrite R2. replace (pos + k + length w) with (length w + (k + pos)) by lia.
        rewrite <- !skipn_skipn. rewrite Hr.
        rewrite R1. rewrite skipn_app, skipn_all, Nat.sub_diag. reflexivity.
      * pose proof (f_equal (@length _) R1) as L.
        rewrite length_skipn, length_app in L. lia.
  - cbn [map split_pieces]. constructor; [|constructor]. rewrite Hr.
    rewrite <- (firstn_all rest).
    apply (@unmatched_prefix (length rest) rest (fun j => if j =? 0 then ma else false) pos).
    intros j Hj. apply (search_from_none _ _ _ _ _ E). lia.
Qed.

Lemma re_split_gaps text :
  Forall (Forall (fun c => trigger c = false)) (re_split fl r text).
Proof.
  unfold re_split, re_finditer. apply split_pieces_gaps; [reflexivity | lia].
Qed.
End Gaps.

Lemma join_In sep c : forall pieces,
    In c (join sep pieces) -> In c sep \/ exists piece, In piece pieces /\ In c piece.
Proof.
  induction pieces as [|p ps IH]; simpl; [tauto|].
  destruct ps as [|q qs].
  - intros H. right. exists p. auto.
  - intros H. apply in_app_or in H. destruct H as [H|H].
    + right. exists p. auto.
    + apply in_app_or in H. destruct H as [H|H]; [left; exact H|].
      destruct (IH H) as [H'|(piece & H1 & H2)]; [left; exact H'|].
      right. exists piece. auto.
Qed.

Section CleanText.
Context {Py : Runtime}.
Variable self : MedicalReportSummarizer.

Lemma star_iter_nonempty (body : mstate -> list mstate) g fuel st :
  star_iter body g fuel st <> [].
Proof.
  destruct fuel as [|fuel]; simpl; [discriminate|].
  destruct g; [|discriminate].
  destruct (flat_map _ _); discriminate.
Qed.

Lemma match_at_found fl r ma pos rest :
  nullable r = false -> rmatch fl r (start_state pos rest) <> [] ->
  match_at fl r ma pos rest <> None.
Proof.
  intros Hn Hr. unfold match_at. fold (start_state pos rest).
  destruct (rmatch fl r (start_state pos rest)) as [|st' l] eqn:E; [contradiction|].
  assert (Hin : In st' (rmatch fl r (start_state pos rest))) by (rewrite E; left; reflexivity).
  destruct (rmatch_sound _ _ _ _ Hin) as (w & (_ & R2 & _) & Mw).
  pose proof (matches_nonempty Mw Hn) as Hw. cbn [start_state m_pos] in R2.
  simpl. replace (m_pos st' =? pos) with false by (symmetry; apply Nat.eqb_neq; lia).
  rewrite orb_true_r. discriminate.
Qed.

Lemma newline_starts_match ma pos c t :
  (c =? 10)%N = true -> match_at no_flags newlines ma pos (c :: t) <> None.
Proof.
  intros Hc. apply N.eqb_eq in Hc. subst c.
  apply match_at_found; [reflexivity|].
  unfold newlines, plus, newline. cbn [rmatch]. unfold step_if. cbn [start_state m_rest].
  change (lit_match no_flags 10%N 10%N) with true. cbn [flat_map].
  rewrite app_nil_r. apply star_iter_nonempty.
Qed.

Lemma newlines_word w : matches no_flags newlines w -> exists t, w = 10%N :: t.
Proof.
  intros M. apply matches_seq_inv in M. destruct M as (w1 & w2 & -> & M1 & _).
  apply matches_lit_inv in M1. destruct M1 as (c & -> & Hc).
  change (lit_match no_flags 10%N c) with (c =? 10)%N in Hc.
  apply N.eqb_eq in Hc. subst c. exists w2. reflexivity.
Qed.

Lemma no_newline_no_match ma pos rest :
  ~ In 10%N rest -> match_at no_flags newlines ma pos rest = None.
Proof.
  intros Hn. destruct (match_at no_flags newlines ma pos rest) as [st'|] eqn:E; [|reflexivity].
  exfalso. apply match_at_In in E. destruct E as [Hin _].
  destruct (rmatch_sound _ _ _ _ Hin) as (w & (R1 & _) & Mw).
  destruct (newlines_word Mw) as (t & ->). cbn [start_state m_rest] in R1.
  apply Hn. rewrite R1. left. reflexivity.
Qed.

Lemma no_newline_no_search : forall rest ma pos,
    ~ In 10%N rest -> search_from no_flags newlines ma pos rest = None.
Proof.
  induction rest as [|c t IH]; intros ma pos Hn; cbn [search_from];
    rewrite (@no_newline_no_match ma pos _ Hn); [reflexivity|].
  apply IH. intros H. apply Hn. right. exact H.
Qed.

Lemma clean_text_facts text :
  ~ In 10%N (clean_text text) /\
  length (clean_text text) <= 1024 /\
  (~ In 10%N text -> clean_text text = firstn 1024 text).
Proof.
  unfold clean_text, re_sub. split; [|split].
  - intros H.
    assert (H' : In 10%N (join (lit " ") (re_split no_flags newlines text))).
    { rewrite <- (firstn_skipn 1024 (join _ _)). apply in_or_app. left. exact H. }
    apply join_In in H'. destruct H' as [H'|(piece & Hp & Hc)].
    + simpl in H'. destruct H' as [H'|[]]. discriminate H'.
    + pose proof (@re_split_gaps Py no_flags newlines (fun c => (c =? 10)%N) eq_refl
                                 newline_starts_match text) as G.
      rewrite Forall_forall in G. specialize (G piece Hp).
      rewrite Forall_forall in G. specialize (G _ Hc). discriminate G.
  - apply firstn_le_length.
  - intros Hn. unfold re_split, re_finditer.
    cbn [Nat.add Nat.mul finditer_from]. rewrite Nat.add_0_r.
    replace (length text + length text + 2) with (S (length text + length text + 1)) by lia.
    cbn [finditer_from]. rewrite (@no_newline_no_search text false 0 Hn). reflexivity.
Qed.
End CleanText.

Lemma fold_left_pairs {A B C : Type} (f : A -> B -> C) (l : list (A * B)) :
  forall init,
    fold_left (fun acc p => let '(a, b) := p in acc ++ [f a b]) l init
    = init ++ map (fun p => f (fst p) (snd p)) l.
Proof.
  induction l as [|[a b] l IH]; intros init; simpl.
  - symmetry. apply app_nil_r.
  - rewrite IH, <- app_assoc. reflexivity.
Qed.

Lemma enumerate_length {A : Type} (l : list A) : forall start,
    length (enumerate start l) = length l.
Proof. induction l as [|a l IH]; intros start; simpl; [|rewrite IH]; reflexivity. Qed.

Lemma enumerate_nth {A : Type} (l : list A) : forall start i a,
    nth_error l i = Some a -> In (start + i, a) (enumerate start l).
Proof.
  induction l as [|x l IH]; intros start [|i] a H; simpl in *; try discriminate.
  - injection H as ->. left. f_equal. lia.
  - right. replace (start + S i) with (S start + i) by lia. apply IH, H.
Qed.

Lemma append_when {A : Type} (present : bool) (output lines : list A) :
  (if present then output ++ lines else output)
  = output ++ (if present then lines else []).
Proof. destruct present; [reflexivity | symmetry; apply app_nil_r]. Qed.

(* ----------------------------------------------------------------- *)
(** *** [format_summary] *)

Section Format.
Variable self : MedicalReportSummarizer.
Variable now : str.

Lemma format_output_blocks summary :
  format_output self now summary =
  [double_rule; report_title; double_rule; patient_heading; single_rule]
    ++ patient_line "Name: " (name (patient_info summary))
    ++ patient_line "Age: " (age (patient_info summary))
    ++ patient_line "Gender: " (gender (patient_info summary))
    ++ patient_line "MRN: " (mrn (patient_info summary))
    ++ block (critical_flags summary) flags_heading (critical_flags summary)
    ++ block (chief_complaint summary) complaint_heading [chief_complaint summary]
    ++ block (diagnosis summary) diagnoses_heading
             (map numbered_entry (enumerate 1 (diagnosis summary)))
    ++ block (vital_signs summary) vitals_heading (map vital_entry (vital_signs summary))
    ++ block (medications summary) medications_heading
             (map numbered_entry (enumerate 1 (firstn 10 (medications summary))))
    ++ block (lab_results summary) labs_heading
             (map (fun lab => lab_bullet ++ lab) (lab_results summary))
    ++ [10%N :: double_rule; lit "Generated on: " ++ now].
Proof.
  cbv beta delta [format_output].
  repeat lazymatch goal with
         | |- (let output := ?v in @?body output) = ?R =>
             let y := fresh "output" in
             let E := fresh "E" in
             pose (y := v); assert (E : y = v) by reflexivity;
             change (body y = R); cbv beta; clearbody y;
             rewrite ?fold_left_pairs, ?fold_left_append, <- ?app_assoc, ?append_when in E
         end.
  subst. unfold block, patient_line. rewrite map_id, <- !app_assoc. reflexivity.
Qed.

Lemma block_In {A : Type} (field : list A) heading lines line :
  field <> [] -> In line lines -> In line (block field heading lines).
Proof.
  intros Hf Hl. unfold block. destruct field; [contradiction|]. simpl. auto.
Qed.

Lemma format_output_shown summary :
  (forall flag, In flag (critical_flags summary) ->
                In flag (format_output self now summary)) /\
  (chief_complaint summary <> [] ->
   In (chief_complaint summary) (format_output self now summary)) /\
  (forall i diag, nth_error (diagnosis summary) i = Some diag ->
                  In (str_of_nat (S i) ++ lit ". " ++ diag)
                     (format_output self now summary)) /\
  (forall vital value, In (vital, value) (vital_signs summary) ->
                       In (vital ++ lit ": " ++ value)
                          (format_output self now summary)) /\
  (forall i med, i < 10 -> nth_error (medications summary) i = Some med ->
                 In (str_of_nat (S i) ++ lit ". " ++ med)
                    (format_output self now summary)) /\
  (forall lab, In lab (lab_results summary) ->
               In (lab_bullet ++ lab) (format_output self now summary)).
Proof.
  rewrite format_output_blocks.
  repeat split.
  - intros flag H. do 5 (apply in_or_app; right). apply in_or_app. left.
    apply block_In; [|exact H]. intros E. rewrite E in H. exact H.
  - intros H. do 6 (apply in_or_app; right). apply in_or_app. left.
    apply block_In; [exact H | left; reflexivity].
  - intros i diag H. do 7 (apply in_or_app; right). apply in_or_app. left.
    apply block_In; [intros E; rewrite E in H; destruct i; discriminate H|].
    apply (in_map numbered_entry _ (1 + i, diag)), enumerate_nth, H.
  - intros vital value H. do 8 (apply in_or_app; right). apply in_or_app. left.
    apply block_In; [intros E; rewrite E in H; exact H|].
    apply (in_map vital_entry _ (vital, value)), H.
  - intros i med Hi H. do 9 (apply in_or_app; right). apply in_or_app. left.
    apply block_In; [intros E; rewrite E in H; destruct i; discriminate H|].
    apply (in_map numbered_entry _ (1 + i, med)), enumerate_nth.
    rewrite nth_error_firstn. apply Nat.ltb_lt in Hi. rewrite Hi. exact H.
  - intros lab H. do 10 (apply in_or_app; right). apply in_or_app. left.
    apply block_In; [intros E; rewrite E in H; exact H|].
    apply (in_map (fun lab => lab_bullet ++ lab)), H.
Qed.

Lemma block_length {A : Type} (field : list A) heading lines :
  length (block field heading lines) = if nonempty field then 2 + length lines else 0.
Proof. unfold block. destruct (nonempty field); reflexivity. Qed.

Lemma format_output_length summary :
  length (format_output self now summary) =
  7 + length (patient_line "Name: " (name (patient_info summary)))
    + length (patient_line "Age: " (age (patient_info summary)))
    + length (patient_line "Gender: " (gender (patient_info summary)))
    + length (patient_line "MRN: " (mrn (patient_info summary)))
    + (if nonempty (critical_flags summary)
       then 2 + length (critical_flags summary) else 0)
    + (if nonempty (chief_complaint summary) then 3 else 0)
    + (if nonempty (diagnosis summary) then 2 + length (diagnosis summary) else 0)
    + (if nonempty (vital_signs summary) then 2 + length (vital_signs summary) else 0)
    + (if nonempty (medications summary)
       then 2 + min 10 (length (medications summary)) else 0)
    + (if nonempty (lab_results summary) then 2 + length (lab_results summary) else 0).
Proof.
  rewrite format_output_blocks. rewrite !length_app, !block_length.
  rewrite !length_map, !enumerate_length, length_firstn.
  change (length [chief_complaint summary]) with 1. change (2 + 1) with 3.
  generalize (length (patient_line "Name: " (name (patient_info summary)))),
    (length (patient_line "Age: " (age (patient_info summary)))),
    (length (patient_line "Gender: " (gender (patient_info summary)))),
    (length (patient_line "MRN: " (mrn (patient_info summary)))).
  intros n1 n2 n3 n4. cbn [length]. unfold str, char.
  repeat match goal with
         | |- context [if ?b then ?x else ?y] =>
             generalize (if b then x else y); intro
         end.
  lia.
Qed.
End Format.

(* ----------------------------------------------------------------- *)
(** *** The fields of a summary *)

Section Composition.
Context {Py : Runtime}.
Variable self : MedicalReportSummarizer.

Lemma summarize_report_fields text s :
  summarize_report self text = Ok s ->
  extract_patient_info self text = Ok (patient_info s) /\
  extract_chief_complaint self text = Ok (chief_complaint s) /\
  extract_diagnoses self text = Ok (diagnosis s) /\
  extract_medications self text = Ok (medications s) /\
  extract_vital_signs self text = Ok (vital_signs s) /\
  lab_results s = extract_lab_results self text /\
  exists summary, identify_critical_flags self text summary = Ok (critical_flags s).
Proof.
  unfold summarize_report. intros H.
  destruct (extract_patient_info self text) as [p|e]; cbn [bind] in H; [|discriminate].
  destruct (extract_chief_complaint self text) as [c|e]; cbn [bind] in H; [|discriminate].
  destruct (extract_diagnoses self text) as [d|e]; cbn [bind] in H; [|discriminate].
  destruct (extract_medications self text) as [m|e]; cbn [bind] in H; [|discriminate].
  destruct (extract_vital_signs self text) as [v|e]; cbn [bind] in H; [|discriminate].
  match type of H with
  | bind (identify_critical_flags _ _ ?summary) _ = _ =>
      destruct (identify_critical_flags self text summary) as [f|e] eqn:E;
        cbn [bind] in H; [|discriminate]
  end.
  apply Ok_inj in H. subst s. cbn. repeat split. eexists. exact E.
Qed.

Lemma summary_bounds text s :
  summarize_report self text = Ok s ->
  length (diagnosis s) <= 10 /\ length (medications s) <= 15 /\
  length (vital_signs s) <= 5 /\ length (critical_flags s) <= 13.
Proof.
  intros H. apply summarize_report_fields in H.
  destruct H as (_ & _ & Hd & Hm & Hv & _ & (summary & Hf)).
  repeat split.
  - destruct (extract_diagnoses_total self text) as (l & E & L). congruence.
  - destruct (extract_medications_total self text) as (l & E & L). congruence.
  - destruct (extract_vital_signs_table self text) as (d & E & O & _).
    rewrite Hv in E. apply Ok_inj in E. subst d.
    apply in_order_length in O. rewrite length_map in O. exact O.
  - apply identify_critical_flags_in_order, in_order_length in Hf. exact Hf.
Qed.
End Composition.

(* ----------------------------------------------------------------- *)
(** *** The endpoint *)

Section Endpoint.
Context {Py : Runtime}.
Variable summarizer : MedicalReportSummarizer.
Variable now : str.

Lemma endpoint_report fields report :
  app.lookup report_key fields = Some (app.JString report) ->
  app.summarize_report summarizer now (app.JObject fields) =
  if nonempty (strip report)
  then match summarize_report summarizer (strip report) with
       | Ok summary => (app.Success (result_of summarizer now summary), 200)
       | Raise e => (app.Failure (app.Processing_error e), 500)
       end
  else (app.Failure app.Empty_medical_report, 400).
Proof.
  intros H. unfold app.summarize_report.
  assert (F : app.falsy (app.JObject fields) = false).
  { destruct fields; [discriminate H | reflexivity]. }
  rewrite F. cbn [app.medical_report_of bind]. fold report_key. rewrite H.
  cbn [app.strip_of bind].
  destruct (nonempty (strip report)); cbn [negb]; [|reflexivity].
  destruct (summarize_report summarizer (strip report)); reflexivity.
Qed.

Lemma endpoint_other data :
  (forall fields report,
      data = app.JObject fields ->
      app.lookup report_key fields <> Some (app.JString report)) ->
  snd (app.summarize_report summarizer now data) = 400 \/
  snd (app.summarize_report summarizer now data) = 500.
Proof.
  intros H. unfold app.summarize_report.
  destruct data as [|b|zero|s|items|fields]; cbn [app.falsy].
  - left. reflexivity.
  - destruct b; [right | left]; reflexivity.
  - destruct zero; [left | right]; reflexivity.
  - destruct s as [|c s]; [left; reflexivity|]. cbn [nonempty negb app.medical_report_of].
    destruct (contains _ _); [right | left]; reflexivity.
  - destruct items as [|i items]; [left; reflexivity|]. cbn [nonempty negb app.medical_report_of].
    destruct (existsb _ _); [right | left]; reflexivity.
  - destruct fields as [|f fields]; [left; reflexivity|].
    cbn [nonempty negb app.medical_report_of bind]. fold report_key.
    destruct (app.lookup report_key (f :: fields)) as [value|] eqn:E; [|left; reflexivity].
    destruct value as [|b|zero|s|items|fields']; try (right; reflexivity).
    exfalso. exact (H _ s eq_refl E).
Qed.

Lemma endpoint_cases (data : app.json) :
  (exists fields report,
      data = app.JObject fields /\
      app.lookup report_key fields = Some (app.JString report)) \/
  (forall fields report,
      data = app.JObject fields ->
      app.lookup report_key fields <> Some (app.JString report)).
Proof.
  destruct data as [|b|zero|s|items|fields]; try (right; intros ? ? E; discriminate E).
  destruct (app.lookup report_key fields) as [value|] eqn:L.
  - destruct value as [|b|zero|s|items|fields'];
      try (right; intros ? ? E; injection E as <-; rewrite L; discriminate).
    left. exists fields, s. auto.
  - right. intros ? ? E. injection E as <-. rewrite L. discriminate.
Qed.
End Endpoint.

(* ----------------------------------------------------------------- *)
(** *** The earlier module *)

Section Legacy.
Context {Py : Runtime}.
Variable self : MedicalReportSummarizer.

Lemma legacy_first_section_total text : forall patterns,
    Forall (fun r => mandatory 1 r = true) patterns ->
    exists o, Model.first_section patterns text = Ok o.
Proof.
  induction patterns as [|r rs IH]; intros Hm; simpl.
  - exists None. reflexivity.
  - inversion Hm as [|? ? Hr Hrs]; subst.
    destruct (re_search re_IS r text) as [m|] eqn:E; [|exact (IH Hrs)].
    rewrite (need_group TypeError _ _ _ E Hr). simpl. eauto.
Qed.

Lemma legacy_extract_diagnoses_entries text :
  exists l, Model.extract_diagnoses self text = Ok l /\
            length l <= 10 /\ Forall (fun d => d <> [] /\ trimmed d) l.
Proof.
  unfold Model.extract_diagnoses.
  destruct (legacy_first_section_total text (patterns := Model.diagnosis_patterns))
    as (o & ->); [repeat constructor|]. cbn [bind].
  eexists. split; [reflexivity|]. split; [apply firstn_le_length|].
  apply firstn_Forall. destruct o as [g|]; [|constructor].
  apply Forall_forall. intros d H. apply filter_In in H. destruct H as [H1 H2].
  apply in_map_iff in H1. destruct H1 as (raw & <- & _).
  split; [|apply strip_trimmed]. destruct (strip raw); [discriminate H2 | discriminate].
Qed.
End Legacy.

(* ----------------------------------------------------------------- *)
(** *** The end of a section *)

Section Terminators.
Context {Py : Runtime}.
Variable self : MedicalReportSummarizer.

Lemma re_search_occurs fl r text m :
  re_search fl r text = Some m -> exists a w b, text = a ++ w ++ b /\ matches fl r w.
Proof.
  unfold re_search. destruct (search_from fl r false 0 text) as [[s st']|] eqn:E;
    [|discriminate]. intros _.
  destruct (@search_from_hit Py fl r text false 0 s st' E)
    as (k & w & _ & _ & _ & (R & _) & M & _).
  cbn [start_state m_rest] in R.
  exists (firstn k text), w, (m_rest st'). split; [|exact M].
  rewrite <- R. symmetry. apply firstn_skipn.
Qed.

Lemma matches_alts fl w : forall rs,
    matches fl (alts rs) w -> exists r, In r rs /\ matches fl r w.
Proof.
  induction rs as [|r rs IH]; intros M.
  - simpl in M. apply matches_cset_inv in M. destruct M as (c & _ & Hc).
    unfold set_match in Hc. simpl in Hc. destruct (IGNORECASE fl); discriminate.
  - destruct rs as [|r' rs'].
    + exists r. split; [left; reflexivity | exact M].
    + change (alts (r :: r' :: rs')) with (Alt r (alts (r' :: rs'))) in M.
      apply matches_alt_inv in M. destruct M as [M|M].
      * exists r. split; [left; reflexivity | exact M].
      * destruct (IH M) as (x & Hx & Mx). exists x. split; [right; exact Hx | exact Mx].
Qed.

Lemma section_match_ends words r text m :
  ends_with_one_of words r -> re_search re_IS r text = Some m ->
  exists t, In t words /\ occurs (lit t) text.
Proof.
  intros (heading & terminators & -> & Hi) Hs.
  apply re_search_occurs in Hs. destruct Hs as (a & w & b & -> & M).
  unfold section_pattern, seqs, fold_right in M.
  apply matches_seq_inv in M. destruct M as (w1 & x1 & -> & _ & M).
  apply matches_seq_inv in M. destruct M as (w2 & x2 & -> & _ & M).
  apply matches_seq_inv in M. destruct M as (w3 & x3 & -> & _ & M).
  apply matches_seq_inv in M. destruct M as (w4 & x4 & -> & M & Me).
  apply matches_eps_inv in Me. subst x4.
  apply matches_alts in M. destruct M as (r & Hr & M).
  apply in_map_iff in Hr. destruct Hr as (t & <- & Ht).
  apply matches_lits_inv in M.
  exists t. split; [apply Hi, Ht|].
  exists (a ++ w1 ++ w2 ++ w3), w4, b. split.
  - rewrite app_nil_r, <- !app_assoc. reflexivity.
  - exact M.
Qed.

Lemma first_section_none words text : forall patterns,
    Forall (ends_with_one_of words) patterns ->
    (forall t, In t words -> ~ occurs (lit t) text) ->
    first_section patterns text = Ok None.
Proof.
  induction patterns as [|r rs IH]; intros F H; simpl; [reflexivity|].
  inversion F as [|? ? Fr Frs]; subst.
  destruct (re_search re_IS r text) as [m|] eqn:E; [|exact (IH Frs H)].
  exfalso. destruct (@section_match_ends words r text m Fr E) as (t & Ht & Ho). exact (H t Ht Ho).
Qed.

Lemma first_medication_section_none words text : forall patterns,
    Forall (ends_with_one_of words) patterns ->
    (forall t, In t words -> ~ occurs (lit t) text) ->
    first_medication_section patterns text = Ok None.
Proof.
  induction patterns as [|r rs IH]; intros F H; simpl; [reflexivity|].
  inversion F as [|? ? Fr Frs]; subst.
  destruct (re_search re_IS r text) as [m|] eqn:E; [|exact (IH Frs H)].
  exfalso. destruct (@section_match_ends words r text m Fr E) as (t & Ht & Ho). exact (H t Ht Ho).
Qed.

Lemma occurs_prefix word more text : occurs (word ++ more) text -> occurs word text.
Proof.
  intros (a & w & b & -> & S). unfold spells in S.
  apply Forall2_app_inv_l in S. destruct S as (w1 & w2 & S1 & _ & ->).
  exists a, w1, (w2 ++ b). split; [rewrite <- app_assoc; reflexivity | exact S1].
Qed.
End Terminators.

Section Spelling.
Context {Py : Runtime}.

Lemma starts_spelled_app word w rest :
  spells word w -> starts_spelled (w ++ rest) word = true.
Proof.
  induction 1 as [|p c word w H F IH]; simpl; [reflexivity|].
  rewrite H, IH. reflexivity.
Qed.

Lemma starts_spelled_inv word : forall text,
    starts_spelled text word = true -> exists w rest, text = w ++ rest /\ spells word w.
Proof.
  induction word as [|p ps IH]; intros text H.
  - exists [], text. split; [reflexivity | constructor].
  - destruct text as [|c cs]; [discriminate H|]. simpl in H.
    apply andb_true_iff in H. destruct H as [H1 H2].
    destruct (IH cs H2) as (w & rest & -> & S).
    exists (c :: w), rest. split; [reflexivity | constructor; assumption].
Qed.

Lemma spelled_in_occurs word text : spelled_in word text = true <-> occurs word text.
Proof.
  split.
  - induction text as [|c t IH]; simpl; intros H.
    + rewrite orb_false_r in H. apply starts_spelled_inv in H.
      destruct H as (w & rest & E & S). exists [], w, rest. auto.
    + apply orb_true_iff in H. destruct H as [H|H].
      * apply starts_spelled_inv in H.
        destruct H as (w & rest & E & S). exists [], w, rest. auto.
      * destruct (IH H) as (a & w & b & -> & S). exists (c :: a), w, b. auto.
  - intros (a & w & b & -> & S). induction a as [|c a IH].
    + cbn [app]. destruct (w ++ b) as [|x t] eqn:E; cbn [spelled_in];
        rewrite <- E, (starts_spelled_app b S); reflexivity.
    + simpl. rewrite IH. apply orb_true_r.
Qed.

Lemma not_spelled_in word text : spelled_in word text = false -> ~ occurs word text.
Proof. intros H O. apply spelled_in_occurs in O. congruence. Qed.
End Spelling.

(* ================================================================= *)
(** ** Further properties of the program *)

(** X1: the dictionary of [extract_vital_signs] has its keys among the
    five names of the vital signs, each at most once and in the order
    in which the method looks for them; a key is present exactly when
    its pattern is found in the text, and its value is group 1 of the
    first match followed by the unit of the reading. *)
Theorem vital_signs_by_reading
        (Py : Runtime) (self : MedicalReportSummarizer) (text : str) :
  exists d, extract_vital_signs self text = Ok d /\
            in_order (map fst d) vital_keys /\
            Forall (fun row =>
                      dict_get (snd (fst row)) d =
                      option_map (fun m => group_text m 1 ++ snd row)
                                 (re_search re_I (fst (fst row)) text))
                   vital_table.
Proof. exact (extract_vital_signs_table self text). Qed.

(** X2: the values of the vital signs have the shape of their reading:
    digits, a slash and digits for the blood pressure; digits and the
    unit for the heart rate, the respiratory rate and the oxygen
    saturation; a decimal number and the unit for the temperature. *)
Theorem vital_sign_values
        (Py : Runtime) (self : MedicalReportSummarizer) (text : str) (d : dict) :
  extract_vital_signs self text = Ok d ->
  (forall v, dict_get blood_pressure_key d = Some v -> exists sys dia, bp_shape v sys dia) /\
  (forall v, dict_get (lit "Heart Rate") d = Some v ->
             exists n, decimal_digits n /\ v = n ++ lit " bpm") /\
  (forall v, dict_get (lit "Temperature") d = Some v ->
             exists n, decimal_shape n /\ v = n ++ [194; 176; 70]%N) /\
  (forall v, dict_get (lit "Respiratory Rate") d = Some v ->
             exists n, decimal_digits n /\ v = n ++ lit " /min") /\
  (forall v, dict_get (lit "Oxygen Saturation") d = Some v ->
             exists n, decimal_digits n /\ v = n ++ lit "%").
Proof. apply vital_sign_values_aux. Qed.

Lemma vital_sign_values_witness :
  exists n, decimal_digits (Py := BasicRuntime) n /\ lit "72 bpm" = n ++ lit " bpm".
Proof.
  destruct (@vital_sign_values BasicRuntime bare_summarizer (lit "HR: 72, RR: 16")
              [(lit "Heart Rate", lit "72 bpm"); (lit "Respiratory Rate", lit "16 /min")]
              ltac:(vm_compute; reflexivity)) as (_ & H & _).
  exact (H (lit "72 bpm") eq_refl).
Defined.

(** X3: of the patient record that [extract_patient_info] returns, the
    name has no whitespace at either end and its ASCII characters are
    letters, whitespace and commas; the age is empty or a string of
    decimal digits; the ASCII characters of the record number are
    letters and digits. *)
Theorem patient_fields_shaped
        (Py : Runtime) (self : MedicalReportSummarizer) (text : str) :
  exists p, extract_patient_info self text = Ok p /\
            trimmed (name p) /\
            Forall (fun c => is_ascii c = true -> name_char c = true) (name p) /\
            (age p = [] \/ decimal_digits (age p)) /\
            Forall (fun c => is_ascii c = true -> letter_or_digit c = true) (mrn p).
Proof. exact (extract_patient_info_fields self text). Qed.

(** X4: the chief complaint that [extract_chief_complaint] returns has
    no whitespace at either end and holds no blank line. *)
Theorem chief_complaint_one_paragraph
        (Py : Runtime) (self : MedicalReportSummarizer) (text : str) :
  exists c, extract_chief_complaint self text = Ok c /\
            trimmed c /\ contains (lit "\n\n") c = false.
Proof. exact (extract_chief_complaint_text self text). Qed.

(** X5: every diagnosis that [clean_diagnosis_text] and
    [extract_diagnoses] return has more than three characters and no
    whitespace at either end. *)
Theorem diagnoses_trimmed
        (Py : Runtime) (self : MedicalReportSummarizer) (text : str) :
  (exists l, clean_diagnosis_text self text = Ok l /\
             Forall (fun d => trimmed d /\ 3 < length d) l) /\
  (exists l, extract_diagnoses self text = Ok l /\
             Forall (fun d => trimmed d /\ 3 < length d) l).
Proof.
  split.
  - destruct (clean_diagnosis_text_total self text) as (l & H).
    exists l. split; [exact H|]. eapply clean_diagnosis_text_entries, H.
  - destruct (extract_diagnoses_total self text) as (l & H & _).
    exists l. split; [exact H|]. eapply extract_diagnoses_entries, H.
Qed.

(** X6: every medication that [extract_medications] returns is not
    empty and has no whitespace at either end; a name found by the
    dosage pattern is made of ASCII letters and whitespace only. *)
Theorem medications_trimmed
        (Py : Runtime) (self : MedicalReportSummarizer) (text : str) :
  (exists l, extract_medications self text = Ok l /\
             Forall (fun m => m <> [] /\ trimmed m) l) /\
  (forall section name,
      In name (re_findall1 no_flags dosage_pattern section) ->
      Forall (fun c => ascii_isalpha c || isspace c = true) name).
Proof.
  split.
  - destruct (extract_medications_total self text) as (l & H & _).
    exists l. split; [exact H|]. eapply extract_medications_entries, H.
  - intros section name H. apply (dosage_names_shape section name H).
Qed.

Lemma medications_trimmed_witness :
  Forall (fun c => ascii_isalpha c || isspace (Py := BasicRuntime) c = true) (lit "Aspirin").
Proof.
  destruct (medications_trimmed BasicRuntime bare_summarizer []) as [_ H].
  apply (H (lit "Aspirin 81mg daily") (lit "Aspirin")).
  vm_compute. left. reflexivity.
Defined.

(** X7: every laboratory result that [extract_lab_results] returns is
    a name, a colon, a space and a decimal number, where the name
    spells one of the eight analytes of the catalog up to the case of
    its letters. *)
Theorem lab_results_shaped
        (Py : Runtime) (self : MedicalReportSummarizer) (text : str) :
  Forall (fun entry =>
            exists word name value,
              entry = name ++ lit ": " ++ value /\
              In word analytes /\ spells word name /\ decimal_shape value)
         (extract_lab_results self text).
Proof. exact (extract_lab_results_entries self text). Qed.

(** X8: the flags that [identify_critical_flags] returns are a
    selection of thirteen fixed flags, in a fixed order: those of the
    twelve critical terms, in the order of the vocabulary, then the
    blood-pressure flag. *)
Theorem critical_flags_in_order
        (Py : Runtime) (self : MedicalReportSummarizer) (text : str)
        (summary : MedicalSummary) (flags : list str) :
  identify_critical_flags self text summary = Ok flags ->
  in_order flags (map term_flag critical_terms ++ [abnormal_bp_flag]) /\
  length flags <= 13.
Proof.
  intros H. apply identify_critical_flags_in_order in H.
  split; [exact H|]. apply in_order_length in H. exact H.
Qed.

Lemma critical_flags_in_order_witness :
  in_order [flag_prefix ++ lit "Acute mentioned"; abnormal_bp_flag]
           (map (term_flag (Py := BasicRuntime)) critical_terms ++ [abnormal_bp_flag]) /\
  2 <= 13.
Proof.
  exact (@critical_flags_in_order BasicRuntime bare_summarizer (lit "acute")
           (summary_with_vitals [(blood_pressure_key, lit "150/95")])
           [flag_prefix ++ lit "Acute mentioned"; abnormal_bp_flag]
           ltac:(vm_compute; reflexivity)).
Defined.

(** X9: [validate_medical_entity] accepts a text that starts with an
    ASCII capital letter and two decimal digits, a text that ends with
    one of the six suffixes (hyphen included) in any letter casing, and
    a text that holds one of the ten condition words in any letter
    casing; an ASCII text is accepted in these cases only. *)
Theorem validate_medical_entity_rule
        (Py : Runtime) (self : MedicalReportSummarizer) (text : str) :
  (icd_shape text \/
   (exists suffix, In suffix medical_suffixes /\ ends_caseless suffix text) \/
   (exists condition, In condition medical_conditions /\
                      contains_caseless condition text) ->
   validate_medical_entity self text = true) /\
  (forallb is_ascii text = true ->
   validate_medical_entity self text = true ->
   icd_shape text \/
   (exists suffix, In suffix medical_suffixes /\ ends_caseless suffix text) \/
   (exists condition, In condition medical_conditions /\
                      contains_caseless condition text)).
Proof.
  split.
  - apply validate_medical_entity_accepts.
  - apply validate_medical_entity_ascii.
Qed.

Lemma validate_medical_entity_rule_witness :
  validate_medical_entity (Py := BasicRuntime) bare_summarizer (lit "Type 2 DIABETES") = true.
Proof.
  destruct (validate_medical_entity_rule BasicRuntime bare_summarizer
              (lit "Type 2 DIABETES")) as [H _].
  apply H. right. right. exists (lit "diabetes"). split.
  - simpl. tauto.
  - exists (lit "Type 2 "), (lit "DIABETES"), []. split; reflexivity.
Defined.

(** X10: the text that [generate_summary_text] hands to the
    summarization pipeline has no newline and at most 1024 characters;
    it is the start of the report when the report has no newline.  The
    result depends on the pipeline through its answer on such texts
    only, and without a pipeline it is a fixed message. *)
Theorem summarizer_input_clean
        (Py : Runtime) (self : MedicalReportSummarizer) (text : str) :
  ~ In 10%N (clean_text text) /\
  length (clean_text text) <= 1024 /\
  (~ In 10%N text -> clean_text text = firstn 1024 text) /\
  (forall pipeline1 pipeline2 : str -> pipeline_outcome,
      (forall t, length t <= 1024 -> ~ In 10%N t -> pipeline1 t = pipeline2 t) ->
      generate_summary_text self pipeline1 text = generate_summary_text self pipeline2 text) /\
  (summarizer self = None ->
   forall pipeline, generate_summary_text self pipeline text
                    = lit "Summary generation not available").
Proof.
  destruct (clean_text_facts text) as (H1 & H2 & H3).
  repeat split; try assumption.
  - intros pipeline1 pipeline2 H. unfold generate_summary_text.
    rewrite (H (clean_text text) H2 H1). reflexivity.
  - intros H pipeline. unfold generate_summary_text. rewrite H. reflexivity.
Qed.

Lemma summarizer_input_clean_witness :
  clean_text (Py := BasicRuntime) (lit "BP: 150/95") = lit "BP: 150/95"
  /\ generate_summary_text (Py := BasicRuntime) bare_summarizer
                           (fun t => Raised t) (lit "a\n\nb")
     = lit "Summary generation not available".
Proof.
  destruct (summarizer_input_clean BasicRuntime bare_summarizer (lit "BP: 150/95"))
    as (_ & _ & H & _).
  destruct (summarizer_input_clean BasicRuntime bare_summarizer (lit "a\n\nb"))
    as (_ & _ & _ & _ & G).
  split.
  - apply H. simpl. intros K. repeat (destruct K as [K|K]; [discriminate K|]). exact K.
  - apply G. reflexivity.
Defined.

(** X11: the formatted summary shows every critical flag, the chief
    complaint, every diagnosis and every one of the first ten
    medications under its number, every vital sign and every
    laboratory result of the summary. *)
Theorem format_summary_shows
        (self : MedicalReportSummarizer) (now : str) (summary : MedicalSummary) :
  (forall flag, In flag (critical_flags summary) ->
                In flag (format_output self now summary)) /\
  (chief_complaint summary <> [] ->
   In (chief_complaint summary) (format_output self now summary)) /\
  (forall i diag, nth_error (diagnosis summary) i = Some diag ->
                  In (str_of_nat (S i) ++ lit ". " ++ diag)
                     (format_output self now summary)) /\
  (forall vital value, In (vital, value) (vital_signs summary) ->
                       In (vital ++ lit ": " ++ value)
                          (format_output self now summary)) /\
  (forall i med, i < 10 -> nth_error (medications summary) i = Some med ->
                 In (str_of_nat (S i) ++ lit ". " ++ med)
                    (format_output self now summary)) /\
  (forall lab, In lab (lab_results summary) ->
               In (lab_bullet ++ lab) (format_output self now summary)).
Proof. exact (format_output_shown self now summary). Qed.

Lemma format_summary_shows_witness :
  In (lit "150/95 is high")
     (format_output bare_summarizer (lit "2024-01-01 00:00:00")
                    (set_critical_flags empty_summary [lit "150/95 is high"])).
Proof.
  destruct (format_summary_shows bare_summarizer (lit "2024-01-01 00:00:00")
              (set_critical_flags empty_summary [lit "150/95 is high"])) as (H & _).
  apply H. left. reflexivity.
Defined.

(** X12: the list of entries that [format_summary] joins has seven
    fixed entries, one entry for every patient field that is not empty,
    and for every other field that is not empty a heading, a rule and
    its entries, of the medications the first ten only. *)
Theorem format_summary_line_count
        (self : MedicalReportSummarizer) (now : str) (summary : MedicalSummary) :
  length (format_output self now summary) =
  7 + length (patient_line "Name: " (name (patient_info summary)))
    + length (patient_line "Age: " (age (patient_info summary)))
    + length (patient_line "Gender: " (gender (patient_info summary)))
    + length (patient_line "MRN: " (mrn (patient_info summary)))
    + (if nonempty (critical_flags summary)
       then 2 + length (critical_flags summary) else 0)
    + (if nonempty (chief_complaint summary) then 3 else 0)
    + (if nonempty (diagnosis summary) then 2 + length (diagnosis summary) else 0)
    + (if nonempty (vital_signs summary) then 2 + length (vital_signs summary) else 0)
    + (if nonempty (medications summary)
       then 2 + min 10 (length (medications summary)) else 0)
    + (if nonempty (lab_results summary) then 2 + length (lab_results summary) else 0).
Proof. exact (format_output_length self now summary). Qed.

(** X13: in a summary that [summarize_report] returns there are at
    most ten diagnoses, fifteen medications, five vital signs and
    thirteen critical flags, so that the list of entries that
    [format_summary] joins has at most 62 entries besides those of the
    laboratory results.  (An entry may hold newlines: the bound is on
    the entries, not on the lines of the text.) *)
Theorem summary_sizes_bounded
        (Py : Runtime) (self : MedicalReportSummarizer) (now text : str)
        (s : MedicalSummary) :
  summarize_report self text = Ok s ->
  length (diagnosis s) <= 10 /\ length (medications s) <= 15 /\
  length (vital_signs s) <= 5 /\ length (critical_flags s) <= 13 /\
  length (format_output self now s) <= 62 + length (lab_results s).
Proof.
  intros H. destruct (summary_bounds self text H) as (Hd & Hm & Hv & Hf).
  repeat split; try assumption.
  rewrite format_output_length.
  assert (P : forall label value, length (patient_line label value) <= 1).
  { intros label value. unfold patient_line. destruct (nonempty value); simpl; lia. }
  pose proof (P "Name: "%string (name (patient_info s))).
  pose proof (P "Age: "%string (age (patient_info s))).
  pose proof (P "Gender: "%string (gender (patient_info s))).
  pose proof (P "MRN: "%string (mrn (patient_info s))).
  destruct (nonempty (critical_flags s)), (nonempty (chief_complaint s)),
    (nonempty (diagnosis s)), (nonempty (vital_signs s)),
    (nonempty (medications s)), (nonempty (lab_results s)); lia.
Qed.

Lemma summary_sizes_bounded_witness :
  length (format_output bare_summarizer []
                        (summary_with_vitals [(lit "Heart Rate", lit "72 bpm")]))
  <= 62 + 0.
Proof.
  apply (@summary_sizes_bounded BasicRuntime bare_summarizer [] (lit "HR: 72")
           (summary_with_vitals [(lit "Heart Rate", lit "72 bpm")])
           ltac:(vm_compute; reflexivity)).
Defined.

(** X14: the handler of [/api/summarize] answers 200, 400 or 500.  It
    answers 200 exactly when the body is a JSON object that holds a
    string under ["medical_report"] which is not blank and on which
    [summarize_report] does not raise; the answer then carries the
    summary of the stripped report. *)
Theorem endpoint_status
        (Py : Runtime) (summarizer : MedicalReportSummarizer) (now : str)
        (data : app.json) :
  (snd (app.summarize_report summarizer now data) = 200 \/
   snd (app.summarize_report summarizer now data) = 400 \/
   snd (app.summarize_report summarizer now data) = 500) /\
  (snd (app.summarize_report summarizer now data) = 200 <->
   exists fields report,
     data = app.JObject fields /\
     app.lookup report_key fields = Some (app.JString report) /\
     strip report <> [] /\
     int_exceeds (systolic_digits (strip report)) = false) /\
  (forall fields report summary,
      data = app.JObject fields ->
      app.lookup report_key fields = Some (app.JString report) ->
      strip report <> [] ->
      summarize_report summarizer (strip report) = Ok summary ->
      app.summarize_report summarizer now data
      = (app.Success (result_of summarizer now summary), 200)).
Proof.
  destruct (endpoint_cases data) as [(fields & report & -> & L)|N].
  - rewrite (endpoint_report summarizer now _ L).
    pose proof (summarize_report_returns Py summarizer (strip report)) as R.
    destruct (strip report) as [|c t] eqn:Es.
    + cbn [nonempty snd]. split; [auto|]. split.
      * split; [discriminate|].
        intros (fields' & report' & E & L' & Hn & _). injection E as <-.
        rewrite L in L'. injection L' as <-. rewrite Es in Hn. contradiction.
      * intros fields' report' summary E L' Hn _. injection E as <-.
        rewrite L in L'. injection L' as <-. rewrite Es in Hn. contradiction.
    + cbn [nonempty]. destruct (int_exceeds (systolic_digits (c :: t))) eqn:Ei.
      * rewrite R. cbn [snd]. split; [auto|]. split.
        -- split; [discriminate|].
           intros (fields' & report' & E & L' & _ & Hi). injection E as <-.
           rewrite L in L'. injection L' as <-. rewrite Es in Hi. congruence.
        -- intros fields' report' summary E L' _ Hs. injection E as <-.
           rewrite L in L'. injection L' as <-. rewrite Es in Hs. congruence.
      * destruct R as (s & Hs & _). rewrite Hs. cbn [snd]. split; [auto|]. split.
        -- split; [|reflexivity]. intros _. exists fields, report.
           rewrite Es. repeat split; [exact L | discriminate | exact Ei].
        -- intros fields' report' summary E L' _ Hs'. injection E as <-.
           rewrite L in L'. injection L' as <-. rewrite Es in Hs'.
           rewrite Hs in Hs'. injection Hs' as <-. reflexivity.
  - pose proof (@endpoint_other Py summarizer now data N) as S. split; [tauto|]. split.
    + split.
      * intros H. destruct S as [S|S]; rewrite S in H; discriminate H.
      * intros (fields & report & E & L & _). exfalso. exact (N fields report E L).
    + intros fields report summary E L _ _. exfalso. exact (N fields report E L).
Qed.

Lemma endpoint_status_witness :
  app.summarize_report (Py := BasicRuntime) bare_summarizer []
                       (app.JObject [(report_key, app.JString (lit " HR: 72 "))])
  = (app.Success (result_of bare_summarizer []
                            (summary_with_vitals [(lit "Heart Rate", lit "72 bpm")])), 200).
Proof.
  destruct (endpoint_status BasicRuntime bare_summarizer []
              (app.JObject [(report_key, app.JString (lit " HR: 72 "))])) as (_ & _ & H).
  apply (H [(report_key, app.JString (lit " HR: 72 "))] (lit " HR: 72 ")).
  - reflexivity.
  - reflexivity.
  - vm_compute. discriminate.
  - vm_compute. reflexivity.
Defined.



(** X16: what the handler answers with 500: a report on which
    [summarize_report] raises, that is one whose first blood-pressure
    reading has a systolic too long for [int], and a value under
    ["medical_report"] that is not a string; a body without the key is
    answered with 400. *)
Theorem endpoint_errors
        (Py : Runtime) (summarizer : MedicalReportSummarizer) (now : str)
        (fields : list (str * app.json)) :
  (forall report,
      app.lookup report_key fields = Some (app.JString report) ->
      strip report <> [] ->
      int_exceeds (systolic_digits (strip report)) = true ->
      app.summarize_report summarizer now (app.JObject fields)
      = (app.Failure (app.Processing_error ValueError), 500)) /\
  (forall value,
      app.lookup report_key fields = Some value ->
      (forall s, value <> app.JString s) ->
      app.summarize_report summarizer now (app.JObject fields)
      = (app.Failure (app.Processing_error AttributeError), 500)) /\
  (app.lookup report_key fields = None ->
   app.summarize_report summarizer now (app.JObject fields)
   = (app.Failure app.No_medical_report_provided, 400)).
Proof.
  repeat split.
  - intros report L Hn Hi. rewrite (endpoint_report summarizer now _ L).
    pose proof (summarize_report_returns Py summarizer (strip report)) as R.
    rewrite Hi in R. rewrite R. destruct (strip report); [contradiction | reflexivity].
  - intros value L Hv. unfold app.summarize_report.
    assert (F : app.falsy (app.JObject fields) = false)
      by (destruct fields; [discriminate L | reflexivity]).
    rewrite F. cbn [app.medical_report_of bind]. fold report_key. rewrite L.
    destruct value as [|b|zero|s|items|fields']; try reflexivity.
    exfalso. exact (Hv s eq_refl).
  - intros L. unfold app.summarize_report.
    destruct fields as [|f fields]; [reflexivity|].
    cbn [app.falsy nonempty negb app.medical_report_of bind]. fold report_key.
    rewrite L. reflexivity.
Qed.

Lemma endpoint_errors_witness :
  app.summarize_report (Py := BasicRuntime) bare_summarizer []
                       (app.JObject [(report_key, app.JNumber false)])
  = (app.Failure (app.Processing_error AttributeError), 500)
  /\ app.summarize_report (Py := BasicRuntime) bare_summarizer []
                          (app.JObject [(lit "report", app.JString (lit "HR: 72"))])
     = (app.Failure app.No_medical_report_provided, 400).
Proof.
  split.
  - destruct (endpoint_errors BasicRuntime bare_summarizer []
                [(report_key, app.JNumber false)]) as (_ & H & _).
    apply (H (app.JNumber false)); [reflexivity | discriminate].
  - destruct (endpoint_errors BasicRuntime bare_summarizer []
                [(lit "report", app.JString (lit "HR: 72"))]) as (_ & _ & H).
    apply H. reflexivity.
Defined.

(** X17: [extract_diagnoses] of the earlier module returns at most ten
    items, none empty and none with whitespace at either end; it keeps
    the items that the later module filters out, and the number of the
    first item. *)
Theorem legacy_diagnoses_kept
        (Py : Runtime) (self : MedicalReportSummarizer) (text : str) :
  (exists l, Model.extract_diagnoses self text = Ok l /\
             length l <= 10 /\ Forall (fun d => d <> [] /\ trimmed d) l) /\
  Model.extract_diagnoses
    self (lit "Diagnosis: 1. Acute coronary syndrome\n2. Medication adjustment\n\n")
  = Ok [lit "1. Acute coronary syndrome"; lit "Medication adjustment"].
Proof.
  split; [exact (legacy_extract_diagnoses_entries self text) | reflexivity].
Qed.

(** X18: a section is found only with its end: in a text that holds
    no blank line and none of the words that end a section, in any
    letter casing, [extract_chief_complaint], [extract_diagnoses] and
    [extract_medications] find nothing, whatever headings the text
    holds. *)
Theorem sections_need_terminator
        (Py : Runtime) (self : MedicalReportSummarizer) (text : str) :
  ((forall t, In t ["\n\n"; "History"; "HPI"]%string -> spelled_in (lit t) text = false) ->
   extract_chief_complaint self text = Ok []) /\
  ((forall t, In t ["\n\n"; "Plan"; "Medications"; "Treatment"; "Recommendations"]%string ->
              spelled_in (lit t) text = false) ->
   extract_diagnoses self text = Ok []) /\
  ((forall t, In t ["\n\n"; "Allergies"; "Procedures"]%string ->
              spelled_in (lit t) text = false) ->
   extract_medications self text = Ok []).
Proof.
  repeat split; intros H.
  - unfold extract_chief_complaint.
    rewrite (@first_section_none Py ["\n\n"; "History of Present"; "History"; "HPI"]%string
               text chief_complaint_patterns).
    + reflexivity.
    + unfold chief_complaint_patterns.
      repeat constructor; eexists _, _; (split; [reflexivity|]);
        intros t Ht; simpl in Ht; simpl; tauto.
    + intros t Ht O. simpl in Ht.
      destruct Ht as [<-|[<-|[<-|[<-|[]]]]].
      * exact (not_spelled_in (H "\n\n"%string ltac:(simpl; tauto)) O).
      * apply (not_spelled_in (H "History"%string ltac:(simpl; tauto))).
        apply (@occurs_prefix Py (lit "History") (lit " of Present") text O).
      * exact (not_spelled_in (H "History"%string ltac:(simpl; tauto)) O).
      * exact (not_spelled_in (H "HPI"%string ltac:(simpl; tauto)) O).
  - unfold extract_diagnoses.
    rewrite (@first_section_none
               Py ["\n\n"; "Plan"; "Medications"; "Treatment"; "Recommendations"]%string
               text diagnosis_patterns).
    + reflexivity.
    + unfold diagnosis_patterns.
      repeat constructor; eexists _, _; (split; [reflexivity|]);
        intros t Ht; simpl in Ht; simpl; tauto.
    + intros t Ht. apply not_spelled_in, H, Ht.
  - unfold extract_medications.
    rewrite (@first_medication_section_none Py ["\n\n"; "Allergies"; "Procedures"]%string
               text medication_patterns).
    + reflexivity.
    + unfold medication_patterns.
      repeat constructor; eexists _, _; (split; [reflexivity|]);
        intros t Ht; simpl in Ht; simpl; tauto.
    + intros t Ht. apply not_spelled_in, H, Ht.
Qed.

Lemma sections_need_terminator_witness :
  extract_chief_complaint (Py := BasicRuntime) bare_summarizer
                          (lit "Chief Complaint: chest pain\nBP: 150/95") = Ok [].
Proof.
  destruct (sections_need_terminator BasicRuntime bare_summarizer
              (lit "Chief Complaint: chest pain\nBP: 150/95")) as (H & _).
  apply H. intros t Ht. simpl in Ht.
  destruct Ht as [<-|[<-|[<-|[]]]]; vm_compute; reflexivity.
Defined.
